(** * habit_tg: the habit / mood / reminder bot of [bot/main.py]

    A shallow embedding of the handlers of [HabitBot], of the four SQLite
    tables they read and write and of the dispatcher that [_handlers] sets
    up, followed by the properties of the store that the specification
    states and by properties of the handlers, the conversation and the
    poller read off the code.

    Conventions of the embedding.
    - Python [str] is [string]: a sequence of bytes, the UTF-8 encoding of the
      text.  Character classes ([str.strip], [\d], [int]) are the ASCII ones;
      the Unicode extensions Python adds to them (other decimal digits, other
      white space) stay outside the model.  On a text that [isascii] the
      classes are Python's; a statement that depends on how a text is
      stripped, decoded or refused by the pattern says so in a hypothesis.
    - SQLite [INTEGER] and Python [int] are [Z].  The 64-bit limit of SQLite
      is not modelled: Telegram ids and the values the bot writes (0, 1, a
      mood 0..10, row ids counted from 1) stay far below it.  An integer
      outside that range, which only a crafted payload can carry, makes
      [sqlite3] raise [OverflowError] before the statement runs; [bindable]
      is the range, and a statement that says a press is carried out has it
      as a hypothesis.
    - A table that declares an [INTEGER PRIMARY KEY] is a finite map from that
      key ([gmap]); a table that declares no key is the list of its rows in
      rowid order, which is insertion order since no row of such a table is
      ever deleted.
    - The clock ([datetime.now()]) is an input of each handler, already
      formatted: [today] is [strftime("%Y-%m-%d")], [now] is
      [strftime("%H:%M")].
    - The chat transport is a log of the requests the handlers issue to it;
      a request is taken to return, so what a handler does after a failed
      delivery is outside the model. *)

From Stdlib Require Import ZArith String Ascii List Lia.
From Stdlib Require Import DecimalString DecimalZ.
From stdpp Require Import base option list sorting strings gmap.

Local Open Scope string_scope.
Local Open Scope Z_scope.

(** ** The pieces of the Python runtime the handlers call *)

Module Py.

(** Exceptions a handler can raise before it returns. *)
Inductive exn : Set :=
| IndexError      (* [l[i]] out of range *)
| ValueError      (* [int(s)] on a malformed literal *)
| AttributeError. (* attribute access on [None] *)

Inductive result (A : Type) : Type :=
| Ok (a : A)
| Raise (e : exn).
Arguments Ok {A} a.
Arguments Raise {A} e.

(** [c.isspace()] and [c.isdecimal()] of an ASCII character: the white space
    [str.strip] and [str.split] drop, and the digits [\d] and [int] take.
    Python counts further characters beyond U+007F in both classes. *)
Definition is_space (c : ascii) : bool :=
  let n := nat_of_ascii c in
  ((9 <=? n) && (n <=? 13) || (28 <=? n) && (n <=? 31) || (n =? 32))%nat.

Definition is_digit (c : ascii) : bool :=
  let n := nat_of_ascii c in ((48 <=? n) && (n <=? 57))%nat.

(** [s.lstrip()], [s.rstrip()], [s.strip()] *)
Fixpoint lstrip (s : string) : string :=
  match s with
  | String c s' => if is_space c then lstrip s' else s
  | EmptyString => EmptyString
  end.

Fixpoint rstrip (s : string) : string :=
  match s with
  | String c s' =>
      match rstrip s' with
      | EmptyString => if is_space c then EmptyString else String c EmptyString
      | t => String c t
      end
  | EmptyString => EmptyString
  end.

Definition strip (s : string) : string := rstrip (lstrip s).

(** [s.split(sep)] for a one-character separator: never the empty list. *)
Fixpoint split (sep : ascii) (s : string) : list string :=
  match s with
  | EmptyString => [EmptyString]
  | String c s' =>
      if Ascii.eqb c sep then EmptyString :: split sep s'
      else match split sep s' with
           | w :: ws => String c w :: ws
           | [] => [String c EmptyString]
           end
  end.

(** [l[i]] *)
Definition index {A : Type} (l : list A) (i : nat) : result A :=
  match nth_error l i with
  | Some x => Ok x
  | None => Raise IndexError
  end.

(** [str(n)] for an [int]: decimal, a leading [-] when negative. *)
Definition str (n : Z) : string := NilZero.string_of_int (Z.to_int n).

(** [int(s)]: surrounding white space is dropped, then an optional sign and
    at least one decimal digit.  The handlers only pass a field of
    [split("_")], so the digit-grouping underscores that [int] also accepts
    never reach it.  Around an ASCII literal [int] skips the white space of
    C's [isspace], which is [is_space] without the separators U+001C to
    U+001F. *)
Definition is_c_space (c : ascii) : bool :=
  let n := nat_of_ascii c in ((9 <=? n) && (n <=? 13) || (n =? 32))%nat.

Fixpoint skip_c_space (s : string) : string :=
  match s with
  | String c s' => if is_c_space c then skip_c_space s' else s
  | EmptyString => EmptyString
  end.

Fixpoint drop_c_space (s : string) : string :=
  match s with
  | String c s' =>
      match drop_c_space s' with
      | EmptyString => if is_c_space c then EmptyString else String c EmptyString
      | t => String c t
      end
  | EmptyString => EmptyString
  end.

Definition digits (s : string) : result Z :=
  match s with
  | EmptyString => Raise ValueError
  | _ => match NilEmpty.uint_of_string s with
         | Some d => Ok (Z.of_uint d)
         | None => Raise ValueError
         end
  end.

Definition int (s : string) : result Z :=
  match drop_c_space (skip_c_space s) with
  | String "-"%char t =>
      match digits t with Ok n => Ok (- n) | Raise e => Raise e end
  | String "+"%char t => digits t
  | t => digits t
  end.

(** The fragment of [re] the bot uses: a sequence of atoms, each [\d] or a
    literal character.  [re.match] anchors the pattern at the start of the
    string only; [re.fullmatch] anchors it at both ends. *)
Inductive atom : Set :=
| Digit
| Lit (c : ascii).

Definition atom_matches (a : atom) (c : ascii) : bool :=
  match a with
  | Digit => is_digit c
  | Lit c' => Ascii.eqb c c'
  end.

(** The rest of [s] after a match of [p] at its start. *)
Fixpoint match_here (p : list atom) (s : string) : option string :=
  match p, s with
  | [], _ => Some s
  | a :: p', String c s' => if atom_matches a c then match_here p' s' else None
  | _ :: _, EmptyString => None
  end.

Definition re_match (p : list atom) (s : string) : bool :=
  match match_here p s with Some _ => true | None => false end.

Definition re_fullmatch (p : list atom) (s : string) : bool :=
  match match_here p s with Some EmptyString => true | _ => false end.

(** [datetime.strftime("%H:%M")] of a time of day: hour and minute, two
    decimal digits each, padded with a zero. *)
Definition pad2 (n : nat) : string :=
  if (n <? 10)%nat then "0" +:+ str (Z.of_nat n) else str (Z.of_nat n).

Definition strftime_HM (hour minute : nat) : string :=
  pad2 hour +:+ ":" +:+ pad2 minute.

(** [s.split()]: the words of [s], cut at every run of white space. *)
Fixpoint fields (s : string) : list string :=
  match s with
  | EmptyString => [EmptyString]
  | String c s' =>
      if is_space c then EmptyString :: fields s'
      else match fields s' with
           | w :: ws => String c w :: ws
           | [] => [String c EmptyString]
           end
  end.

Definition split_ws (s : string) : list string :=
  filter (λ w, w ≠ EmptyString) (fields s).

(** [s[n:]] *)
Fixpoint slice_from (n : nat) (s : string) : string :=
  match n, s with
  | O, _ => s
  | S n', String _ s' => slice_from n' s'
  | S _, EmptyString => EmptyString
  end.

(** [datetime.now()], to the minute, and the calendar arithmetic of
    [d - timedelta(days=i)].  The formats are those of the C locale;
    [%Y] is written for the four-digit years a clock shows. *)
Record datetime : Type :=
  { dt_year : nat; dt_month : nat; dt_day : nat; dt_hour : nat; dt_minute : nat }.

Definition is_leap (y : nat) : bool :=
  ((y mod 4 =? 0) && (negb (y mod 100 =? 0) || (y mod 400 =? 0)))%nat.

Definition days_in_month (y m : nat) : nat :=
  match m with
  | 2 => if is_leap y then 29 else 28
  | 4 | 6 | 9 | 11 => 30
  | _ => 31
  end%nat.

Definition yesterday (d : datetime) : datetime :=
  match dt_day d, dt_month d with
  | S (S day'), _ =>
      {| dt_year := dt_year d; dt_month := dt_month d; dt_day := S day';
         dt_hour := dt_hour d; dt_minute := dt_minute d |}
  | _, S (S month') =>
      {| dt_year := dt_year d; dt_month := S month';
         dt_day := days_in_month (dt_year d) (S month');
         dt_hour := dt_hour d; dt_minute := dt_minute d |}
  | _, _ =>
      {| dt_year := pred (dt_year d); dt_month := 12; dt_day := 31;
         dt_hour := dt_hour d; dt_minute := dt_minute d |}
  end.

Definition minus_days (d : datetime) (i : nat) : datetime := Nat.iter i yesterday d.

Definition month_abbr (m : nat) : string :=
  nth (pred m) ["Jan"; "Feb"; "Mar"; "Apr"; "May"; "Jun";
                "Jul"; "Aug"; "Sep"; "Oct"; "Nov"; "Dec"] EmptyString.

(** [d.strftime("%d %b")] and [f"{d:%Y-%m-%d}"] *)
Definition strftime_d_b (d : datetime) : string :=
  pad2 (dt_day d) +:+ " " +:+ month_abbr (dt_month d).

Definition strftime_Ymd (d : datetime) : string :=
  str (Z.of_nat (dt_year d)) +:+ "-" +:+ pad2 (dt_month d) +:+ "-" +:+ pad2 (dt_day d).

(** Every character of [s] satisfies [P]. *)
Fixpoint all_chars (P : ascii → bool) (s : string) : bool :=
  match s with
  | EmptyString => true
  | String c s' => P c && all_chars P s'
  end.

(** The characters [str] prints. *)
Definition printable (c : ascii) : bool := is_digit c || Ascii.eqb c "-".

(** [s.isascii()]: every character of the text is below U+0080, so that
    every byte is a character and the classes above decide as Python does. *)
Definition isascii (s : string) : bool :=
  all_chars (λ c, (nat_of_ascii c <? 128)%nat) s.

(** [date.toordinal()], as CPython's [datetime] computes it: the number of
    the day in the proleptic Gregorian calendar, 0001-01-01 being day 1.
    [d - timedelta(days=i)] is the date whose ordinal is [i] less, at the
    same time of day; the dates of [datetime] have years 1 to 9999. *)
Definition days_before_year (y : nat) : Z :=
  let n := Z.of_nat y - 1 in n * 365 + n / 4 - n / 100 + n / 400.

Definition days_before_month (y m : nat) : Z :=
  Z.of_nat (list_sum ((λ k, days_in_month y (S k)) <$> seq 0 (pred m))).

Definition toordinal (d : datetime) : Z :=
  days_before_year (dt_year d) + days_before_month (dt_year d) (dt_month d)
  + Z.of_nat (dt_day d).

Definition valid_date (d : datetime) : Prop :=
  1 ≤ Z.of_nat (dt_year d) ≤ 9999 ∧ (1 ≤ dt_month d ≤ 12)%nat
  ∧ (1 ≤ dt_day d ≤ days_in_month (dt_year d) (dt_month d))%nat.

End Py.

Import Py.

(** ** The persisted schema ([init_db]) *)

(** [habits (id INTEGER PRIMARY KEY AUTOINCREMENT, user_id INTEGER, name TEXT)]:
    a row without its key. *)
Record habit : Type := { habit_user : Z; habit_name : string }.

(** [habit_logs (user_id INTEGER, habit_id INTEGER, date TEXT, value INTEGER)] *)
Record habit_log : Type :=
  { log_user : Z; log_habit : Z; log_date : string; log_value : Z }.

(** [mood (user_id INTEGER, date TEXT, value INTEGER)] *)
Record mood_entry : Type := { mood_user : Z; mood_date : string; mood_value : Z }.

(** The database file.  [habits] and [reminders] declare a primary key;
    [habit_logs] and [mood] declare no key and no UNIQUE constraint.
    [habits_seq] is the counter AUTOINCREMENT keeps in [sqlite_sequence]: the
    largest id the table has ever held. *)
Record store : Type := {
  habits : gmap Z habit;
  habits_seq : Z;
  habit_logs : list habit_log;
  mood : list mood_entry;
  reminders : gmap Z string  (* [reminders (user_id INTEGER PRIMARY KEY, time TEXT)] *)
}.

#[global] Instance habit_eq_dec : EqDecision habit.
Proof. solve_decision. Defined.
#[global] Instance habit_log_eq_dec : EqDecision habit_log.
Proof. solve_decision. Defined.
#[global] Instance mood_entry_eq_dec : EqDecision mood_entry.
Proof. solve_decision. Defined.

Definition empty_store : store :=
  {| habits := ∅; habits_seq := 0; habit_logs := []; mood := []; reminders := ∅ |}.

(** [CREATE TABLE IF NOT EXISTS ...] four times: an existing file is left as
    it is, a missing one starts with four empty tables. *)
Definition init_db (file : option store) : store := default empty_store file.

(** The integers [sqlite3] binds to a parameter: those of SQLite's signed
    64-bit [INTEGER]. *)
Definition bindable (z : Z) : Prop := - 2 ^ 63 ≤ z < 2 ^ 63.

(** ** The SQL statements of the handlers *)

Module Sql.

(** Rows of a keyed table in the order a scan returns them: by rowid. *)
Definition key_le {V : Type} (a b : Z * V) : Prop := a.1 ≤ b.1.
#[global] Instance key_le_dec {V : Type} : RelDecision (@key_le V).
Proof. intros a b. unfold key_le. apply _. Defined.

Definition scan {V : Type} (m : gmap Z V) : list (Z * V) :=
  merge_sort key_le (map_to_list m).

Definition max_rowid {V : Type} (m : gmap Z V) : Z :=
  map_fold (λ k _ acc, Z.max k acc) 0 m.

(** [REPLACE INTO t VALUES (...)] on a table kept as a list: the rows that
    collide with the new one on a declared key are deleted, then the row is
    inserted.  [key] projects a row onto the columns of the table's PRIMARY
    KEY or UNIQUE constraint; it is [None] for a table that declares none,
    and then nothing collides. *)
Definition replace_into {R K : Type} `{EqDecision K}
    (key : option (R → K)) (new : R) (rows : list R) : list R :=
  match key with
  | Some k => filter (λ r, k r ≠ k new) rows ++ [new]
  | None => rows ++ [new]
  end.

(** The key [CREATE TABLE mood] declares. *)
Definition mood_key : option (mood_entry → Z * string) := None.

(** [SELECT id, name FROM habits WHERE user_id=?] *)
Definition select_habits (uid : Z) (s : store) : list (Z * string) :=
  (λ r, (r.1, habit_name r.2)) <$> filter (λ r, habit_user r.2 = uid) (scan (habits s)).

(** [INSERT INTO habits (user_id, name) VALUES (?,?)]: AUTOINCREMENT takes
    one more than the largest id the table holds or has ever held. *)
Definition next_habit_id (s : store) : Z :=
  Z.max (habits_seq s) (max_rowid (habits s)) + 1.

Definition insert_habit (uid : Z) (name : string) (s : store) : store :=
  let id := next_habit_id s in
  {| habits := <[id := {| habit_user := uid; habit_name := name |}]> (habits s);
     habits_seq := id;
     habit_logs := habit_logs s; mood := mood s; reminders := reminders s |}.

(** [DELETE FROM habits WHERE id=?] *)
Definition delete_habit (hid : Z) (s : store) : store :=
  {| habits := delete hid (habits s);
     habits_seq := habits_seq s;
     habit_logs := habit_logs s; mood := mood s; reminders := reminders s |}.

(** [UPDATE habits SET name=? WHERE id=?]; the id parameter is [None] when
    Python binds [None], and [id = NULL] holds of no row. *)
Definition update_habit_name (name : string) (hid : option Z) (s : store) : store :=
  match hid with
  | Some id =>
      {| habits := alter (λ h, {| habit_user := habit_user h; habit_name := name |}) id (habits s);
         habits_seq := habits_seq s;
         habit_logs := habit_logs s; mood := mood s; reminders := reminders s |}
  | None => s
  end.

(** The [WHERE user_id=? AND habit_id=? AND date=?] of the log statements. *)
Definition log_at (uid hid : Z) (day : string) (r : habit_log) : Prop :=
  log_user r = uid ∧ log_habit r = hid ∧ log_date r = day.
#[global] Instance log_at_dec uid hid day r : Decision (log_at uid hid day r).
Proof. unfold log_at. apply _. Defined.

(** [SELECT value FROM habit_logs WHERE ...] followed by [.fetchone()]: the
    first matching row, [None] when there is none. *)
Definition select_log_value (uid hid : Z) (day : string) (s : store) : option Z :=
  log_value <$> head (filter (log_at uid hid day) (habit_logs s)).

(** [UPDATE habit_logs SET value=? WHERE ...]: every matching row. *)
Definition set_value (uid hid : Z) (day : string) (v : Z) (r : habit_log) : habit_log :=
  if decide (log_at uid hid day r)
  then {| log_user := log_user r; log_habit := log_habit r;
          log_date := log_date r; log_value := v |}
  else r.

Definition update_log_value (v uid hid : Z) (day : string) (s : store) : store :=
  {| habits := habits s; habits_seq := habits_seq s;
     habit_logs := set_value uid hid day v <$> habit_logs s;
     mood := mood s; reminders := reminders s |}.

(** [INSERT INTO habit_logs VALUES (?,?,?,1)] *)
Definition insert_log (uid hid : Z) (day : string) (s : store) : store :=
  {| habits := habits s; habits_seq := habits_seq s;
     habit_logs := habit_logs s ++
       [{| log_user := uid; log_habit := hid; log_date := day; log_value := 1 |}];
     mood := mood s; reminders := reminders s |}.

(** [REPLACE INTO mood VALUES (?,?,?)] *)
Definition replace_mood (uid : Z) (day : string) (v : Z) (s : store) : store :=
  {| habits := habits s; habits_seq := habits_seq s; habit_logs := habit_logs s;
     mood := replace_into mood_key
               {| mood_user := uid; mood_date := day; mood_value := v |} (mood s);
     reminders := reminders s |}.

(** [SELECT date, value FROM mood WHERE user_id=?] *)
Definition select_mood (uid : Z) (s : store) : list (string * Z) :=
  (λ r, (mood_date r, mood_value r)) <$> filter (λ r, mood_user r = uid) (mood s).

(** [SELECT user_id, time FROM reminders] *)
Definition select_reminders (s : store) : list (Z * string) := scan (reminders s).

(** [DELETE FROM reminders WHERE user_id=?] *)
Definition delete_reminder (uid : Z) (s : store) : store :=
  {| habits := habits s; habits_seq := habits_seq s; habit_logs := habit_logs s;
     mood := mood s; reminders := delete uid (reminders s) |}.

(** [REPLACE INTO reminders VALUES (?,?)]: [user_id] is the primary key, so
    the user's earlier row, if any, gives way to the new one. *)
Definition replace_reminder (uid : Z) (t : string) (s : store) : store :=
  {| habits := habits s; habits_seq := habits_seq s; habit_logs := habit_logs s;
     mood := mood s; reminders := <[uid := t]> (reminders s) |}.

End Sql.

(** ** Updates, the transport and the handler monad *)

(** What a handler reads of its [Update]: who sent it, and either the text of
    a message or the payload of a pressed button. *)
Inductive update : Type :=
| Message (user : Z) (text : string)
| CallbackQuery (user : Z) (data : string).

(** [update.effective_user.id] *)
Definition effective_user (u : update) : Z :=
  match u with Message uid _ | CallbackQuery uid _ => uid end.

(** [InlineKeyboardMarkup]: rows of [InlineKeyboardButton(text, callback_data)]. *)
Definition keyboard : Type := list (list (string * string)).

(** The requests a handler issues to the transport, tagged with the user whose
    chat they go to. *)
Inductive request : Type :=
| Answer (user : Z)
| EditMessageText (user : Z) (text : string) (reply_markup : option keyboard)
| ReplyText (user : Z) (text : string) (reply_markup : option keyboard)
| ReplyPhoto (user : Z) (path : string) (points : list (string * Z))
| SendMessage (chat_id : Z) (text : string).

#[global] Instance request_eq_dec : EqDecision request.
Proof. solve_decision. Defined.

(** The states of the customize conversation, and [ConversationHandler.END]. *)
Inductive conversation : Set :=
| CHOOSING | ADDING | REMOVING | EDITING | EDITING_VALUE | END.

(** Everything a handler can read or change: the database file, the per-user
    [ctx.user_data] dictionaries, and the transport's log. *)
Record world : Type := {
  db : store;
  user_data : gmap Z (gmap string Z);
  sent : list request
}.

(** A handler threads the world and may raise; the world it leaves behind on
    an exception is the one at the raise (every write of this program is
    committed before the next statement that can raise). *)
Definition handler (A : Type) : Type := world → result A * world.

#[global] Instance handler_ret : MRet handler := λ A a w, (Ok a, w).
#[global] Instance handler_bind : MBind handler := λ A B f m w,
  match m w with
  | (Ok a, w') => f a w'
  | (Raise e, w') => (Raise e, w')
  end.

Definition lift {A : Type} (r : result A) : handler A := λ w, (r, w).

(** [db.execute(<a write>)] and the [db.commit()] that follows it.  Here and
    in [query] the statement runs whatever integers it is given; [sqlite3]
    runs it when they are [bindable] and raises before it otherwise. *)
Definition execute (stmt : store → store) : handler () := λ w,
  (Ok (), {| db := stmt (db w); user_data := user_data w; sent := sent w |}).

(** [db.execute(<a SELECT>)] *)
Definition query {A : Type} (stmt : store → A) : handler A := λ w, (Ok (stmt (db w)), w).

Definition emit (r : request) : handler () := λ w,
  (Ok (), {| db := db w; user_data := user_data w; sent := sent w ++ [r] |}).

(** [for x in l: body(x)] *)
Definition for_each {A : Type} (l : list A) (body : A → handler ()) : handler () :=
  foldr (λ x rest, body x ;; rest) (mret ()) l.

(** [q = update.callback_query] followed by a use of [q]; [update.message]
    followed by a use of it. *)
Definition callback_query (u : update) : handler (Z * string) :=
  match u with
  | CallbackQuery uid data => mret (uid, data)
  | Message _ _ => lift (Raise AttributeError)
  end.

Definition message (u : update) : handler (Z * string) :=
  match u with
  | Message uid text => mret (uid, text)
  | CallbackQuery _ _ => lift (Raise AttributeError)
  end.

(** [int(q.data.split("_")[1])] *)
Definition payload_id (data : string) : result Z :=
  match index (split "_" data) 1 with
  | Ok field => int field
  | Raise e => Raise e
  end.

(** ** The bot *)

Module HabitBot.

(** [user_habits]: the caller's habits as (id, name), in id order. *)
Definition user_habits (uid : Z) : handler (list (Z * string)) :=
  query (Sql.select_habits uid).

Definition send (u : update) (text : string) (reply_markup : option keyboard)
    (edit : bool) : handler () :=
  match u with
  | CallbackQuery uid _ =>
      if edit then emit (EditMessageText uid text reply_markup)
      else emit (ReplyText uid text reply_markup)
  | Message uid _ => emit (ReplyText uid text reply_markup)
  end.

(** The job the queue runs every 60 seconds; [notify] is the body of its loop. *)
Definition notify (now : string) (row : Z * string) : handler () :=
  let '(user_id, t) := row in
  if decide (t = now)
  then emit (SendMessage user_id "⏰ Time to mark habits! /start")
  else mret ().

Definition send_reminders (now : string) : handler () :=
  rows ← query Sql.select_reminders;
  for_each rows (notify now).

Definition default_habits : list string := ["🏃 Sport"; "💧 Water"; "📚 Study"].

(** One button of the today-view: [row and row[0]] picks the mark. *)
Definition habit_button (uid : Z) (today : string) (s : store) (h : Z * string)
    : list (string * string) :=
  let mark :=
    match Sql.select_log_value uid h.1 today s with
    | Some v => if decide (v = 0) then "⬜" else "✅"
    | None => "⬜"
    end in
  [(mark ++ " " ++ h.2, "h_" ++ str h.1)].

Definition start (u : update) (today : string) : handler () :=
  let uid := effective_user u in
  habits ← user_habits uid;
  habits ← match habits with
           | [] =>
               for_each default_habits (λ h, execute (Sql.insert_habit uid h)) ;;
               user_habits uid
           | _ :: _ => mret habits
           end;
  keyboard ← query (λ s, habit_button uid today s <$> habits);
  send u "Your habits today:" (Some keyboard)
       (match u with CallbackQuery _ _ => true | Message _ _ => false end).

Definition toggle_habit (u : update) (today : string) : handler () :=
  q ← callback_query u;
  emit (Answer q.1) ;;
  let uid := q.1 in
  hid ← lift (payload_id q.2);
  row ← query (Sql.select_log_value uid hid today);
  match row with
  | Some v => execute (Sql.update_log_value (1 - v) uid hid today)
  | None => execute (Sql.insert_log uid hid today)
  end ;;
  start u today.

(** *** Customize *)

Definition customize (u : update) : handler conversation :=
  m ← message u;
  emit (ReplyText m.1 "Customize habits:"
          (Some [[("➕ Add", "add")]; [("✏️ Edit", "edit")]; [("➖ Remove", "remove")]])) ;;
  mret CHOOSING.

Definition customize_action (u : update) : handler conversation :=
  q ← callback_query u;
  emit (Answer q.1) ;;
  let action := q.2 in
  habits ← user_habits q.1;
  if decide (action = "add") then
    emit (EditMessageText q.1 "Send new habit name:" None) ;; mret ADDING
  else match habits with
       | [] => emit (EditMessageText q.1 "No habits yet" None) ;; mret END
       | _ :: _ =>
           let kb := (λ h : Z * string, [(h.2, action ++ "_" ++ str h.1)]) <$> habits in
           emit (EditMessageText q.1 "Choose habit:" (Some kb)) ;;
           mret (if decide (action = "remove") then REMOVING else EDITING)
       end.

Definition add_habit (u : update) : handler conversation :=
  m ← message u;
  execute (Sql.insert_habit (effective_user u) (strip m.2)) ;;
  emit (ReplyText m.1 "Habit added ✅" None) ;;
  mret END.

Definition remove_habit (u : update) : handler conversation :=
  q ← callback_query u;
  emit (Answer q.1) ;;
  hid ← lift (payload_id q.2);
  execute (Sql.delete_habit hid) ;;
  emit (EditMessageText q.1 "Habit removed ❌" None) ;;
  mret END.

(** [ctx.user_data["edit_habit_id"] = v] and [ctx.user_data.get("edit_habit_id")],
    on the dictionary of the update's user. *)
Definition set_edit_habit_id (uid v : Z) : handler () := λ w,
  (Ok (), {| db := db w;
             user_data := <[uid := <["edit_habit_id" := v]> (default ∅ (user_data w !! uid))]>
                            (user_data w);
             sent := sent w |}).

Definition get_edit_habit_id (uid : Z) : handler (option Z) := λ w,
  (Ok (user_data w !! uid ≫= (.!! "edit_habit_id")), w).

Definition edit_select (u : update) : handler conversation :=
  q ← callback_query u;
  emit (Answer q.1) ;;
  hid ← lift (payload_id q.2);
  set_edit_habit_id (effective_user u) hid ;;
  emit (EditMessageText q.1 "Send new habit name:" None) ;;
  mret EDITING_VALUE.

Definition edit_save (u : update) : handler conversation :=
  hid ← get_edit_habit_id (effective_user u);
  m ← message u;
  execute (Sql.update_habit_name (strip m.2) hid) ;;
  emit (ReplyText m.1 "Habit updated ✨" None) ;;
  mret END.

(** *** Simple *)

Definition menu (u : update) : handler () :=
  send u ("/start" ++ String "010" ("/customize" ++ String "010" ("/week" ++ String "010"
         ("/month" ++ String "010" ("/calendar" ++ String "010" ("/mood" ++ String "010"
         ("/mood_progress" ++ String "010" "/remind HH:MM"))))))) None false.

Definition week (u : update) : handler () :=
  send u "Weekly stats coming soon ✅" None false.

Definition month (u : update) : handler () :=
  send u "Monthly stats coming soon ✅" None false.

Definition calendar (u : update) (today : datetime) : handler () :=
  send u "Select date:"
       (Some ((λ i : nat, let d := minus_days today i in
                          [(strftime_d_b d, "cal_" ++ strftime_Ymd d)]) <$> seq 0 7))
       false.

Definition calendar_pick (u : update) : handler () :=
  q ← callback_query u;
  emit (Answer q.1) ;;
  emit (EditMessageText q.1 ("Selected date: " ++ slice_from 4 q.2) None).

Definition mood (u : update) : handler () :=
  send u "Your mood:"
       (Some [(λ i : nat, (str (Z.of_nat i), "mood_" ++ str (Z.of_nat i))) <$> seq 0 11])
       false.

Definition save_mood (u : update) (today : string) : handler () :=
  q ← callback_query u;
  emit (Answer q.1) ;;
  val ← lift (payload_id q.2);
  let uid := q.1 in
  execute (Sql.replace_mood uid today val) ;;
  emit (EditMessageText q.1 ("Mood saved: " ++ str val ++ "/10") None).

(** The chart is the file [data/mood_<uid>.png]; what it plots are the rows. *)
Definition mood_progress (u : update) : handler () :=
  let uid := effective_user u in
  rows ← query (Sql.select_mood uid);
  match rows with
  | [] => send u "No mood data yet 😶" None false
  | _ :: _ =>
      m ← message u;
      emit (ReplyPhoto m.1 ("data/mood_" ++ str uid ++ ".png") rows)
  end.

(** The pattern of [remind]: [\d{2}:\d{2}]. *)
Definition hhmm : list atom := repeat Digit 2 ++ [Lit ":"] ++ repeat Digit 2.

Definition remind (u : update) (args : list string) : handler () :=
  let uid := effective_user u in
  match args with
  | [] => send u "/remind HH:MM or /remind off" None false
  | arg :: _ =>
      if decide (arg = "off") then
        execute (Sql.delete_reminder uid) ;;
        send u "Reminder off" None false
      else if negb (re_match hhmm arg) then
        send u "Format HH:MM" None false
      else
        execute (Sql.replace_reminder uid arg) ;;
        send u "Reminder set ⏰" None false
  end.

End HabitBot.

(** ** Histories *)

(** One run of a handler: the dispatcher ([_handlers]) routes an update to it,
    or the job queue ([_jobs]) fires.  [calendar] and [calendar_pick], which
    read the clock and the payload and touch neither the store nor
    [ctx.user_data], are left out. *)
Inductive call : Type :=
| Start (u : update)
| ToggleHabit (u : update)
| Customize (u : update)
| CustomizeAction (u : update)
| AddHabit (u : update)
| RemoveHabit (u : update)
| EditSelect (u : update)
| EditSave (u : update)
| Menu (u : update)
| Week (u : update)
| Month (u : update)
| Mood (u : update)
| SaveMood (u : update)
| MoodProgress (u : update)
| Remind (u : update) (args : list string)
| SendReminders.

(** What the clock shows while a handler runs. *)
Record clock : Type := { today : string; now : string }.

Definition ignore {A : Type} (h : handler A) : handler () := h ;; mret ().

Definition invoke (c : clock) (k : call) : handler () :=
  match k with
  | Start u => HabitBot.start u (today c)
  | ToggleHabit u => HabitBot.toggle_habit u (today c)
  | Customize u => ignore (HabitBot.customize u)
  | CustomizeAction u => ignore (HabitBot.customize_action u)
  | AddHabit u => ignore (HabitBot.add_habit u)
  | RemoveHabit u => ignore (HabitBot.remove_habit u)
  | EditSelect u => ignore (HabitBot.edit_select u)
  | EditSave u => ignore (HabitBot.edit_save u)
  | Menu u => HabitBot.menu u
  | Week u => HabitBot.week u
  | Month u => HabitBot.month u
  | Mood u => HabitBot.mood u
  | SaveMood u => HabitBot.save_mood u (today c)
  | MoodProgress u => HabitBot.mood_progress u
  | Remind u args => HabitBot.remind u args
  | SendReminders => HabitBot.send_reminders (now c)
  end.

(** The world a handler leaves behind, whether it returned or raised (the
    application logs the exception and goes on). *)
Definition after {A : Type} (h : handler A) (w : world) : world := (h w).2.

(** Handlers run one at a time.  A history is any sequence of handler runs:
    which handler an update reaches is the dispatcher's business, so every
    routing of every stream of updates is one of these. *)
Definition run (history : list (clock * call)) (w : world) : world :=
  foldl (λ w step, after (invoke step.1 step.2) w) w history.

(** A fresh installation. *)
Definition boot : world := {| db := init_db None; user_data := ∅; sent := [] |}.

(** ** The statements a handler executes *)

(** The writes of the program, one constructor per SQL statement that changes
    a table. *)
Inductive write : Type :=
| InsertHabit (uid : Z) (name : string)
| DeleteHabit (hid : Z)
| RenameHabit (name : string) (hid : option Z)
| UpdateLog (v uid hid : Z) (day : string)
| InsertLog (uid hid : Z) (day : string)
| ReplaceMood (uid : Z) (day : string) (v : Z)
| DeleteReminder (uid : Z)
| ReplaceReminder (uid : Z) (t : string).

Definition perform (s : store) (x : write) : store :=
  match x with
  | InsertHabit uid name => Sql.insert_habit uid name s
  | DeleteHabit hid => Sql.delete_habit hid s
  | RenameHabit name hid => Sql.update_habit_name name hid s
  | UpdateLog v uid hid day => Sql.update_log_value v uid hid day s
  | InsertLog uid hid day => Sql.insert_log uid hid day s
  | ReplaceMood uid day v => Sql.replace_mood uid day v s
  | DeleteReminder uid => Sql.delete_reminder uid s
  | ReplaceReminder uid t => Sql.replace_reminder uid t s
  end.

(** The user on whose behalf a write is made, when the statement names one:
    the [user_id] it binds. *)
Definition write_user (x : write) : option Z :=
  match x with
  | InsertHabit uid _ | UpdateLog _ uid _ _ | InsertLog uid _ _
  | ReplaceMood uid _ _ | DeleteReminder uid | ReplaceReminder uid _ => Some uid
  | DeleteHabit _ | RenameHabit _ _ => None
  end.

(** The statements one run of a handler executes, in order.  They depend on
    the world the handler finds: the payload decides whether anything is
    written, the log row found decides between UPDATE and INSERT, the user's
    habit list decides whether [start] seeds. *)
Definition seeding (uid : Z) (s : store) : list write :=
  match Sql.select_habits uid s with
  | [] => InsertHabit uid <$> HabitBot.default_habits
  | _ :: _ => []
  end.

Definition writes_of (c : clock) (k : call) (w : world) : list write :=
  match k with
  | Start u => seeding (effective_user u) (db w)
  | ToggleHabit (CallbackQuery uid data) =>
      match payload_id data with
      | Ok hid =>
          match Sql.select_log_value uid hid (today c) (db w) with
          | Some v => UpdateLog (1 - v) uid hid (today c)
          | None => InsertLog uid hid (today c)
          end :: seeding uid (db w)
      | Raise _ => []
      end
  | AddHabit (Message uid text) => [InsertHabit uid (strip text)]
  | RemoveHabit (CallbackQuery _ data) =>
      match payload_id data with
      | Ok hid => [DeleteHabit hid]
      | Raise _ => []
      end
  | EditSave (Message uid text) =>
      [RenameHabit (strip text) (user_data w !! uid ≫= (.!! "edit_habit_id"))]
  | SaveMood (CallbackQuery uid data) =>
      match payload_id data with
      | Ok v => [ReplaceMood uid (today c) v]
      | Raise _ => []
      end
  | Remind u (arg :: _) =>
      if decide (arg = "off") then [DeleteReminder (effective_user u)]
      else if re_match HabitBot.hhmm arg then [ReplaceReminder (effective_user u) arg]
      else []
  | _ => []
  end.

(** The user whose update a handler run serves; the poller serves none. *)
Definition acting (k : call) : option Z :=
  match k with
  | Start u | ToggleHabit u | Customize u | CustomizeAction u | AddHabit u
  | RemoveHabit u | EditSelect u | EditSave u | Menu u | Week u | Month u
  | Mood u | SaveMood u | MoodProgress u | Remind u _ => Some (effective_user u)
  | SendReminders => None
  end.

(** The mood rows and the log keys a list of statements adds. *)
Definition mood_rows (xs : list write) : list mood_entry :=
  omap (λ x, match x with
             | ReplaceMood uid day v =>
                 Some {| mood_user := uid; mood_date := day; mood_value := v |}
             | _ => None
             end) xs.

Definition log_key (r : habit_log) : Z * Z * string := (log_user r, log_habit r, log_date r).

Definition new_log_keys (xs : list write) : list (Z * Z * string) :=
  omap (λ x, match x with InsertLog uid hid day => Some (uid, hid, day) | _ => None end) xs.

Definition habits_bounded (s : store) : Prop :=
  ∀ k h, habits s !! k = Some h → 1 ≤ k ≤ habits_seq s.

(** The world with another store, and with more requests sent. *)
Definition with_db (w : world) (s : store) : world :=
  {| db := s; user_data := user_data w; sent := sent w |}.

Definition say (w : world) (rs : list request) : world :=
  {| db := db w; user_data := user_data w; sent := sent w ++ rs |}.

(** ** The dispatcher ([_handlers]) and the job queue ([_jobs]) *)

(** What Telegram delivers to the bot in a private chat: a message that starts
    with a bot command (the library hands over the command's name in lower
    case), any other text message, or the press of an inline button.  Other
    kinds of update (edited messages, messages without text) are not
    modelled. *)
Inductive delivery : Type :=
| Command (user : Z) (name : string) (text : string)
| Text (user : Z) (text : string)
| Press (user : Z) (data : string).

Definition sender (d : delivery) : Z :=
  match d with Command uid _ _ | Text uid _ | Press uid _ => uid end.

Definition update_of (d : delivery) : update :=
  match d with
  | Command uid _ text | Text uid text => Message uid text
  | Press uid data => CallbackQuery uid data
  end.

(** [ctx.args] of a [CommandHandler]: [message.text.split()[1:]]. *)
Definition command_args (text : string) : list string := tail (split_ws text).

(** What the clock shows, from [datetime.now()]. *)
Definition clock_of (t : datetime) : clock :=
  {| today := strftime_Ymd t; now := strftime_HM (dt_hour t) (dt_minute t) |}.

(** The handler an update reaches: one registered on the application, one of
    the [ConversationHandler] (its result moves the conversation), or none. *)
Inductive routed : Type :=
| Plain (h : handler ())
| Talk (h : handler conversation)
| Unhandled.

(** The [ConversationHandler]: entry points when the user has no conversation,
    the handlers of the current state otherwise; there are no fallbacks.
    [filters.TEXT & ~filters.COMMAND] lets a non-empty text through that does
    not start with a command. *)
Definition converse (conv : option conversation) (d : delivery)
    : option (handler conversation) :=
  let u := update_of d in
  match conv, d with
  | None, Command _ name _ =>
      if decide (name = "customize") then Some (HabitBot.customize u) else None
  | Some CHOOSING, Press _ _ => Some (HabitBot.customize_action u)
  | Some ADDING, Text _ text =>
      if decide (text = "") then None else Some (HabitBot.add_habit u)
  | Some REMOVING, Press _ _ => Some (HabitBot.remove_habit u)
  | Some EDITING, Press _ _ => Some (HabitBot.edit_select u)
  | Some EDITING_VALUE, Text _ text =>
      if decide (text = "") then None else Some (HabitBot.edit_save u)
  | _, _ => None
  end.

(** The handlers in the order [_handlers] registers them; the first whose
    check succeeds takes the update.  The patterns [^h_], [^mood_] and [^cal_]
    are tried with [re.match]. *)
Definition route (t : datetime) (conv : option conversation) (d : delivery) : routed :=
  let u := update_of d in
  let talk := match converse conv d with Some h => Talk h | None => Unhandled end in
  match d with
  | Command _ name text =>
      if decide (name = "start") then Plain (HabitBot.start u (today (clock_of t)))
      else if decide (name = "menu") then Plain (HabitBot.menu u)
      else if decide (name = "week") then Plain (HabitBot.week u)
      else if decide (name = "month") then Plain (HabitBot.month u)
      else if decide (name = "calendar") then Plain (HabitBot.calendar u t)
      else if decide (name = "mood") then Plain (HabitBot.mood u)
      else if decide (name = "mood_progress") then Plain (HabitBot.mood_progress u)
      else if decide (name = "remind") then Plain (HabitBot.remind u (command_args text))
      else talk
  | Press _ data =>
      if re_match [Lit "h"; Lit "_"] data
      then Plain (HabitBot.toggle_habit u (today (clock_of t)))
      else if re_match [Lit "m"; Lit "o"; Lit "o"; Lit "d"; Lit "_"] data
      then Plain (HabitBot.save_mood u (today (clock_of t)))
      else if re_match [Lit "c"; Lit "a"; Lit "l"; Lit "_"] data
      then Plain (HabitBot.calendar_pick u)
      else talk
  | Text _ _ => talk
  end.

(** The application: the world and, per user, the state of the customize
    conversation (no entry when the user is in none). *)
Record bot : Type := { bot_world : world; bot_conv : gmap Z conversation }.

(** One update, processed to the end.  A handler of the conversation that
    returns [END] closes it, one that returns a state moves to it, one that
    raises leaves it where it was. *)
Definition settle (uid : Z) (r : routed) (a : bot) : bot :=
  match r with
  | Plain h => {| bot_world := after h (bot_world a); bot_conv := bot_conv a |}
  | Talk h =>
      let r := h (bot_world a) in
      {| bot_world := r.2;
         bot_conv := match r.1 with
                     | Ok END => delete uid (bot_conv a)
                     | Ok s => <[uid := s]> (bot_conv a)
                     | Raise _ => bot_conv a
                     end |}
  | Unhandled => a
  end.

Definition dispatch (t : datetime) (d : delivery) (a : bot) : bot :=
  settle (sender d) (route t (bot_conv a !! sender d) d) a.

(** What a routed update amounts to: a handler run on behalf of the sender, or
    nothing that store and user data could notice. *)
Definition amounts_to (c : clock) (uid : Z) (r : routed) : Prop :=
  match r with
  | Plain h =>
      (∀ w, db (after h w) = db w ∧ user_data (after h w) = user_data w)
      ∨ ∃ k, (∀ w, after h w = after (invoke c k) w) ∧ acting k = Some uid
  | Talk h => ∃ k, (∀ w, after h w = after (invoke c k) w) ∧ acting k = Some uid
  | Unhandled => True
  end.

(** What happens to the running bot: an update arrives, or the job queue
    fires the poller.  [_jobs] has it fired every 60 seconds, first after 10;
    a stream may hold a tick at any place and time, so what holds of every
    stream holds under that schedule. *)
Inductive event : Type :=
| Deliver (d : delivery)
| Tick.

Definition handle (t : datetime) (e : event) (a : bot) : bot :=
  match e with
  | Deliver d => dispatch t d a
  | Tick => {| bot_world := after (HabitBot.send_reminders (now (clock_of t))) (bot_world a);
               bot_conv := bot_conv a |}
  end.

Definition serve (events : list (datetime * event)) (a : bot) : bot :=
  foldl (λ a step, handle step.1 step.2 a) a events.

(** Who sent an event, and the users who sent something in a stream. *)
Definition event_sender (e : event) : option Z :=
  match e with Deliver d => Some (sender d) | Tick => None end.

Definition senders (events : list (datetime * event)) : list Z :=
  omap (λ step, event_sender step.2) events.

Definition boot_bot : bot := {| bot_world := boot; bot_conv := ∅ |}.

(** ** Notions the specification uses *)

(** The completion value of (user, habit, date): what the today-view reads,
    an absent row counting as 0. *)
Definition completion (uid hid : Z) (day : string) (s : store) : Z :=
  default 0 (Sql.select_log_value uid hid day s).

(** The store after the [with get_db() as db:] block of [toggle_habit], and
    after the seeding step of [start]. *)
Definition toggled (uid hid : Z) (day : string) (s : store) : store :=
  match Sql.select_log_value uid hid day s with
  | Some v => Sql.update_log_value (1 - v) uid hid day s
  | None => Sql.insert_log uid hid day s
  end.

Definition seeded (uid : Z) (s : store) : store :=
  match Sql.select_habits uid s with
  | [] => foldl (λ s h, Sql.insert_habit uid h s) s HabitBot.default_habits
  | _ :: _ => s
  end.

(** The rows of a table that belong to one key. *)
Definition logs_of (uid hid : Z) (day : string) (s : store) : list habit_log :=
  filter (Sql.log_at uid hid day) (habit_logs s).

Definition moods_of (uid : Z) (day : string) (s : store) : list mood_entry :=
  filter (λ r, mood_user r = uid ∧ mood_date r = day) (mood s).

(** The key the specification gives the mood table: one row per (user, date). *)
Definition mood_key_spec : option (mood_entry → Z * string) :=
  Some (λ r, (mood_user r, mood_date r)).

(** The pattern the specification describes: two digits, a colon, two digits,
    and nothing else. *)
Definition strict_hhmm (arg : string) : bool := re_fullmatch HabitBot.hhmm arg.



(** The text of the poller's notification. *)
Definition reminder_text : string := "⏰ Time to mark habits! /start".

(** The notifications a tick at [t] owes to the rows of a scan. *)
Definition due (t : string) (rows : list (Z * string)) : list request :=
  (λ r, SendMessage r.1 reminder_text) <$> filter (λ r, r.2 = t) rows.

(** How many times a tick's requests notify a user. *)
Definition notified (uid : Z) (rs : list request) : nat :=
  length (filter (λ r, r = SendMessage uid reminder_text) rs).

(** A payload one of the application's own [CallbackQueryHandler]s takes,
    before the conversation sees the press. *)
Definition application_takes (data : string) : bool :=
  re_match [Lit "h"; Lit "_"] data
  || re_match [Lit "m"; Lit "o"; Lit "o"; Lit "d"; Lit "_"] data
  || re_match [Lit "c"; Lit "a"; Lit "l"; Lit "_"] data.

(** The menu [customize] sends. *)
Definition customize_menu : keyboard :=
  [[("➕ Add", "add")]; [("✏️ Edit", "edit")]; [("➖ Remove", "remove")]].

#[global] Instance conversation_eq_dec : EqDecision conversation.
Proof. solve_decision. Defined.

(** The deliveries the customize conversation reacts to, by the state the
    sender is in. *)
Definition in_turn (conv : option conversation) (d : delivery) : Prop :=
  match conv, d with
  | None, Command _ name _ => name = "customize"
  | Some (CHOOSING | REMOVING | EDITING), Press _ data => application_takes data = false
  | Some (ADDING | EDITING_VALUE), Text _ text => text ≠ ""
  | _, _ => False
  end.

(** The commands [_handlers] registers on the application itself. *)
Definition application_commands : list string :=
  ["start"; "menu"; "week"; "month"; "calendar"; "mood"; "mood_progress"; "remind"].

(** An argument that starts like a time of day: two digits, a colon, two
    digits, and then anything. *)
Definition starts_with_time (arg : string) : bool :=
  match arg with
  | String a (String b (String c (String d (String e _)))) =>
      is_digit a && is_digit b && Ascii.eqb c ":" && is_digit d && is_digit e
  | _ => false
  end.

(** [ctx.user_data.get("edit_habit_id")] of a user. *)
Definition edit_habit_id (uid : Z) (w : world) : option Z :=
  user_data w !! uid ≫= (.!! "edit_habit_id").

(** The commands that only show something. *)
Definition informational_commands : list string :=
  ["menu"; "week"; "month"; "calendar"; "mood"; "mood_progress"].

(** * Properties *)

(** ** The runtime pieces *)

Section PyFacts.

Lemma printable_not_space c : printable c = true → is_space c = false.
Proof.
  destruct c as [[] [] [] [] [] [] [] []]; vm_compute; congruence.
Qed.

Lemma uint_chars d : all_chars is_digit (NilEmpty.string_of_uint d) = true.
Proof. induction d; simpl; auto. Qed.

Lemma all_chars_impl (P Q : ascii → bool) s :
  (∀ c, P c = true → Q c = true) → all_chars P s = true → all_chars Q s = true.
Proof.
  intros HPQ. induction s as [|c s IH]; simpl; [done|].
  rewrite !andb_true_iff. intros [Hc Hs]. auto.
Qed.

Lemma str_chars z : all_chars printable (str z) = true.
Proof.
  assert (∀ d, all_chars printable (NilZero.string_of_uint d) = true) as Hu.
  { intros d. apply all_chars_impl with (P := is_digit).
    - intros c Hc. unfold printable. by rewrite Hc.
    - destruct d; try apply uint_chars. reflexivity. }
  unfold str. destruct (Z.to_int z); simpl; auto.
Qed.

Lemma lstrip_id s : all_chars (λ c, negb (is_space c)) s = true → lstrip s = s.
Proof.
  destruct s as [|c s]; simpl; [done|].
  rewrite andb_true_iff, negb_true_iff. by intros [-> _].
Qed.

Lemma rstrip_id s : all_chars (λ c, negb (is_space c)) s = true → rstrip s = s.
Proof.
  induction s as [|c s IH]; simpl; [done|].
  rewrite andb_true_iff, negb_true_iff. intros [Hc Hs].
  rewrite (IH Hs). destruct s; [by rewrite Hc | done].
Qed.

Lemma strip_id s : all_chars printable s = true → strip s = s.
Proof.
  intros Hs.
  assert (all_chars (λ c, negb (is_space c)) s = true) as Hn.
  { revert Hs. apply all_chars_impl. intros c Hc.
    by rewrite (printable_not_space c Hc). }
  unfold strip. by rewrite (lstrip_id s Hn), (rstrip_id s Hn).
Qed.

Lemma c_space_is_space c : is_c_space c = true → is_space c = true.
Proof.
  destruct c as [[] [] [] [] [] [] [] []]; vm_compute; congruence.
Qed.

Lemma skip_c_space_id s :
  all_chars (λ c, negb (is_c_space c)) s = true → skip_c_space s = s.
Proof.
  destruct s as [|c s]; simpl; [done|].
  rewrite andb_true_iff, negb_true_iff. by intros [-> _].
Qed.

Lemma drop_c_space_id s :
  all_chars (λ c, negb (is_c_space c)) s = true → drop_c_space s = s.
Proof.
  induction s as [|c s IH]; simpl; [done|].
  rewrite andb_true_iff, negb_true_iff. intros [Hc Hs].
  rewrite (IH Hs). destruct s; [by rewrite Hc | done].
Qed.

Lemma c_strip_id s :
  all_chars printable s = true → drop_c_space (skip_c_space s) = s.
Proof.
  intros Hs.
  assert (all_chars (λ c, negb (is_c_space c)) s = true) as Hn.
  { revert Hs. apply all_chars_impl. intros c Hc. apply negb_true_iff.
    destruct (is_c_space c) eqn:E; [|done].
    apply c_space_is_space in E. by rewrite (printable_not_space c Hc) in E. }
  by rewrite (skip_c_space_id s Hn), (drop_c_space_id s Hn).
Qed.

Lemma pos_to_uint_nonnil p : Pos.to_uint p ≠ Decimal.Nil.
Proof.
  intros Hnil.
  pose proof (DecimalZ.of_to (Z.pos p)) as Hz. simpl in Hz.
  rewrite Hnil in Hz. discriminate.
Qed.

Lemma digits_uint d :
  d ≠ Decimal.Nil → digits (NilEmpty.string_of_uint d) = Ok (Z.of_uint d).
Proof.
  intros Hd. unfold digits. rewrite NilEmpty.usu.
  destruct d; simpl; congruence.
Qed.

(** [int(str(n)) == n] *)
Lemma int_str z : int (str z) = Ok z.
Proof.
  unfold int. rewrite (c_strip_id _ (str_chars z)).
  pose proof (DecimalZ.of_to z) as Hz.
  unfold str. destruct z as [|p|p]; simpl in *; [reflexivity| |].
  - pose proof (pos_to_uint_nonnil p) as Hp.
    assert (NilZero.string_of_uint (Pos.to_uint p)
            = NilEmpty.string_of_uint (Pos.to_uint p)) as -> by by destruct (Pos.to_uint p).
    pose proof (digits_uint _ Hp) as Hd. rewrite Hz in Hd.
    destruct (Pos.to_uint p); simpl in *; congruence.
  - pose proof (pos_to_uint_nonnil p) as Hp.
    assert (NilZero.string_of_uint (Pos.to_uint p)
            = NilEmpty.string_of_uint (Pos.to_uint p)) as -> by by destruct (Pos.to_uint p).
    rewrite (digits_uint _ Hp). f_equal. lia.
Qed.

Lemma split_no_sep sep s :
  all_chars (λ c, negb (Ascii.eqb c sep)) s = true → split sep s = [s].
Proof.
  induction s as [|c s IH]; simpl; [done|].
  rewrite andb_true_iff, negb_true_iff. intros [-> Hs]. by rewrite (IH Hs).
Qed.

Lemma split_str z : split "_" (str z) = [str z].
Proof.
  apply split_no_sep. generalize (str_chars z). apply all_chars_impl.
  intros c. destruct c as [[] [] [] [] [] [] [] []]; vm_compute; congruence.
Qed.

End PyFacts.

(** The payloads the bot puts on its own buttons, [f"{prefix}_{id}"], decode
    to the id they carry. *)
Lemma split_prefix (p t : string) :
  all_chars (λ c, negb (Ascii.eqb c "_")) p = true →
  split "_" (p +:+ String "_" t) = p :: split "_" t.
Proof.
  induction p as [|c p IH]; intros Hp.
  - reflexivity.
  - simpl in Hp. apply andb_true_iff in Hp as [Hc Hp].
    apply negb_true_iff in Hc.
    change (String c p +:+ String "_" t) with (String c (p +:+ String "_" t)).
    simpl. rewrite Hc. by rewrite (IH Hp).
Qed.

Lemma payload_id_str (p : string) (z : Z) :
  all_chars (λ c, negb (Ascii.eqb c "_")) p = true →
  payload_id (p +:+ "_" +:+ str z) = Ok z.
Proof.
  intros Hp. unfold payload_id.
  change ("_" +:+ str z) with (String "_" (str z)).
  rewrite (split_prefix _ _ Hp), split_str. simpl. by rewrite int_str.
Qed.

Lemma payload_h hid : payload_id ("h_" +:+ str hid) = Ok hid.
Proof. exact (payload_id_str "h" hid eq_refl). Qed.

Lemma payload_mood v : payload_id ("mood_" +:+ str v) = Ok v.
Proof. exact (payload_id_str "mood" v eq_refl). Qed.

Lemma payload_remove hid : payload_id ("remove_" +:+ str hid) = Ok hid.
Proof. exact (payload_id_str "remove" hid eq_refl). Qed.

Lemma payload_edit hid : payload_id ("edit_" +:+ str hid) = Ok hid.
Proof. exact (payload_id_str "edit" hid eq_refl). Qed.

(** ** Scans of a keyed table *)

Section ScanFacts.
Context {V : Type}.
Implicit Types (m : gmap Z V) (k : Z) (v : V).

#[local] Instance key_le_trans : Transitive (@Sql.key_le V).
Proof. intros a b c. unfold Sql.key_le. lia. Qed.
#[local] Instance key_le_total : Total (@Sql.key_le V).
Proof. intros a b. unfold Sql.key_le. lia. Qed.

Lemma scan_perm m : Sql.scan m ≡ₚ map_to_list m.
Proof. apply merge_sort_Permutation. Qed.

Lemma elem_of_scan m k v : (k, v) ∈ Sql.scan m ↔ m !! k = Some v.
Proof. by rewrite scan_perm, elem_of_map_to_list. Qed.

Lemma scan_NoDup m : NoDup (Sql.scan m).
Proof. rewrite scan_perm. apply NoDup_map_to_list. Qed.

Lemma scan_sorted m : StronglySorted Sql.key_le (Sql.scan m).
Proof. apply StronglySorted_merge_sort; apply _. Qed.

Lemma scan_empty : Sql.scan (∅ : gmap Z V) = [].
Proof. apply Permutation_nil. by rewrite scan_perm, map_to_list_empty. Qed.

(** A scan is determined by the rows it holds. *)
Lemma scan_unique m (l : list (Z * V)) :
  StronglySorted Sql.key_le l → l ≡ₚ map_to_list m → Sql.scan m = l.
Proof.
  intros Hl Hp. apply (StronglySorted_unique_strong Sql.key_le).
  - intros [k1 v1] [k2 v2] H1 H2 Hle1 Hle2.
    unfold Sql.key_le in *; simpl in *.
    assert (k1 = k2) as -> by lia.
    apply elem_of_scan in H1. rewrite Hp in H2.
    apply elem_of_map_to_list in H2. congruence.
  - apply scan_sorted.
  - done.
  - by rewrite scan_perm.
Qed.

Lemma max_rowid_ge m k v : m !! k = Some v → k ≤ Sql.max_rowid m.
Proof.
  unfold Sql.max_rowid. revert k v.
  induction m as [|i x m Hi Hfold IH] using map_first_key_ind; intros k v.
  - by rewrite lookup_empty.
  - rewrite map_fold_insert_first_key by done.
    rewrite lookup_insert. case_decide; [intros; simplify_eq; lia|].
    intros Hk. specialize (IH _ _ Hk). lia.
Qed.

Lemma max_rowid_insert m k v :
  m !! k = None → Sql.max_rowid (<[k:=v]> m) = Z.max k (Sql.max_rowid m).
Proof.
  intros Hk. unfold Sql.max_rowid.
  apply (map_fold_insert_L (λ k _ acc, Z.max k acc)); [|done].
  intros. lia.
Qed.

(** A row inserted with a key above every key of the table is scanned last. *)
Lemma scan_insert_last m k v :
  Sql.max_rowid m < k → Sql.scan (<[k:=v]> m) = (Sql.scan m ++ [(k, v)])%list.
Proof.
  intros Hmax.
  assert (m !! k = None) as Hk.
  { destruct (m !! k) eqn:E; [|done]. apply max_rowid_ge in E. lia. }
  apply scan_unique.
  - apply StronglySorted_app_2; [|apply scan_sorted|repeat constructor].
    intros [k1 v1] x2 H1 ->%list_elem_of_singleton.
    apply elem_of_scan, max_rowid_ge in H1. unfold Sql.key_le; simpl. lia.
  - rewrite map_to_list_insert by done. rewrite scan_perm.
    by rewrite (comm (++)).
Qed.

Lemma scan_max_rowid_nonneg m : 0 ≤ Sql.max_rowid m.
Proof.
  unfold Sql.max_rowid.
  induction m as [|i x m Hi Hfold IH] using map_first_key_ind.
  - by rewrite map_fold_empty.
  - rewrite map_fold_insert_first_key by done. lia.
Qed.
End ScanFacts.

(** ** The statements on [habits] and [habit_logs] *)

Section HabitFacts.
Implicit Types (s : store) (uid hid : Z) (name day : string).

Lemma next_habit_id_above s : Sql.max_rowid (habits s) < Sql.next_habit_id s.
Proof. unfold Sql.next_habit_id. lia. Qed.

Lemma next_habit_id_fresh s : habits s !! Sql.next_habit_id s = None.
Proof.
  destruct (habits s !! Sql.next_habit_id s) eqn:E; [|done].
  apply max_rowid_ge in E. pose proof (next_habit_id_above s). lia.
Qed.

Lemma next_habit_id_insert uid name s :
  Sql.next_habit_id (Sql.insert_habit uid name s) = Sql.next_habit_id s + 1.
Proof.
  unfold Sql.next_habit_id at 1. simpl.
  rewrite max_rowid_insert by apply next_habit_id_fresh.
  pose proof (next_habit_id_above s). lia.
Qed.

Lemma select_habits_insert uid uid' name s :
  Sql.select_habits uid' (Sql.insert_habit uid name s) =
  (Sql.select_habits uid' s ++
     if decide (uid = uid') then [(Sql.next_habit_id s, name)] else [])%list.
Proof.
  unfold Sql.select_habits. simpl.
  rewrite scan_insert_last by apply next_habit_id_above.
  rewrite filter_app, fmap_app. f_equal.
  rewrite filter_cons, filter_nil. simpl. by case_decide.
Qed.

Lemma size_insert_habit uid name s :
  size (habits (Sql.insert_habit uid name s)) = S (size (habits s)).
Proof. simpl. apply map_size_insert_None, next_habit_id_fresh. Qed.

Lemma lookup_insert_habit uid name s k h :
  habits s !! k = Some h → habits (Sql.insert_habit uid name s) !! k = Some h.
Proof.
  intros Hk. simpl. rewrite lookup_insert_ne; [done|].
  intros <-. by rewrite next_habit_id_fresh in Hk.
Qed.
End HabitFacts.

Section LogFacts.
Implicit Types (s : store) (uid hid v : Z) (day : string) (l : list habit_log).

Lemma log_at_set_value uid hid day v uid' hid' day' r :
  Sql.log_at uid' hid' day' (Sql.set_value uid hid day v r) ↔ Sql.log_at uid' hid' day' r.
Proof. unfold Sql.set_value. by case_decide. Qed.

Lemma filter_set_value uid hid day v uid' hid' day' l :
  filter (Sql.log_at uid' hid' day') (Sql.set_value uid hid day v <$> l) =
  Sql.set_value uid hid day v <$> filter (Sql.log_at uid' hid' day') l.
Proof.
  induction l as [|r l IH]; [done|].
  rewrite fmap_cons, !filter_cons.
  destruct (decide (Sql.log_at uid' hid' day' (Sql.set_value uid hid day v r))) as [H|H];
    destruct (decide (Sql.log_at uid' hid' day' r)) as [H'|H'];
    rewrite log_at_set_value in H; try done.
  by rewrite fmap_cons, IH.
Qed.

Lemma logs_of_update uid hid day v uid' hid' day' s :
  logs_of uid' hid' day' (Sql.update_log_value v uid hid day s) =
  Sql.set_value uid hid day v <$> logs_of uid' hid' day' s.
Proof. apply filter_set_value. Qed.

Lemma logs_of_insert uid hid day uid' hid' day' s :
  logs_of uid' hid' day' (Sql.insert_log uid hid day s) =
  (logs_of uid' hid' day' s ++
    if decide (uid = uid' ∧ hid = hid' ∧ day = day')
    then [{| log_user := uid; log_habit := hid; log_date := day; log_value := 1 |}]
    else [])%list.
Proof.
  unfold logs_of. simpl. by rewrite filter_app.
Qed.

Lemma select_log_value_logs_of uid hid day s :
  Sql.select_log_value uid hid day s = log_value <$> head (logs_of uid hid day s).
Proof. done. Qed.

Lemma select_update_same uid hid day v s :
  Sql.select_log_value uid hid day (Sql.update_log_value v uid hid day s) =
  (λ _, v) <$> Sql.select_log_value uid hid day s.
Proof.
  rewrite !select_log_value_logs_of, logs_of_update.
  unfold logs_of. destruct (filter _ (habit_logs s)) as [|r l] eqn:E; [done|].
  simpl. unfold Sql.set_value. rewrite decide_True; [done|].
  assert (r ∈ filter (Sql.log_at uid hid day) (habit_logs s)) as Hr
    by (rewrite E; left).
  by apply list_elem_of_filter in Hr as [? _].
Qed.

Lemma select_update_other uid hid day v uid' hid' day' s :
  ¬ (uid = uid' ∧ hid = hid' ∧ day = day') →
  Sql.select_log_value uid' hid' day' (Sql.update_log_value v uid hid day s) =
  Sql.select_log_value uid' hid' day' s.
Proof.
  intros Hne. rewrite !select_log_value_logs_of, logs_of_update.
  unfold logs_of. destruct (filter _ (habit_logs s)) as [|r l] eqn:E; [done|].
  simpl. unfold Sql.set_value. rewrite decide_False; [done|].
  assert (r ∈ filter (Sql.log_at uid' hid' day') (habit_logs s)) as Hr
    by (rewrite E; left).
  apply list_elem_of_filter in Hr as [(?&?&?) _].
  intros (?&?&?). apply Hne. by subst.
Qed.

Lemma select_insert_same uid hid day s :
  Sql.select_log_value uid hid day s = None →
  Sql.select_log_value uid hid day (Sql.insert_log uid hid day s) = Some 1.
Proof.
  rewrite !select_log_value_logs_of, logs_of_insert.
  destruct (logs_of uid hid day s); [|done]. intros _.
  by rewrite decide_True.
Qed.

Lemma select_insert_other uid hid day uid' hid' day' s :
  ¬ (uid = uid' ∧ hid = hid' ∧ day = day') →
  Sql.select_log_value uid' hid' day' (Sql.insert_log uid hid day s) =
  Sql.select_log_value uid' hid' day' s.
Proof.
  intros Hne. rewrite !select_log_value_logs_of, logs_of_insert.
  rewrite decide_False by done. by rewrite app_nil_r.
Qed.
End LogFacts.

(** ** What each handler does to the store *)

Ltac run_handler :=
  cbv beta iota zeta delta
    [after invoke ignore mbind handler_bind mret handler_ret execute query emit lift
     callback_query message effective_user for_each foldr
     HabitBot.user_habits HabitBot.send HabitBot.default_habits
     HabitBot.start HabitBot.toggle_habit HabitBot.customize HabitBot.customize_action
     HabitBot.add_habit HabitBot.remove_habit HabitBot.set_edit_habit_id
     HabitBot.get_edit_habit_id HabitBot.edit_select HabitBot.edit_save
     HabitBot.menu HabitBot.week HabitBot.month HabitBot.mood HabitBot.save_mood
     HabitBot.mood_progress HabitBot.remind HabitBot.send_reminders];
  cbn [fst snd db user_data sent].

Ltac split_matches :=
  repeat (cbn [fst snd db user_data sent];
          match goal with
          | |- context [match ?x with _ => _ end] => is_var x; destruct x
          | |- context [match ?x with _ => _ end] =>
              lazymatch x with
              | context [match _ with _ => _ end] => fail
              | _ => destruct x eqn:?
              end
          end).

Section HandlerFacts.
Implicit Types (u : update) (w : world) (s : store) (uid hid : Z) (day data : string).

Lemma start_db u day w :
  db (after (HabitBot.start u day) w) = seeded (effective_user u) (db w).
Proof.
  unfold seeded. run_handler.
  destruct (Sql.select_habits _ (db w)) eqn:E; destruct u; cbn; reflexivity.
Qed.

Lemma toggle_habit_db uid data day w hid :
  payload_id data = Ok hid →
  db (after (HabitBot.toggle_habit (CallbackQuery uid data) day) w) =
  seeded uid (toggled uid hid day (db w)).
Proof.
  intros Hid. unfold seeded, toggled. run_handler. rewrite Hid. 
  destruct (Sql.select_log_value uid hid day (db w)); cbn [fst snd db user_data sent].
  - destruct (Sql.select_habits uid _); reflexivity.
  - destruct (Sql.select_habits uid _); reflexivity.
Qed.

Lemma toggle_habit_raise uid data day w e :
  payload_id data = Raise e →
  db (after (HabitBot.toggle_habit (CallbackQuery uid data) day) w) = db w.
Proof. intros Hid. run_handler. by rewrite Hid. Qed.

Lemma toggle_habit_message uid text day w :
  after (HabitBot.toggle_habit (Message uid text) day) w = w.
Proof. reflexivity. Qed.

Lemma seeded_logs uid s : habit_logs (seeded uid s) = habit_logs s.
Proof. unfold seeded. by destruct (Sql.select_habits uid s). Qed.

Lemma for_each_cons {A : Type} (x : A) (l : list A) (body : A → handler ()) w :
  for_each (x :: l) body w =
  match body x w with
  | (Ok _, w') => for_each l body w'
  | (Raise e, w') => (Raise e, w')
  end.
Proof. reflexivity. Qed.

Lemma notify_db (t : string) (rows : list (Z * string)) w :
  db (after (for_each rows (HabitBot.notify t)) w) = db w.
Proof.
  revert w. induction rows as [|[uid t'] rows IH]; intros w; [done|].
  unfold after in *. rewrite for_each_cons. unfold HabitBot.notify at 1.
  case_decide; cbn; by rewrite IH.
Qed.

Lemma update_habit_name_logs (name : string) (target : option Z) s :
  habit_logs (Sql.update_habit_name name target s) = habit_logs s.
Proof. by destruct target. Qed.



End HandlerFacts.

(** ** The mood table *)

Section Mood.
Implicit Types (w : world) (s : store) (uid v : Z) (day data : string).

Lemma save_mood_db uid data v day w :
  payload_id data = Ok v →
  db (after (HabitBot.save_mood (CallbackQuery uid data) day) w) =
  Sql.replace_mood uid day v (db w).
Proof. intros Hv. run_handler. by rewrite Hv. Qed.

(** Every press of a mood button adds a row. *)
Lemma save_mood_appends uid v day w :
  mood (db (after (HabitBot.save_mood (CallbackQuery uid ("mood_" +:+ str v)) day) w)) =
  (mood (db w) ++ [{| mood_user := uid; mood_date := day; mood_value := v |}])%list.
Proof. by rewrite (save_mood_db _ _ _ _ _ (payload_mood v)). Qed.

Lemma save_mood_grows uid v day w :
  length (moods_of uid day
            (db (after (HabitBot.save_mood (CallbackQuery uid ("mood_" +:+ str v)) day) w)))
  = S (length (moods_of uid day (db w))).
Proof.
  unfold moods_of. rewrite save_mood_appends, filter_app, length_app.
  rewrite filter_cons, decide_True by done. simpl. lia.
Qed.

(** Had [CREATE TABLE mood] declared the key the specification gives the
    table, the same [REPLACE INTO] would leave one row per (user, date), the
    latest one. *)
Lemma replace_into_spec_key (new : mood_entry) (rows : list mood_entry) :
  filter (λ r, mood_user r = mood_user new ∧ mood_date r = mood_date new)
         (Sql.replace_into mood_key_spec new rows) = [new].
Proof.
  unfold Sql.replace_into, mood_key_spec.
  rewrite filter_app, filter_cons, decide_True, filter_nil by done.
  induction rows as [|r rows IH]; [done|].
  rewrite filter_cons. case_decide as Hr; [|exact IH].
  cbn [app]. rewrite filter_cons, decide_False; [exact IH|].
  intros [? ?]. apply Hr. by f_equal.
Qed.

(** C1 (the code departs from the claim).  The claim: after any sequence of
    mood-button presses at most one row of [mood] exists per (user, date), and
    it holds the value chosen last.  The code: on a fresh database user 7
    presses 3 and then 8 on the same day, and the table holds both rows, the
    older one first; [mood_progress] would plot both. *)
Theorem save_mood_twice_keeps_both_rows :
  let press v := HabitBot.save_mood (CallbackQuery 7 ("mood_" +:+ str v)) "2024-05-01" in
  let w' := after (press 8) (after (press 3) boot) in
  mood (db w') =
    [{| mood_user := 7; mood_date := "2024-05-01"; mood_value := 3 |};
     {| mood_user := 7; mood_date := "2024-05-01"; mood_value := 8 |}]
  ∧ length (moods_of 7 "2024-05-01" (db w')) = 2%nat
  ∧ Sql.select_mood 7 (db w') = [("2024-05-01", 3); ("2024-05-01", 8)].
Proof. vm_compute. done. Qed.

End Mood.

(** ** The remind command *)

Section Remind.
Implicit Types (w : world) (u : update) (arg : string) (rest : list string).

Lemma remind_usage u w :
  after (HabitBot.remind u []) w =
  {| db := db w; user_data := user_data w;
     sent := (sent w ++
              [ReplyText (effective_user u) "/remind HH:MM or /remind off" None])%list |}.
Proof. run_handler. by destruct u. Qed.

Lemma remind_off u rest w :
  after (HabitBot.remind u ("off" :: rest)) w =
  {| db := Sql.delete_reminder (effective_user u) (db w);
     user_data := user_data w;
     sent := (sent w ++ [ReplyText (effective_user u) "Reminder off" None])%list |}.
Proof. run_handler. by destruct u. Qed.

Lemma remind_rejected u arg rest w :
  arg ≠ "off" → re_match HabitBot.hhmm arg = false →
  after (HabitBot.remind u (arg :: rest)) w =
  {| db := db w; user_data := user_data w;
     sent := (sent w ++ [ReplyText (effective_user u) "Format HH:MM" None])%list |}.
Proof.
  intros Hoff Hm. run_handler. rewrite decide_False by done. rewrite Hm.
  by destruct u.
Qed.

Lemma remind_set u arg rest w :
  arg ≠ "off" → re_match HabitBot.hhmm arg = true →
  after (HabitBot.remind u (arg :: rest)) w =
  {| db := Sql.replace_reminder (effective_user u) arg (db w);
     user_data := user_data w;
     sent := (sent w ++ [ReplyText (effective_user u) "Reminder set ⏰" None])%list |}.
Proof.
  intros Hoff Hm. run_handler. rewrite decide_False by done. rewrite Hm.
  by destruct u.
Qed.

(** What the strict pattern accepts, [re.match] accepts; not the other way
    round. *)
Lemma strict_hhmm_match arg : strict_hhmm arg = true → re_match HabitBot.hhmm arg = true.
Proof.
  unfold strict_hhmm, re_fullmatch, re_match.
  by destruct (match_here HabitBot.hhmm arg) as [[|]|].
Qed.

(** C2, as stated, fails: [/remind 99:99] is not rejected.  On a fresh
    database the row (7, "99:99") is written and the reply is "Reminder set",
    not the format error. *)
Lemma remind_99_99_is_accepted :
  let w' := after (HabitBot.remind (Message 7 "/remind 99:99") ["99:99"]) boot in
  reminders (db w') !! 7 = Some "99:99"
  ∧ sent w' = [ReplyText 7 "Reminder set ⏰" None]
  ∧ ¬ (reminders (db w') = reminders (db boot)
       ∧ sent w' = [ReplyText 7 "Format HH:MM" None]).
Proof.
  vm_compute. split; [done|]. split; [done|]. intros [_ H]. discriminate H.
Qed.

(** C2 (amended).  For the remind command, whoever the user and whatever the
    store: the argument "99:99" matches the pattern (hours and minutes are not
    range-checked), so the row (user, "99:99") is written and "Reminder set"
    is replied; the argument "08:30" then leaves the row (user, "08:30"); the
    argument "off" then deletes the user's row. *)
Theorem remind_scenario u w :
  let uid := effective_user u in
  let w1 := after (HabitBot.remind u ["99:99"]) w in
  let w2 := after (HabitBot.remind u ["08:30"]) w1 in
  let w3 := after (HabitBot.remind u ["off"]) w2 in
  (reminders (db w1) = <[uid := "99:99"]> (reminders (db w))
   ∧ sent w1 = (sent w ++ [ReplyText uid "Reminder set ⏰" None])%list)
  ∧ reminders (db w2) !! uid = Some "08:30"
  ∧ reminders (db w3) !! uid = None.
Proof.
  intros uid w1 w2 w3. unfold w3, w2, w1.
  rewrite remind_off, !remind_set by done.
  cbn [db sent reminders Sql.replace_reminder Sql.delete_reminder].
  split; [done|]. split.
  - apply lookup_insert_eq.
  - apply lookup_delete_eq.
Qed.

(** C3 (the code departs from the claim).  The claim: a reminder row is
    written if and only if the argument matches the strict two-digit:two-digit
    pattern.  The code: [re.match] anchors the pattern at the start only, so
    "08:30pm", which the strict pattern refuses, is stored as the user's
    reminder time and answered with "Reminder set". *)
Theorem remind_accepts_trailing_text :
  let w' := after (HabitBot.remind (Message 7 "/remind 08:30pm") ["08:30pm"]) boot in
  strict_hhmm "08:30pm" = false
  ∧ reminders (db w') !! 7 = Some "08:30pm"
  ∧ sent w' = [ReplyText 7 "Reminder set ⏰" None].
Proof. vm_compute. done. Qed.

End Remind.

(** ** Toggling a habit *)

Section Toggle.
Implicit Types (w : world) (s : store) (uid hid : Z) (day : string).

Lemma completion_ext uid hid day s s' :
  habit_logs s = habit_logs s' → completion uid hid day s = completion uid hid day s'.
Proof. unfold completion, Sql.select_log_value. by intros ->. Qed.


Lemma completion_toggled uid hid day s :
  completion uid hid day (toggled uid hid day s) = 1 - completion uid hid day s.
Proof.
  unfold completion, toggled.
  destruct (Sql.select_log_value uid hid day s) as [v|] eqn:E.
  - by rewrite select_update_same, E.
  - by rewrite select_insert_same.
Qed.

Lemma toggle_habit_completion uid hid day w :
  completion uid hid day
    (db (after (HabitBot.toggle_habit (CallbackQuery uid ("h_" +:+ str hid)) day) w))
  = 1 - completion uid hid day (db w).
Proof.
  rewrite (toggle_habit_db _ _ _ _ _ (payload_h hid)).
  rewrite (completion_ext _ _ _ _ _ (seeded_logs _ _)).
  apply completion_toggled.
Qed.

(** C4.  For every user, habit id and date, and whatever the store holds: one
    press of the habit's button turns the completion value [v] of (user,
    habit, date) into [1 - v], an absent row counting as 0, and a second press
    on the same date brings it back to [v]. *)
Theorem toggle_twice_restores_completion uid hid day w :
  let press := HabitBot.toggle_habit (CallbackQuery uid ("h_" +:+ str hid)) day in
  completion uid hid day (db (after press w)) = 1 - completion uid hid day (db w)
  ∧ completion uid hid day (db (after press (after press w)))
    = completion uid hid day (db w).
Proof.
  intros press. unfold press. split.
  - apply toggle_habit_completion.
  - rewrite !toggle_habit_completion. lia.
Qed.

Lemma completion_toggled_other uid hid day uid' hid' day' s :
  ¬ (uid = uid' ∧ hid = hid' ∧ day = day') →
  completion uid' hid' day' (toggled uid hid day s) = completion uid' hid' day' s.
Proof.
  intros Hne. unfold completion, toggled.
  destruct (Sql.select_log_value uid hid day s) as [v|].
  - by rewrite select_update_other.
  - by rewrite select_insert_other.
Qed.

(** A press changes the completion value of its own key only: every other
    (user, habit, date) reads as before. *)
Theorem toggle_leaves_other_keys uid hid day uid' hid' day' w :
  ¬ (uid = uid' ∧ hid = hid' ∧ day = day') →
  completion uid' hid' day'
    (db (after (HabitBot.toggle_habit (CallbackQuery uid ("h_" +:+ str hid)) day) w))
  = completion uid' hid' day' (db w).
Proof.
  intros Hne. rewrite (toggle_habit_db _ _ _ _ _ (payload_h hid)).
  rewrite (completion_ext _ _ _ _ _ (seeded_logs _ _)).
  by apply completion_toggled_other.
Qed.

(** User 5 has done habit 2 today; pressing habit 1 leaves that as it is. *)
Lemma toggle_leaves_other_keys_witness :
  let press h := HabitBot.toggle_habit (CallbackQuery 5 ("h_" +:+ str h)) "2024-05-01" in
  let w := after (press 2) boot in
  ¬ (5 = 5 ∧ 1 = 2 ∧ "2024-05-01" = "2024-05-01")
  ∧ completion 5 2 "2024-05-01" (db w) = 1
  ∧ completion 5 2 "2024-05-01" (db (after (press 1) w)) = 1.
Proof.
  intros press w.
  assert (¬ (5 = 5 ∧ 1 = 2 ∧ "2024-05-01" = "2024-05-01")) as Hne
    by (intros (_ & H & _); discriminate H).
  split; [exact Hne|]. split; [reflexivity|].
  exact (eq_trans (toggle_leaves_other_keys 5 1 "2024-05-01" 5 2 "2024-05-01" w Hne)
                  eq_refl).
Defined.










(** C9, as stated, fails: a toggle of a habit id that is in no row of
    [habits] does create a log row.  User 5 has the three default habits (ids
    1, 2, 3) and an empty log; the payload [h_42] leaves the row
    (5, 42, date, 1) in [habit_logs], and habit 42 still does not exist. *)
Lemma toggle_unknown_habit_adds_row :
  let w := after (HabitBot.start (Message 5 "/start") "2024-05-01") boot in
  let w' := after (HabitBot.toggle_habit (CallbackQuery 5 "h_42") "2024-05-01") w in
  habits (db w) !! 42 = None
  ∧ habit_logs (db w) = []
  ∧ habit_logs (db w') =
      [{| log_user := 5; log_habit := 42; log_date := "2024-05-01"; log_value := 1 |}]
  ∧ habits (db w') !! 42 = None
  ∧ habit_logs (db w') ≠ habit_logs (db w).
Proof. vm_compute. repeat split; done. Qed.

Lemma toggle_habit_returns uid hid day w :
  (HabitBot.toggle_habit (CallbackQuery uid ("h_" +:+ str hid)) day w).1 = Ok ().
Proof.
  run_handler. rewrite (payload_h hid).
  destruct (Sql.select_log_value uid hid day (db w)); cbn [fst snd db user_data sent];
    by destruct (Sql.select_habits uid _).
Qed.

(** C9 (amended).  For every user and date, a toggle with a habit id that is
    in no row of [habits], user and id being integers a row can hold, raises
    no error and is not a no-op: the handler never consults [habits], so it
    treats the id like any other.  When [habit_logs] has no row for
    (user, id, date) it appends the row (user, id, date, 1); when it has one
    with value [v] it sets the value of the key's rows to [1 - v]. *)
Theorem toggle_ignores_habits_table uid hid day w :
  habits (db w) !! hid = None →
  bindable uid → bindable hid →
  let press := HabitBot.toggle_habit (CallbackQuery uid ("h_" +:+ str hid)) day in
  (press w).1 = Ok ()
  ∧ match Sql.select_log_value uid hid day (db w) with
    | None =>
        habit_logs (db (after press w)) =
        (habit_logs (db w) ++ [{| log_user := uid; log_habit := hid;
                                  log_date := day; log_value := 1 |}])%list
    | Some v =>
        habit_logs (db (after press w)) =
        Sql.set_value uid hid day (1 - v) <$> habit_logs (db w)
    end.
Proof.
  intros _ _ _ press. unfold press. split; [apply toggle_habit_returns|].
  rewrite (toggle_habit_db _ _ _ _ _ (payload_h hid)), seeded_logs. unfold toggled.
  by destruct (Sql.select_log_value uid hid day (db w)).
Qed.

Lemma toggle_ignores_habits_table_witness :
  (habits (db boot) !! 42 = None ∧ bindable 5 ∧ bindable 42)
  ∧ habit_logs (db (after (HabitBot.toggle_habit (CallbackQuery 5 "h_42") "2024-05-01") boot))
    = [{| log_user := 5; log_habit := 42; log_date := "2024-05-01"; log_value := 1 |}].
Proof.
  assert (bindable 5) as H5 by (unfold bindable; lia).
  assert (bindable 42) as H42 by (unfold bindable; lia).
  split; [by repeat split|].
  exact (proj2 (toggle_ignores_habits_table 5 42 "2024-05-01" boot eq_refl H5 H42)).
Defined.

End Toggle.

(** ** Seeding the default habits *)

Section Seeding.
Implicit Types (w : world) (s : store) (u : update) (uid hid : Z) (day : string).

Lemma seeded_fresh uid s :
  Sql.select_habits uid s = [] →
  let n := Sql.next_habit_id s in
  Sql.select_habits uid (seeded uid s) =
    [(n, "🏃 Sport"); (n + 1, "💧 Water"); (n + 2, "📚 Study")]
  ∧ size (habits (seeded uid s)) = (3 + size (habits s))%nat
  ∧ (∀ k h, habits s !! k = Some h → habits (seeded uid s) !! k = Some h).
Proof.
  intros E n. unfold seeded. rewrite E.
  unfold HabitBot.default_habits. cbn [foldl].
  split; [|split].
  - rewrite !select_habits_insert, !next_habit_id_insert, E.
    rewrite !decide_True by done. simpl. subst n.
    by replace (Sql.next_habit_id s + 1 + 1) with (Sql.next_habit_id s + 2) by lia.
  - by rewrite !size_insert_habit.
  - intros k h Hk. by do 3 apply lookup_insert_habit.
Qed.

Lemma seeded_again uid s : seeded uid (seeded uid s) = seeded uid s.
Proof.
  destruct (Sql.select_habits uid s) as [|h l] eqn:E.
  - destruct (seeded_fresh uid s E) as (E' & _).
    unfold seeded at 1. by rewrite E'.
  - unfold seeded. by rewrite E, E.
Qed.

(** C5.  Let a user open the today-view, and later open it again (by command
    or by button, on any day).  If the user had no habit row, the first view
    inserts exactly three rows, the user's habits are then the three defaults
    under the next three ids, every earlier row of the table is still there,
    and the second view leaves the store as the first left it.  If the user
    had a habit row, the view leaves the store as it found it. *)
Theorem start_seeds_once u u' day day' w :
  effective_user u' = effective_user u →
  let uid := effective_user u in
  let w1 := after (HabitBot.start u day) w in
  let w2 := after (HabitBot.start u' day') w1 in
  (Sql.select_habits uid (db w) = [] →
     let n := Sql.next_habit_id (db w) in
     Sql.select_habits uid (db w1) =
       [(n, "🏃 Sport"); (n + 1, "💧 Water"); (n + 2, "📚 Study")]
     ∧ size (habits (db w1)) = (3 + size (habits (db w)))%nat
     ∧ (∀ k h, habits (db w) !! k = Some h → habits (db w1) !! k = Some h)
     ∧ db w2 = db w1)
  ∧ (Sql.select_habits uid (db w) ≠ [] → db w1 = db w).
Proof.
  intros Hu uid w1 w2. unfold w2, w1. rewrite !start_db, Hu. fold uid. split.
  - intros E. destruct (seeded_fresh uid (db w) E) as (H1 & H2 & H3).
    repeat split; try done. apply seeded_again.
  - intros E. unfold seeded. by destruct (Sql.select_habits uid (db w)).
Qed.

(** A new user sends [/start], and on the next day presses a button of the
    view, which renders it again. *)
Lemma start_seeds_once_witness :
  let u := Message 5 "/start" in
  let u' := CallbackQuery 5 "h_1" in
  let w1 := after (HabitBot.start u "2024-05-01") boot in
  let w2 := after (HabitBot.start u' "2024-05-02") w1 in
  effective_user u' = effective_user u
  ∧ Sql.select_habits 5 (db boot) = []
  ∧ Sql.select_habits 5 (db w1) = [(1, "🏃 Sport"); (2, "💧 Water"); (3, "📚 Study")]
  ∧ db w2 = db w1.
Proof.
  intros u u' w1 w2.
  pose proof (proj1 (start_seeds_once u u' "2024-05-01" "2024-05-02" boot eq_refl)
                eq_refl) as (Hthree & _ & _ & Hagain).
  split; [reflexivity|]. split; [reflexivity|]. split; [exact Hthree|exact Hagain].
Defined.

End Seeding.

(** ** Removing and renaming a habit *)

Section Customize.
Implicit Types (w : world) (s : store) (u : update) (uid hid : Z) (data text : string).

Lemma remove_habit_db uid data hid w :
  payload_id data = Ok hid →
  db (after (HabitBot.remove_habit (CallbackQuery uid data)) w) =
  Sql.delete_habit hid (db w).
Proof. intros Hid. run_handler. by rewrite Hid. Qed.

(** Whatever the update, [remove_habit] leaves the log table alone. *)
Lemma remove_habit_logs u w :
  habit_logs (db (after (HabitBot.remove_habit u) w)) = habit_logs (db w).
Proof. run_handler. by split_matches. Qed.

Lemma edit_flow_db uid hid text w :
  db (after (HabitBot.edit_save (Message uid text))
        (after (HabitBot.edit_select (CallbackQuery uid ("edit_" +:+ str hid))) w))
  = Sql.update_habit_name (strip text) (Some hid) (db w).
Proof.
  run_handler. rewrite (payload_edit hid). cbn [fst snd db user_data sent].
  rewrite lookup_insert_eq. cbn. by rewrite lookup_insert_eq.
Qed.

(** C7.  Pressing the remove button of habit [hid] deletes the row of
    [habits] with that id and no other, and leaves [habit_logs], [mood] and
    [reminders] as they were: every log row that refers to the deleted habit
    is still in the store. *)
Theorem remove_habit_keeps_logs uid hid w :
  let w' := after (HabitBot.remove_habit (CallbackQuery uid ("remove_" +:+ str hid))) w in
  habits (db w') = delete hid (habits (db w))
  ∧ (∀ k, k ≠ hid → habits (db w') !! k = habits (db w) !! k)
  ∧ habit_logs (db w') = habit_logs (db w)
  ∧ mood (db w') = mood (db w)
  ∧ reminders (db w') = reminders (db w)
  ∧ (∀ r, r ∈ habit_logs (db w) → log_habit r = hid → r ∈ habit_logs (db w')).
Proof.
  intros w'. unfold w'. rewrite (remove_habit_db _ _ _ _ (payload_remove hid)).
  cbn [Sql.delete_habit habits habit_logs mood reminders].
  repeat split; try done. intros k Hk. by apply lookup_delete_ne.
Qed.

(** C10.  [remove_habit] and [edit_save] pick the row of [habits] by its id
    and never look at its owner: when habit [hid] belongs to user [b], another
    user [a] who completes the remove flow with a payload that carries [hid]
    deletes [b]'s row, and one who completes the edit flow with it renames
    [b]'s row to the text sent. *)
Theorem habit_id_alone_selects_row (a b hid : Z) (name text : string) w :
  a ≠ b →
  habits (db w) !! hid = Some {| habit_user := b; habit_name := name |} →
  habits (db (after (HabitBot.remove_habit (CallbackQuery a ("remove_" +:+ str hid))) w))
    !! hid = None
  ∧ habits (db (after (HabitBot.edit_save (Message a text))
                  (after (HabitBot.edit_select (CallbackQuery a ("edit_" +:+ str hid))) w)))
    !! hid = Some {| habit_user := b; habit_name := strip text |}.
Proof.
  intros _ Hrow. split.
  - rewrite (remove_habit_db _ _ _ _ (payload_remove hid)). simpl. apply lookup_delete_eq.
  - rewrite edit_flow_db. simpl. by rewrite lookup_alter_eq, Hrow.
Qed.

(** User 2 owns habit 1, "Read"; user 1 removes it, or renames it. *)
Lemma habit_id_alone_selects_row_witness :
  let w := after (HabitBot.add_habit (Message 2 "Read")) boot in
  (1 ≠ 2 ∧ habits (db w) !! 1 = Some {| habit_user := 2; habit_name := "Read" |})
  ∧ habits (db (after (HabitBot.remove_habit (CallbackQuery 1 "remove_1")) w)) !! 1 = None
  ∧ habits (db (after (HabitBot.edit_save (Message 1 " Hacked "))
                  (after (HabitBot.edit_select (CallbackQuery 1 "edit_1")) w))) !! 1
    = Some {| habit_user := 2; habit_name := "Hacked" |}.
Proof.
  intros w.
  assert (1 ≠ 2) as Hne by lia.
  assert (habits (db w) !! 1 = Some {| habit_user := 2; habit_name := "Read" |})
    as Hrow by reflexivity.
  split; [by split|].
  exact (habit_id_alone_selects_row 1 2 1 "Read" " Hacked " w Hne Hrow).
Defined.

End Customize.

(** ** The reminder poller *)

Section Poller.
Implicit Types (w : world) (s : store) (uid : Z) (t : string) (rows : list (Z * string)).

Lemma for_each_notify t rows w :
  for_each rows (HabitBot.notify t) w =
  (Ok (), {| db := db w; user_data := user_data w;
             sent := (sent w ++ due t rows)%list |}).
Proof.
  revert w. induction rows as [|[uid t'] rows IH]; intros w.
  - unfold due. cbn. rewrite app_nil_r. by destruct w.
  - rewrite for_each_cons. unfold HabitBot.notify at 1, due.
    rewrite filter_cons. cbn [snd]. case_decide; cbn.
    + rewrite IH. cbn. by rewrite <-app_assoc.
    + by rewrite IH.
Qed.

Lemma send_reminders_sent t w :
  after (HabitBot.send_reminders t) w =
  {| db := db w; user_data := user_data w;
     sent := (sent w ++ due t (Sql.select_reminders (db w)))%list |}.
Proof.
  unfold after, HabitBot.send_reminders, mbind, handler_bind, query.
  by rewrite for_each_notify.
Qed.

Lemma notified_due uid t rows :
  notified uid (due t rows) = length (filter (λ r, r = (uid, t)) rows).
Proof.
  unfold notified, due. induction rows as [|[uid' t'] rows IH]; [done|].
  rewrite !filter_cons. cbn [snd].
  destruct (decide (t' = t)) as [->|Ht].
  - rewrite fmap_cons, filter_cons. cbn [fst].
    destruct (decide (uid' = uid)) as [->|Hu].
    + rewrite !decide_True by done. simpl. by rewrite IH.
    + rewrite !decide_False by congruence. done.
  - rewrite decide_False by congruence. done.
Qed.

Lemma count_NoDup {A : Type} `{EqDecision A} (x : A) (l : list A) :
  NoDup l → length (filter (λ y, y = x) l) = if decide (x ∈ l) then 1%nat else 0%nat.
Proof.
  induction 1 as [|y l Hy Hl IH]; [done|].
  rewrite filter_cons. destruct (decide (y = x)) as [->|Hne].
  - rewrite decide_True by left. simpl. rewrite IH. by rewrite decide_False.
  - rewrite IH. destruct (decide (x ∈ l)) as [Hx|Hx].
    + rewrite decide_True; [done|by right].
    + rewrite decide_False; [done|]. rewrite elem_of_cons. intros [?|?]; congruence.
Qed.

Lemma count_scan (m : gmap Z string) uid t :
  length (filter (λ r, r = (uid, t)) (Sql.scan m)) =
  if decide (m !! uid = Some t) then 1%nat else 0%nat.
Proof.
  rewrite count_NoDup by apply scan_NoDup.
  destruct (decide ((uid, t) ∈ Sql.scan m)) as [Hin|Hin];
    rewrite elem_of_scan in Hin.
  - by rewrite decide_True.
  - by rewrite decide_False.
Qed.

(** C8.  A tick of the poller at wall-clock time [t] (the string HH:MM)
    changes nothing in the store and adds requests [rs] to the transport's
    log such that: every request of [rs] is the reminder message to a user
    whose stored time is the string [t]; a user whose stored time equals [t]
    is notified exactly once, a user whose stored time differs from [t] is
    not notified, and neither is a user without a reminder row. *)
Theorem poller_notifies_exact_matches t w :
  let w' := after (HabitBot.send_reminders t) w in
  ∃ rs : list request,
    sent w' = (sent w ++ rs)%list
    ∧ db w' = db w
    ∧ (∀ r, r ∈ rs → ∃ uid, r = SendMessage uid reminder_text
                            ∧ reminders (db w) !! uid = Some t)
    ∧ (∀ uid stored, reminders (db w) !! uid = Some stored →
         notified uid rs = if decide (stored = t) then 1%nat else 0%nat)
    ∧ (∀ uid, reminders (db w) !! uid = None → notified uid rs = 0%nat).
Proof.
  intros w'. unfold w'. rewrite send_reminders_sent. cbn [db sent].
  exists (due t (Sql.select_reminders (db w))). split; [done|]. split; [done|].
  unfold Sql.select_reminders. split; [|split].
  - intros r Hr. unfold due in Hr.
    apply list_elem_of_fmap in Hr as ([uid t'] & -> & Hr).
    apply list_elem_of_filter in Hr as [Ht Hr]. simpl in Ht. subst t'.
    exists uid. split; [done|]. by apply elem_of_scan.
  - intros uid stored Hrow. rewrite notified_due, count_scan.
    destruct (decide (stored = t)) as [->|Hne].
    + by rewrite decide_True.
    + rewrite decide_False; [done|congruence].
  - intros uid Hrow. rewrite notified_due, count_scan.
    rewrite decide_False; [done|congruence].
Qed.

(** The clock strings a tick can see. *)
Lemma all_times (P : nat → nat → bool) :
  forallb (λ h, forallb (P h) (seq 0 60)) (seq 0 24) = true →
  ∀ h m, (h < 24)%nat → (m < 60)%nat → P h m = true.
Proof.
  intros Hall h m Hh Hm. rewrite forallb_forall in Hall.
  specialize (Hall h). rewrite forallb_forall in Hall.
  apply Hall; apply in_seq; lia.
Qed.

Lemma strftime_HM_length (h m : nat) :
  (h < 24)%nat → (m < 60)%nat → String.length (strftime_HM h m) = 5%nat.
Proof.
  intros Hh Hm. apply Nat.eqb_eq.
  apply (all_times (λ h m, String.length (strftime_HM h m) =? 5)%nat); [|done..].
  by vm_compute.
Qed.

Lemma strftime_HM_0705 (h m : nat) :
  (h < 24)%nat → (m < 60)%nat → strftime_HM h m = "07:05" ↔ h = 7%nat ∧ m = 5%nat.
Proof.
  intros Hh Hm.
  pose proof (all_times
    (λ h m, Bool.eqb (String.eqb (strftime_HM h m) "07:05") ((h =? 7) && (m =? 5))%nat)
    ltac:(by vm_compute) h m Hh Hm) as Heq.
  apply Bool.eqb_prop in Heq.
  by rewrite <-String.eqb_eq, Heq, andb_true_iff, !Nat.eqb_eq.
Qed.

(** A stored time that is not five characters long is never due: this is what
    becomes of the reminder "08:30pm" that [remind] accepts. *)
Lemma odd_length_never_due (h m : nat) uid (stored : string) w :
  (h < 24)%nat → (m < 60)%nat →
  reminders (db w) !! uid = Some stored →
  String.length stored ≠ 5%nat →
  notified uid (due (strftime_HM h m) (Sql.select_reminders (db w))) = 0%nat.
Proof.
  intros Hh Hm Hrow Hlen. unfold Sql.select_reminders.
  rewrite notified_due, count_scan, decide_False; [done|].
  rewrite Hrow. intros [= ->]. by rewrite strftime_HM_length in Hlen.
Qed.

(** A reminder stored as "07:05" fires on the ticks of the minute 07:05 of the
    server's clock, once per tick, and on no other tick. *)
Theorem reminder_0705_fires_at_0705_only (hour minute : nat) uid w :
  (hour < 24)%nat → (minute < 60)%nat →
  reminders (db w) !! uid = Some "07:05" →
  ∃ rs : list request,
    sent (after (HabitBot.send_reminders (strftime_HM hour minute)) w) = (sent w ++ rs)%list
    ∧ notified uid rs = if decide (hour = 7 ∧ minute = 5)%nat then 1%nat else 0%nat.
Proof.
  intros Hh Hm Hrow. rewrite send_reminders_sent. cbn [sent].
  eexists. split; [done|]. unfold Sql.select_reminders.
  rewrite notified_due, count_scan, Hrow.
  destruct (decide (hour = 7 ∧ minute = 5)%nat) as [Hat|Hat];
    rewrite <-strftime_HM_0705 in Hat by done.
  - rewrite Hat. by rewrite decide_True.
  - rewrite decide_False; [done|]. intros [= Heq]. by apply Hat.
Qed.

Lemma reminder_0705_fires_at_0705_only_witness :
  let w := after (HabitBot.remind (Message 7 "/remind 07:05") ["07:05"]) boot in
  ((7 < 24)%nat ∧ (5 < 60)%nat ∧ reminders (db w) !! 7 = Some "07:05")
  ∧ ∃ rs : list request,
      sent (after (HabitBot.send_reminders (strftime_HM 7 5)) w) = (sent w ++ rs)%list
      ∧ notified 7 rs = 1%nat.
Proof.
  intros w.
  assert (7 < 24)%nat as H7 by lia.
  assert (5 < 60)%nat as H5 by lia.
  assert (reminders (db w) !! 7 = Some "07:05") as Hrow by reflexivity.
  split; [by repeat split|].
  exact (reminder_0705_fires_at_0705_only 7 5 7 w H7 H5 Hrow).
Defined.

End Poller.

(** ** The scenarios of the specification *)

Section Scenarios.
Implicit Types (w : world) (u : update) (uid : Z) (t : string).

Lemma filter_none {A : Type} (P : A → Prop) `{∀ x, Decision (P x)} (l : list A) :
  (∀ x, x ∈ l → ¬ P x) → filter P l = [].
Proof.
  induction l as [|x l IH]; intros Hl; [done|].
  rewrite filter_cons, decide_False by (apply Hl; left).
  apply IH. intros y Hy. apply Hl. by right.
Qed.

Lemma user_rows_unique (l : list (Z * string)) uid t :
  NoDup l.*1 → (uid, t) ∈ l → filter (λ r, r.1 = uid) l = [(uid, t)].
Proof.
  induction l as [|[k v] l IH]; intros Hnd Hin; [by apply elem_of_nil in Hin|].
  apply NoDup_cons in Hnd as [Hk Hnd]. rewrite filter_cons. cbn [fst].
  apply elem_of_cons in Hin as [[= <- <-]|Hin].
  - rewrite decide_True by done. f_equal. apply filter_none.
    intros [k' v'] Hin ?. simpl in *. subst. apply Hk.
    apply list_elem_of_fmap. by exists (uid, v').
  - rewrite decide_False; [by apply IH|].
    intros ->. apply Hk. apply list_elem_of_fmap. by exists (uid, t).
Qed.

Lemma user_rows_scan (m : gmap Z string) uid :
  filter (λ r, r.1 = uid) (Sql.scan m) =
  match m !! uid with Some t => [(uid, t)] | None => [] end.
Proof.
  destruct (m !! uid) as [t|] eqn:Hm.
  - apply user_rows_unique; [|by apply elem_of_scan].
    rewrite scan_perm. apply NoDup_fst_map_to_list.
  - apply filter_none. intros [k v] Hin ?. simpl in *. subst.
    apply elem_of_scan in Hin. congruence.
Qed.

Lemma hhmm_not_off (arg : string) : re_match HabitBot.hhmm arg = true → arg ≠ "off".
Proof. by intros Hm ->. Qed.

(** Setting a reminder twice leaves exactly one row for the user, with the
    time set last; setting it and then sending [off] leaves the user no row. *)
Theorem reminder_last_write_wins u (t1 t2 : string) w :
  re_match HabitBot.hhmm t1 = true →
  re_match HabitBot.hhmm t2 = true →
  let uid := effective_user u in
  let w2 := after (HabitBot.remind u [t2]) (after (HabitBot.remind u [t1]) w) in
  let w3 := after (HabitBot.remind u ["off"]) w2 in
  filter (λ r, r.1 = uid) (Sql.select_reminders (db w2)) = [(uid, t2)]
  ∧ filter (λ r, r.1 = uid) (Sql.select_reminders (db w3)) = [].
Proof.
  intros H1 H2 uid w2 w3. unfold w3, w2.
  rewrite remind_off, !remind_set by auto using hhmm_not_off.
  cbn [db]. unfold Sql.select_reminders. rewrite !user_rows_scan. simpl.
  by rewrite lookup_insert_eq, lookup_delete_eq.
Qed.

Lemma reminder_last_write_wins_witness :
  let u := Message 7 "/remind" in
  let w2 := after (HabitBot.remind u ["08:30"]) (after (HabitBot.remind u ["07:05"]) boot) in
  (re_match HabitBot.hhmm "07:05" = true ∧ re_match HabitBot.hhmm "08:30" = true)
  ∧ filter (λ r, r.1 = 7) (Sql.select_reminders (db w2)) = [(7, "08:30")]
  ∧ filter (λ r, r.1 = 7)
      (Sql.select_reminders (db (after (HabitBot.remind u ["off"]) w2))) = [].
Proof.
  intros u w2. split; [by split|].
  exact (reminder_last_write_wins u "07:05" "08:30" boot eq_refl eq_refl).
Defined.

(** A new user sends [/start] and gets the three default habits, all
    unchecked.  Pressing "Sport" leaves the log row (user, 1, today, 1) and
    the view shows the habit checked; pressing it again leaves the same row
    with value 0 and the view shows it unchecked. *)
Theorem sport_scenario :
  let day := "2024-05-01" in
  let w1 := after (HabitBot.start (Message 5 "/start") day) boot in
  let w2 := after (HabitBot.toggle_habit (CallbackQuery 5 "h_1") day) w1 in
  let w3 := after (HabitBot.toggle_habit (CallbackQuery 5 "h_1") day) w2 in
  sent w1 = [ReplyText 5 "Your habits today:"
               (Some [[("⬜ 🏃 Sport", "h_1")]; [("⬜ 💧 Water", "h_2")];
                      [("⬜ 📚 Study", "h_3")]])]
  ∧ habit_logs (db w2) =
      [{| log_user := 5; log_habit := 1; log_date := day; log_value := 1 |}]
  ∧ last (sent w2) =
      Some (EditMessageText 5 "Your habits today:"
              (Some [[("✅ 🏃 Sport", "h_1")]; [("⬜ 💧 Water", "h_2")];
                     [("⬜ 📚 Study", "h_3")]]))
  ∧ habit_logs (db w3) =
      [{| log_user := 5; log_habit := 1; log_date := day; log_value := 0 |}]
  ∧ last (sent w3) =
      Some (EditMessageText 5 "Your habits today:"
              (Some [[("⬜ 🏃 Sport", "h_1")]; [("⬜ 💧 Water", "h_2")];
                     [("⬜ 📚 Study", "h_3")]])).
Proof. vm_compute. done. Qed.

(** A user sends [/customize], presses "Add" and sends the text "Reading": a
    habit row with that name is created, and the next [/start] shows four
    habits. *)
Theorem reading_scenario :
  let day := "2024-05-01" in
  let w1 := after (HabitBot.start (Message 5 "/start") day) boot in
  let c1 := HabitBot.customize (Message 5 "/customize") w1 in
  let c2 := HabitBot.customize_action (CallbackQuery 5 "add") c1.2 in
  let c3 := HabitBot.add_habit (Message 5 "Reading") c2.2 in
  let w5 := after (HabitBot.start (Message 5 "/start") day) c3.2 in
  (c1.1 = Ok CHOOSING ∧ c2.1 = Ok ADDING ∧ c3.1 = Ok END)
  ∧ habits (db c3.2) !! 4 = Some {| habit_user := 5; habit_name := "Reading" |}
  ∧ Sql.select_habits 5 (db w5) =
      [(1, "🏃 Sport"); (2, "💧 Water"); (3, "📚 Study"); (4, "Reading")].
Proof. vm_compute. done. Qed.
End Scenarios.

(** ** The statements behind every handler run *)

Section Writes.
Implicit Types (w : world) (s : store) (u : update) (uid : Z) (c : clock) (k : call).

Lemma foldl_seeding uid s : foldl perform s (seeding uid s) = seeded uid s.
Proof. unfold seeding, seeded. by destruct (Sql.select_habits uid s). Qed.

Lemma seeding_ext uid s s' : habits s = habits s' → seeding uid s = seeding uid s'.
Proof. intros E. unfold seeding, Sql.select_habits. by rewrite E. Qed.

Ltac silent_handler := run_handler; by split_matches.

Lemma invoke_writes c k w :
  db (after (invoke c k) w) = foldl perform (db w) (writes_of c k w).
Proof.
  destruct k as [u|u|u|u|u|u|u|u|u|u|u|u|u|u|u args|]; unfold invoke, writes_of.
  - by rewrite start_db, foldl_seeding.
  - destruct u as [uid text|uid data]; [done|].
    destruct (payload_id data) as [hid|e] eqn:Hid.
    + rewrite (toggle_habit_db _ _ _ _ _ Hid). cbn [foldl]. unfold toggled.
      destruct (Sql.select_log_value uid hid (today c) (db w)); cbn [perform];
        rewrite <-foldl_seeding; f_equal; by apply seeding_ext.
    + by rewrite (toggle_habit_raise _ _ _ _ _ Hid).
  - silent_handler.
  - silent_handler.
  - silent_handler.
  - run_handler. destruct u as [uid text|uid data]; [done|].
    cbn. by destruct (payload_id data).
  - silent_handler.
  - silent_handler.
  - silent_handler.
  - silent_handler.
  - silent_handler.
  - silent_handler.
  - run_handler. destruct u as [uid text|uid data]; [done|].
    cbn. by destruct (payload_id data).
  - silent_handler.
  - run_handler. destruct args as [|arg rest]; [by destruct u|].
    destruct (decide (arg = "off")); [by destruct u|].
    destruct (re_match HabitBot.hhmm arg); by destruct u.
  - cbn [foldl]. unfold HabitBot.send_reminders, after.
    unfold mbind, handler_bind, query. cbn [fst snd].
    exact (notify_db (now c) (Sql.select_reminders (db w)) w).
Qed.

(** A statement that names a user names the one the handler serves. *)
Lemma writes_of_user c k w x uid :
  x ∈ writes_of c k w → write_user x = Some uid → acting k = Some uid.
Proof.
  assert (∀ uid' s, x ∈ seeding uid' s → write_user x = Some uid → uid' = uid) as Hseed.
  { intros uid' s. unfold seeding. destruct (Sql.select_habits uid' s); [|by intros ?%elem_of_nil].
    intros (name & -> & _)%list_elem_of_fmap. by intros [= ->]. }
  destruct k as [u|u|u|u|u|u|u|u|u|u|u|u|u|u|u args|]; cbn [writes_of acting];
    try (by intros ?%elem_of_nil).
  - intros Hx Hu. by rewrite (Hseed _ _ Hx Hu).
  - destruct u as [uid' text|uid' data]; [by intros ?%elem_of_nil|].
    destruct (payload_id data); [|by intros ?%elem_of_nil].
    intros [->|Hx]%elem_of_cons Hu; cbn.
    + by destruct (Sql.select_log_value _ _ _ _); injection Hu as ->.
    + by rewrite (Hseed _ _ Hx Hu).
  - destruct u as [uid' text|uid' data]; [|by intros ?%elem_of_nil].
    by intros ->%list_elem_of_singleton [= ->].
  - destruct u as [uid' text|uid' data]; [by intros ?%elem_of_nil|].
    destruct (payload_id data); [|by intros ?%elem_of_nil].
    by intros ->%list_elem_of_singleton.
  - destruct u as [uid' text|uid' data]; [|by intros ?%elem_of_nil].
    by intros ->%list_elem_of_singleton.
  - destruct u as [uid' text|uid' data]; [by intros ?%elem_of_nil|].
    destruct (payload_id data); [|by intros ?%elem_of_nil].
    by intros ->%list_elem_of_singleton [= ->].
  - destruct args as [|arg rest]; [by intros ?%elem_of_nil|].
    destruct (decide (arg = "off")); [by intros ->%list_elem_of_singleton [= ->]|].
    destruct (re_match HabitBot.hhmm arg); [|by intros ?%elem_of_nil].
    by intros ->%list_elem_of_singleton [= ->].
Qed.

(** Only [remove_habit] deletes a habit row and only [edit_save] renames one. *)
Lemma writes_of_delete c k w hid :
  DeleteHabit hid ∈ writes_of c k w → ∃ u, k = RemoveHabit u.
Proof.
  assert (∀ uid' s, DeleteHabit hid ∈ seeding uid' s → False) as Hseed.
  { intros uid' s. unfold seeding. destruct (Sql.select_habits uid' s); [|by intros ?%elem_of_nil].
    by intros (name & ? & _)%list_elem_of_fmap. }
  destruct k as [u|u|u|u|u|u|u|u|u|u|u|u|u|u|u args|]; cbn [writes_of];
    try (by intros ?%elem_of_nil); try by eauto.
  - by intros ?%Hseed.
  - destruct u as [uid' text|uid' data]; [by intros ?%elem_of_nil|].
    destruct (payload_id data); [|by intros ?%elem_of_nil].
    intros [Hx|Hx]%elem_of_cons; [by destruct (Sql.select_log_value _ _ _ _)|by apply Hseed in Hx].
  - destruct u as [uid' text|uid' data]; [|by intros ?%elem_of_nil].
    by intros ?%list_elem_of_singleton.
  - destruct u as [uid' text|uid' data]; [|by intros ?%elem_of_nil].
    by intros ?%list_elem_of_singleton.
  - destruct u as [uid' text|uid' data]; [by intros ?%elem_of_nil|].
    destruct (payload_id data); [|by intros ?%elem_of_nil].
    by intros ?%list_elem_of_singleton.
  - destruct args as [|arg rest]; [by intros ?%elem_of_nil|].
    destruct (decide (arg = "off")); [by intros ?%list_elem_of_singleton|].
    destruct (re_match HabitBot.hhmm arg); [|by intros ?%elem_of_nil].
    by intros ?%list_elem_of_singleton.
Qed.

Lemma writes_of_rename c k w name target :
  RenameHabit name target ∈ writes_of c k w → ∃ u, k = EditSave u.
Proof.
  assert (∀ uid' s, RenameHabit name target ∈ seeding uid' s → False) as Hseed.
  { intros uid' s. unfold seeding. destruct (Sql.select_habits uid' s); [|by intros ?%elem_of_nil].
    by intros (? & ? & _)%list_elem_of_fmap. }
  destruct k as [u|u|u|u|u|u|u|u|u|u|u|u|u|u|u args|]; cbn [writes_of];
    try (by intros ?%elem_of_nil); try by eauto.
  - by intros ?%Hseed.
  - destruct u as [uid' text|uid' data]; [by intros ?%elem_of_nil|].
    destruct (payload_id data); [|by intros ?%elem_of_nil].
    intros [Hx|Hx]%elem_of_cons; [by destruct (Sql.select_log_value _ _ _ _)|by apply Hseed in Hx].
  - destruct u as [uid' text|uid' data]; [|by intros ?%elem_of_nil].
    by intros ?%list_elem_of_singleton.
  - destruct u as [uid' text|uid' data]; [by intros ?%elem_of_nil|].
    destruct (payload_id data); [|by intros ?%elem_of_nil].
    by intros ?%list_elem_of_singleton.
  - destruct u as [uid' text|uid' data]; [by intros ?%elem_of_nil|].
    destruct (payload_id data); [|by intros ?%elem_of_nil].
    by intros ?%list_elem_of_singleton.
  - destruct args as [|arg rest]; [by intros ?%elem_of_nil|].
    destruct (decide (arg = "off")); [by intros ?%list_elem_of_singleton|].
    destruct (re_match HabitBot.hhmm arg); [|by intros ?%elem_of_nil].
    by intros ?%list_elem_of_singleton.
Qed.

(** The store after a history of handler runs is the store before it with a
    list of statements performed, each from one of the runs. *)
Lemma run_writes (history : list (clock * call)) w :
  ∃ xs, db (run history w) = foldl perform (db w) xs
        ∧ ∀ x, x ∈ xs → ∃ step w', step ∈ history ∧ x ∈ writes_of step.1 step.2 w'.
Proof.
  revert w. induction history as [|step history IH]; intros w.
  - exists []. split; [done|]. by intros x ?%elem_of_nil.
  - cbn [run foldl]. destruct (IH (after (invoke step.1 step.2) w)) as (xs & Hdb & Hxs).
    exists (writes_of step.1 step.2 w ++ xs)%list. split.
    + unfold run in Hdb. by rewrite Hdb, invoke_writes, foldl_app.
    + intros x [Hx|Hx]%elem_of_app.
      * exists step, w. split; [left|done].
      * destruct (Hxs x Hx) as (step' & w' & ? & ?). exists step', w'. split; [by right|done].
Qed.

Lemma after_ignore {A : Type} (h : handler A) w : after (ignore h) w = after h w.
Proof.
  unfold after, ignore, mbind, handler_bind, mret, handler_ret.
  by destruct (h w) as [[?|?] ?].
Qed.

End Writes.

(** ** What the dispatcher does with an update *)

Section Dispatch.
Implicit Types (w : world) (a : bot) (d : delivery) (t : datetime) (uid : Z).

Lemma calendar_sent u t w :
  after (HabitBot.calendar u t) w =
  {| db := db w; user_data := user_data w;
     sent := (sent w ++ [ReplyText (effective_user u) "Select date:"
               (Some ((λ i : nat, let d := minus_days t i in
                        [(strftime_d_b d, "cal_" +:+ strftime_Ymd d)]) <$> seq 0 7))])%list |}.
Proof. unfold HabitBot.calendar, HabitBot.send, after, emit. by destruct u. Qed.

Lemma route_amounts t conv d : amounts_to (clock_of t) (sender d) (route t conv d).
Proof.
  assert (amounts_to (clock_of t) (sender d)
            match converse conv d with Some h => Talk h | None => Unhandled end) as Htalk.
  { unfold converse.
    destruct conv as [[]|], d as [uid name text|uid text|uid data];
      repeat case_decide; try done; cbn [amounts_to sender update_of].
    - exists (CustomizeAction (CallbackQuery uid data)).
      split; [intros; symmetry; apply after_ignore|done].
    - exists (AddHabit (Message uid text)).
      split; [intros; symmetry; apply after_ignore|done].
    - exists (RemoveHabit (CallbackQuery uid data)).
      split; [intros; symmetry; apply after_ignore|done].
    - exists (EditSelect (CallbackQuery uid data)).
      split; [intros; symmetry; apply after_ignore|done].
    - exists (EditSave (Message uid text)).
      split; [intros; symmetry; apply after_ignore|done].
    - exists (Customize (Message uid text)).
      split; [intros; symmetry; apply after_ignore|done]. }
  unfold route.
  destruct d as [uid name text|uid text|uid data]; cbn [update_of sender] in *.
  - repeat case_decide; try exact Htalk; cbn [amounts_to].
    + right. by exists (Start (Message uid text)).
    + right. by exists (Menu (Message uid text)).
    + right. by exists (Week (Message uid text)).
    + right. by exists (Month (Message uid text)).
    + left. intros w. by rewrite calendar_sent.
    + right. by exists (Mood (Message uid text)).
    + right. by exists (MoodProgress (Message uid text)).
    + right. by exists (Remind (Message uid text) (command_args text)).
  - exact Htalk.
  - destruct (re_match _ data); [right; by exists (ToggleHabit (CallbackQuery uid data))|].
    destruct (re_match _ data); [right; by exists (SaveMood (CallbackQuery uid data))|].
    destruct (re_match _ data); [by left|].
    exact Htalk.
Qed.

Lemma handle_is_call t e a :
  (db (bot_world (handle t e a)) = db (bot_world a)
   ∧ user_data (bot_world (handle t e a)) = user_data (bot_world a))
  ∨ ∃ k, bot_world (handle t e a) = after (invoke (clock_of t) k) (bot_world a)
         ∧ acting k = event_sender e.
Proof.
  destruct e as [d|]; [|right; by exists SendReminders].
  cbn [handle event_sender]. unfold dispatch.
  pose proof (route_amounts t (bot_conv a !! sender d) d) as Hr.
  destruct (route t (bot_conv a !! sender d) d) as [h|h|]; cbn [amounts_to settle] in *.
  - destruct Hr as [Hr|(k & Hk & Hact)]; [left; apply Hr|].
    right. exists k. by rewrite <-Hk.
  - destruct Hr as (k & Hk & Hact). right. exists k. by rewrite <-Hk.
  - by left.
Qed.

(** The store after a stream of events is the store before it with a list of
    statements performed; a statement that names a user names a sender. *)
Lemma serve_writes (events : list (datetime * event)) a :
  ∃ xs, db (bot_world (serve events a)) = foldl perform (db (bot_world a)) xs
        ∧ ∀ x uid, x ∈ xs → write_user x = Some uid → uid ∈ senders events.
Proof.
  revert a. induction events as [|[t e] events IH]; intros a.
  - exists []. split; [done|]. by intros x uid ?%elem_of_nil.
  - cbn [serve foldl fst snd]. destruct (IH (handle t e a)) as (xs & Hdb & Hxs).
    unfold serve in Hdb. rewrite Hdb.
    assert (∀ x uid, x ∈ xs → write_user x = Some uid → uid ∈ senders ((t, e) :: events))
      as Hxs'.
    { intros x uid Hx Hu. specialize (Hxs x uid Hx Hu). unfold senders in *.
      cbn [omap list_omap snd]. destruct (event_sender e); [by right|done]. }
    destruct (handle_is_call t e a) as [[Hsame _]|(k & Hk & Hact)].
    + exists xs. by rewrite Hsame.
    + exists (writes_of (clock_of t) k (bot_world a) ++ xs)%list. split.
      * by rewrite Hk, invoke_writes, foldl_app.
      * intros x uid [Hx|Hx]%elem_of_app Hu; [|by eapply Hxs'].
        pose proof (writes_of_user _ _ _ _ _ Hx Hu) as Hk'. rewrite Hact in Hk'.
        unfold senders. cbn [omap list_omap snd]. rewrite Hk'. left.
Qed.

End Dispatch.

(** ** What no history of the bot undoes *)

Section Histories.
Implicit Types (w : world) (a : bot) (s : store) (x : write) (xs : list write)
  (uid hid k : Z) (events : list (datetime * event)).

Lemma update_habit_name_mood (name : string) (target : option Z) s :
  mood (Sql.update_habit_name name target s) = mood s.
Proof. by destruct target. Qed.

Lemma update_habit_name_reminders (name : string) (target : option Z) s :
  reminders (Sql.update_habit_name name target s) = reminders s.
Proof. by destruct target. Qed.

Lemma mood_foldl s xs : mood (foldl perform s xs) = (mood s ++ mood_rows xs)%list.
Proof.
  revert s. induction xs as [|x xs IH]; intros s; [by rewrite app_nil_r|].
  cbn [foldl]. rewrite IH. unfold mood_rows. cbn [omap list_omap].
  destruct x; cbn [perform]; rewrite ?update_habit_name_mood; try done.
  cbn. by rewrite <-app_assoc.
Qed.

Lemma mood_rows_user xs r : r ∈ mood_rows xs → ∃ x, x ∈ xs ∧ write_user x = Some (mood_user r).
Proof.
  unfold mood_rows. rewrite list_elem_of_omap. intros (x & Hx & Hr).
  exists x. split; [done|]. destruct x; try done. by injection Hr as <-.
Qed.

Lemma log_key_set_value uid hid (day : string) v r :
  log_key (Sql.set_value uid hid day v r) = log_key r.
Proof. unfold Sql.set_value. by case_decide. Qed.

Lemma log_keys_foldl s xs :
  log_key <$> habit_logs (foldl perform s xs) =
  ((log_key <$> habit_logs s) ++ new_log_keys xs)%list.
Proof.
  revert s. induction xs as [|x xs IH]; intros s; [by rewrite app_nil_r|].
  cbn [foldl]. rewrite IH. unfold new_log_keys. cbn [omap list_omap].
  destruct x; cbn [perform]; rewrite ?update_habit_name_logs; try done.
  - cbn. f_equal. rewrite <-list_fmap_compose. apply list_fmap_ext.
    intros i r _. apply log_key_set_value.
  - cbn. by rewrite fmap_app, <-app_assoc.
Qed.

Lemma new_log_keys_user xs key :
  key ∈ new_log_keys xs → ∃ x, x ∈ xs ∧ write_user x = Some key.1.1.
Proof.
  unfold new_log_keys. rewrite list_elem_of_omap. intros (x & Hx & Hr).
  exists x. split; [done|]. destruct x; try done. by injection Hr as <-.
Qed.

(** A statement made for another user leaves a user's rows as they are. *)
Lemma perform_other_user s x uid :
  write_user x ≠ Some uid →
  filter (λ r, log_user r = uid) (habit_logs (perform s x))
    = filter (λ r, log_user r = uid) (habit_logs s)
  ∧ filter (λ r, mood_user r = uid) (mood (perform s x))
    = filter (λ r, mood_user r = uid) (mood s)
  ∧ reminders (perform s x) !! uid = reminders s !! uid.
Proof.
  intros Hx. destruct x; cbn [perform write_user] in *;
    rewrite ?update_habit_name_logs, ?update_habit_name_mood,
      ?update_habit_name_reminders; try done.
  - split; [|done]. cbn.
    induction (habit_logs s) as [|r l IH]; [done|].
    rewrite fmap_cons, !filter_cons, IH. unfold Sql.set_value.
    destruct (decide (Sql.log_at uid0 hid day r)) as [(Hu & _ & _)|]; [|done].
    cbn. rewrite !decide_False; [done|congruence..].
  - split; [|done]. cbn. rewrite filter_app, filter_cons, decide_False, filter_nil.
    + by rewrite app_nil_r.
    + cbn. congruence.
  - split; [done|]. split; [|done]. cbn. unfold Sql.replace_into, Sql.mood_key.
    rewrite filter_app, filter_cons, decide_False, filter_nil.
    + by rewrite app_nil_r.
    + cbn. congruence.
  - do 2 (split; [done|]). cbn. apply lookup_delete_ne. congruence.
  - do 2 (split; [done|]). cbn. apply lookup_insert_ne. congruence.
Qed.

Lemma foldl_other_user s xs uid :
  (∀ x, x ∈ xs → write_user x ≠ Some uid) →
  filter (λ r, log_user r = uid) (habit_logs (foldl perform s xs))
    = filter (λ r, log_user r = uid) (habit_logs s)
  ∧ filter (λ r, mood_user r = uid) (mood (foldl perform s xs))
    = filter (λ r, mood_user r = uid) (mood s)
  ∧ reminders (foldl perform s xs) !! uid = reminders s !! uid.
Proof.
  revert s. induction xs as [|x xs IH]; intros s Hxs; [done|].
  cbn [foldl]. destruct (IH (perform s x)) as (H1 & H2 & H3).
  { intros y Hy. apply Hxs. by right. }
  destruct (perform_other_user s x uid) as (H1' & H2' & H3').
  { apply Hxs. left. }
  by rewrite H1, H2, H3.
Qed.

(** The id counter never goes back, it bounds every id in the table, and an
    id at or below it that is absent stays absent. *)
Lemma perform_seq s x : habits_seq s ≤ habits_seq (perform s x).
Proof.
  destruct x; cbn [perform]; try done.
  - cbn. unfold Sql.next_habit_id. lia.
  - by destruct hid.
Qed.

Lemma perform_bounded s x : habits_bounded s → habits_bounded (perform s x).
Proof.
  intros Hs. destruct x; cbn [perform]; try done.
  - intros k h. cbn. rewrite lookup_insert. case_decide as Hk.
    + intros _. subst k. pose proof (scan_max_rowid_nonneg (habits s)).
      unfold Sql.next_habit_id. lia.
    + intros Hh. specialize (Hs k h Hh). unfold Sql.next_habit_id. lia.
  - intros k h. cbn. rewrite lookup_delete. case_decide; [done|]. apply Hs.
  - destruct hid as [id|]; [|done]. intros k h. cbn. rewrite lookup_alter.
    case_decide; [|apply Hs]. subst. destruct (habits s !! k) eqn:E; [|done].
    intros _. by apply (Hs k h0).
Qed.

Lemma perform_absent s x k :
  k ≤ habits_seq s → habits s !! k = None → habits (perform s x) !! k = None.
Proof.
  intros Hk Hnone. destruct x; cbn [perform]; try done.
  - cbn. rewrite lookup_insert_ne; [done|]. unfold Sql.next_habit_id. lia.
  - cbn. rewrite lookup_delete. by case_decide.
  - destruct hid as [id|]; [|done]. cbn. rewrite lookup_alter.
    case_decide; [|done]. subst. by rewrite Hnone.
Qed.

Lemma foldl_seq s xs : habits_seq s ≤ habits_seq (foldl perform s xs).
Proof.
  revert s. induction xs as [|x xs IH]; intros s; [done|].
  cbn [foldl]. etrans; [apply (perform_seq s x)|apply IH].
Qed.

Lemma foldl_bounded s xs : habits_bounded s → habits_bounded (foldl perform s xs).
Proof.
  revert s. induction xs as [|x xs IH]; intros s Hs; [done|].
  cbn [foldl]. by apply IH, perform_bounded.
Qed.

Lemma foldl_absent s xs k :
  k ≤ habits_seq s → habits s !! k = None → habits (foldl perform s xs) !! k = None.
Proof.
  revert s. induction xs as [|x xs IH]; intros s Hk Hnone; [done|].
  cbn [foldl]. apply IH.
  - pose proof (perform_seq s x). lia.
  - by apply perform_absent.
Qed.

Lemma foldl_kept s xs k h :
  (∀ x, x ∈ xs → ∀ hid, x ≠ DeleteHabit hid) →
  (∀ x, x ∈ xs → ∀ name target, x ≠ RenameHabit name target) →
  habits s !! k = Some h → habits (foldl perform s xs) !! k = Some h.
Proof.
  revert s. induction xs as [|x xs IH]; intros s Hdel Hren Hk; [done|].
  cbn [foldl]. apply IH.
  - intros y Hy. apply Hdel. by right.
  - intros y Hy. apply Hren. by right.
  - assert (x ∈ x :: xs) as Hx by left.
    destruct x; cbn [perform]; try done.
    + by apply lookup_insert_habit.
    + by destruct (Hdel _ Hx hid).
    + by destruct (Hren _ Hx name hid).
Qed.

(** No mood entry is ever deleted or rewritten: whatever the bot is sent, the
    mood table afterwards is the table before with rows added at its end, and
    every added row belongs to a user who sent something. *)
Theorem mood_only_grows events a :
  ∃ new : list mood_entry,
    mood (db (bot_world (serve events a))) = (mood (db (bot_world a)) ++ new)%list
    ∧ ∀ r, r ∈ new → mood_user r ∈ senders events.
Proof.
  destruct (serve_writes events a) as (xs & Hdb & Hxs).
  exists (mood_rows xs). split; [by rewrite Hdb, mood_foldl|].
  intros r (x & Hx & Hu)%mood_rows_user. by eapply Hxs.
Qed.

(** No log row is ever deleted or moved to another key: whatever the bot is
    sent, the keys (user, habit, date) of the log table afterwards are those
    before, in the same order, followed by new ones, each of a user who sent
    something.  Only the values of rows change. *)
Theorem log_rows_never_deleted events a :
  ∃ new : list (Z * Z * string),
    log_key <$> habit_logs (db (bot_world (serve events a))) =
      ((log_key <$> habit_logs (db (bot_world a))) ++ new)%list
    ∧ ∀ key, key ∈ new → key.1.1 ∈ senders events.
Proof.
  destruct (serve_writes events a) as (xs & Hdb & Hxs).
  exists (new_log_keys xs). split; [by rewrite Hdb, log_keys_foldl|].
  intros key (x & Hx & Hu)%new_log_keys_user. by eapply Hxs.
Qed.

(** A user who sends nothing keeps the reminder, the mood rows and the log
    rows the user had, whatever the other users send and however often the
    poller ticks. *)
Theorem silent_user_keeps_rows events a uid :
  uid ∉ senders events →
  let s := db (bot_world a) in
  let s' := db (bot_world (serve events a)) in
  filter (λ r, log_user r = uid) (habit_logs s') = filter (λ r, log_user r = uid) (habit_logs s)
  ∧ filter (λ r, mood_user r = uid) (mood s') = filter (λ r, mood_user r = uid) (mood s)
  ∧ reminders s' !! uid = reminders s !! uid.
Proof.
  intros Hsilent s s'. unfold s', s.
  destruct (serve_writes events a) as (xs & -> & Hxs).
  apply foldl_other_user. intros x Hx Hu. apply Hsilent. by eapply Hxs.
Qed.

(** User 5 has a habit done, a mood and a reminder; then user 6 starts, the
    poller ticks and user 6 opens the customize menu. *)
Lemma silent_user_keeps_rows_witness :
  let t := {| dt_year := 2024; dt_month := 5; dt_day := 1; dt_hour := 8; dt_minute := 30 |} in
  let a := serve [(t, Deliver (Command 5 "start" "/start"));
                  (t, Deliver (Press 5 "h_1"));
                  (t, Deliver (Press 5 "mood_7"));
                  (t, Deliver (Command 5 "remind" "/remind 08:30"))] boot_bot in
  let events := [(t, Deliver (Command 6 "start" "/start"));
                 (t, Tick);
                 (t, Deliver (Command 6 "customize" "/customize"))] in
  (5 ∉ senders events)
  ∧ reminders (db (bot_world a)) !! 5 = Some "08:30"
  ∧ reminders (db (bot_world (serve events a))) !! 5 = reminders (db (bot_world a)) !! 5.
Proof.
  intros t a events.
  assert (5 ∉ senders events) as Hsilent
    by (apply (bool_decide_unpack _); vm_compute; exact I).
  split; [exact Hsilent|]. split; [reflexivity|].
  exact (proj2 (proj2 (silent_user_keeps_rows events a 5 Hsilent))).
Defined.

Lemma boot_bounded : habits_bounded (db boot).
Proof. intros k h. cbn. by rewrite lookup_empty. Qed.

(** A habit id is never issued twice.  On a bot started from an empty
    database, a habit id that was in the table at one moment and is gone at a
    later one is in the table at no moment after that: the log rows a removed
    habit leaves behind are never taken over by a new habit. *)
Theorem habit_ids_never_reused (events1 events2 events3 : list (datetime * event)) k :
  let a1 := serve events1 boot_bot in
  let a2 := serve events2 a1 in
  let a3 := serve events3 a2 in
  is_Some (habits (db (bot_world a1)) !! k) →
  habits (db (bot_world a2)) !! k = None →
  habits (db (bot_world a3)) !! k = None.
Proof.
  intros a1 a2 a3 [h Hk] Hgone.
  destruct (serve_writes events1 boot_bot) as (xs1 & H1 & _).
  destruct (serve_writes events2 a1) as (xs2 & H2 & _).
  destruct (serve_writes events3 a2) as (xs3 & H3 & _).
  fold a1 in H1, H2. fold a2 in H2, H3. fold a3 in H3.
  assert (k ≤ habits_seq (db (bot_world a1))) as Hle.
  { pose proof (foldl_bounded (db (bot_world boot_bot)) xs1 boot_bounded) as Hb.
    rewrite <-H1 in Hb.
    by destruct (Hb k h Hk). }
  rewrite H3. apply foldl_absent; [|done].
  rewrite H2. pose proof (foldl_seq (db (bot_world a1)) xs2). lia.
Qed.

(** Users 5 and 6 are seeded habits 1 to 6; user 5 removes habit 2; both go
    on adding habits.  Id 2 stays free. *)
Lemma habit_ids_never_reused_witness :
  let t := {| dt_year := 2024; dt_month := 5; dt_day := 1; dt_hour := 8; dt_minute := 30 |} in
  let events1 := [(t, Deliver (Command 5 "start" "/start"));
                  (t, Deliver (Command 6 "start" "/start"))] in
  let events2 := [(t, Deliver (Command 5 "customize" "/customize"));
                  (t, Deliver (Press 5 "remove"));
                  (t, Deliver (Press 5 "remove_2"))] in
  let events3 := [(t, Deliver (Command 5 "customize" "/customize"));
                  (t, Deliver (Press 5 "add"));
                  (t, Deliver (Text 5 "Read"));
                  (t, Deliver (Command 7 "start" "/start"))] in
  let a1 := serve events1 boot_bot in
  let a2 := serve events2 a1 in
  let a3 := serve events3 a2 in
  (is_Some (habits (db (bot_world a1)) !! 2) ∧ habits (db (bot_world a2)) !! 2 = None)
  ∧ habits (db (bot_world a3)) !! 2 = None
  ∧ habits (db (bot_world a3)) !! 7 = Some {| habit_user := 5; habit_name := "Read" |}.
Proof.
  intros t events1 events2 events3 a1 a2 a3.
  assert (is_Some (habits (db (bot_world a1)) !! 2)) as Hin by (eexists; reflexivity).
  assert (habits (db (bot_world a2)) !! 2 = None) as Hout by reflexivity.
  split; [by split|]. split; [|reflexivity].
  exact (habit_ids_never_reused events1 events2 events3 2 Hin Hout).
Defined.

(** Apart from [remove_habit] and [edit_save], no handler deletes or changes
    a row of [habits]: a history without runs of these two keeps every row
    the table had, under its id, with its owner and name. *)
Theorem only_remove_and_edit_touch_rows (history : list (clock * call)) w k h :
  (∀ step u, step ∈ history → step.2 ≠ RemoveHabit u ∧ step.2 ≠ EditSave u) →
  habits (db w) !! k = Some h →
  habits (db (run history w)) !! k = Some h.
Proof.
  intros Hcalm Hk. destruct (run_writes history w) as (xs & -> & Hxs).
  apply foldl_kept; [| |done].
  - intros x Hx hid ->. destruct (Hxs _ Hx) as (step & w' & Hstep & Hin).
    apply writes_of_delete in Hin as [u Hu]. by destruct (Hcalm step u Hstep).
  - intros x Hx name target ->. destruct (Hxs _ Hx) as (step & w' & Hstep & Hin).
    apply writes_of_rename in Hin as [u Hu]. by destruct (Hcalm step u Hstep).
Qed.

(** User 5 is seeded, toggles, saves a mood, sets a reminder and adds a
    habit, and the poller runs: habit 1 is as it was seeded. *)
Lemma only_remove_and_edit_touch_rows_witness :
  let c := {| today := "2024-05-01"; now := "08:30" |} in
  let w := after (HabitBot.start (Message 5 "/start") "2024-05-01") boot in
  let history := [(c, ToggleHabit (CallbackQuery 5 "h_1"));
                  (c, SaveMood (CallbackQuery 5 "mood_7"));
                  (c, Remind (Message 5 "/remind 08:30") ["08:30"]);
                  (c, AddHabit (Message 5 "Read"));
                  (c, SendReminders)] in
  ((∀ step u, step ∈ history → step.2 ≠ RemoveHabit u ∧ step.2 ≠ EditSave u)
   ∧ habits (db w) !! 1 = Some {| habit_user := 5; habit_name := "🏃 Sport" |})
  ∧ habits (db (run history w)) !! 1 = Some {| habit_user := 5; habit_name := "🏃 Sport" |}.
Proof.
  intros c w history.
  assert (∀ step u, step ∈ history → step.2 ≠ RemoveHabit u ∧ step.2 ≠ EditSave u) as Hcalm.
  { intros step u Hstep. unfold history in Hstep.
    repeat (apply elem_of_cons in Hstep as [->|Hstep]; [by split|]).
    by apply elem_of_nil in Hstep. }
  assert (habits (db w) !! 1 = Some {| habit_user := 5; habit_name := "🏃 Sport" |})
    as Hrow by reflexivity.
  split; [by split|].
  exact (only_remove_and_edit_touch_rows history w 1 _ Hcalm Hrow).
Defined.
End Histories.

(** ** The customize conversation, as the dispatcher runs it *)

Section Conversation.
Implicit Types (w : world) (a : bot) (s : store) (t : datetime)
  (uid hid : Z) (data text name action : string) (c : conversation).

Lemma last_two {A : Type} (l : list A) x y : last (l ++ [x; y])%list = Some y.
Proof. change [x; y] with ([x] ++ [y])%list. rewrite app_assoc. apply last_snoc. Qed.

(** What each handler of the conversation returns and leaves behind. *)
Lemma customize_run uid text w :
  HabitBot.customize (Message uid text) w =
  (Ok CHOOSING, say w [ReplyText uid "Customize habits:" (Some customize_menu)]).
Proof. reflexivity. Qed.

Lemma customize_action_add uid w :
  HabitBot.customize_action (CallbackQuery uid "add") w =
  (Ok ADDING, say w [Answer uid; EditMessageText uid "Send new habit name:" None]).
Proof. unfold say. run_handler. rewrite decide_True by done. cbn. by rewrite <-app_assoc. Qed.

Lemma customize_action_none uid action w :
  action ≠ "add" → Sql.select_habits uid (db w) = [] →
  HabitBot.customize_action (CallbackQuery uid action) w =
  (Ok END, say w [Answer uid; EditMessageText uid "No habits yet" None]).
Proof.
  intros Hadd Hnone. unfold say. run_handler.
  rewrite decide_False by done. rewrite Hnone. cbn. by rewrite <-app_assoc.
Qed.

Lemma customize_action_choose uid action w :
  action ≠ "add" → Sql.select_habits uid (db w) ≠ [] →
  HabitBot.customize_action (CallbackQuery uid action) w =
  (Ok (if decide (action = "remove") then REMOVING else EDITING),
   say w [Answer uid;
          EditMessageText uid "Choose habit:"
            (Some ((λ h : Z * string, [(h.2, action +:+ "_" +:+ str h.1)])
                     <$> Sql.select_habits uid (db w)))]).
Proof.
  intros Hadd Hsome. unfold say. run_handler.
  rewrite decide_False by done.
  destruct (Sql.select_habits uid (db w)) as [|h l]; [done|].
  cbn. by rewrite <-app_assoc.
Qed.

Lemma add_habit_run uid text w :
  HabitBot.add_habit (Message uid text) w =
  (Ok END, say (with_db w (Sql.insert_habit uid (strip text) (db w)))
             [ReplyText uid "Habit added ✅" None]).
Proof. reflexivity. Qed.

Lemma remove_habit_run uid data hid w :
  payload_id data = Ok hid →
  HabitBot.remove_habit (CallbackQuery uid data) w =
  (Ok END, say (with_db w (Sql.delete_habit hid (db w)))
             [Answer uid; EditMessageText uid "Habit removed ❌" None]).
Proof.
  intros Hid. unfold say, with_db. run_handler. rewrite Hid.
  cbn. by rewrite <-app_assoc.
Qed.

Lemma remove_habit_fails uid data e w :
  payload_id data = Raise e →
  HabitBot.remove_habit (CallbackQuery uid data) w = (Raise e, say w [Answer uid]).
Proof. intros Hid. unfold say. run_handler. by rewrite Hid. Qed.

Lemma edit_select_run uid data hid w :
  payload_id data = Ok hid →
  HabitBot.edit_select (CallbackQuery uid data) w =
  (Ok EDITING_VALUE,
   {| db := db w;
      user_data := <[uid := <["edit_habit_id" := hid]> (default ∅ (user_data w !! uid))]>
                     (user_data w);
      sent := (sent w ++ [Answer uid; EditMessageText uid "Send new habit name:" None])%list |}).
Proof.
  intros Hid. run_handler. rewrite Hid. cbn. by rewrite <-app_assoc.
Qed.

Lemma edit_select_fails uid data e w :
  payload_id data = Raise e →
  HabitBot.edit_select (CallbackQuery uid data) w = (Raise e, say w [Answer uid]).
Proof. intros Hid. unfold say. run_handler. by rewrite Hid. Qed.

Lemma edit_save_run uid text w :
  HabitBot.edit_save (Message uid text) w =
  (Ok END,
   say (with_db w (Sql.update_habit_name (strip text)
                     (user_data w !! uid ≫= (.!! "edit_habit_id")) (db w)))
       [ReplyText uid "Habit updated ✨" None]).
Proof. reflexivity. Qed.

(** A payload that starts with none of [h], [m], [c] matches none of the
    patterns [^h_], [^mood_], [^cal_]. *)
Lemma untaken (ch : ascii) (rest : string) :
  ch ≠ "h"%char → ch ≠ "m"%char → ch ≠ "c"%char → application_takes (String ch rest) = false.
Proof.
  intros Hh Hm Hc. unfold application_takes, re_match. cbn [match_here atom_matches].
  by rewrite !(proj2 (Ascii.eqb_neq _ _)) by done.
Qed.

Lemma untaken_remove hid : application_takes ("remove_" +:+ str hid) = false.
Proof. by apply untaken. Qed.

Lemma untaken_edit hid : application_takes ("edit_" +:+ str hid) = false.
Proof. by apply untaken. Qed.

Lemma route_press t conv uid data :
  application_takes data = false →
  route t conv (Press uid data) =
  match converse conv (Press uid data) with Some h => Talk h | None => Unhandled end.
Proof.
  unfold application_takes, route. intros Hno.
  apply orb_false_elim in Hno as [Hno Hcal]. apply orb_false_elim in Hno as [Hh Hmood].
  by rewrite Hh, Hmood, Hcal.
Qed.

(** One step of a conversation: the press or text reaches the handler of the
    state the user is in. *)
Lemma dispatch_press t uid data a c h :
  bot_conv a !! uid = Some c → application_takes data = false →
  converse (Some c) (Press uid data) = Some h →
  dispatch t (Press uid data) a = settle uid (Talk h) a.
Proof.
  intros Hconv Hno Hh. unfold dispatch. cbn [sender].
  by rewrite route_press, Hconv, Hh.
Qed.

Lemma dispatch_text t uid text a c h :
  bot_conv a !! uid = Some c →
  converse (Some c) (Text uid text) = Some h →
  dispatch t (Text uid text) a = settle uid (Talk h) a.
Proof.
  intros Hconv Hh. unfold dispatch, route. cbn [sender]. by rewrite Hconv, Hh.
Qed.

Lemma dispatch_customize t uid text a :
  bot_conv a !! uid = None →
  dispatch t (Command uid "customize" text) a =
  {| bot_world := say (bot_world a) [ReplyText uid "Customize habits:" (Some customize_menu)];
     bot_conv := <[uid := CHOOSING]> (bot_conv a) |}.
Proof. intros Hconv. unfold dispatch. cbn [sender]. by rewrite Hconv. Qed.

Lemma dispatch_choose t uid action a :
  bot_conv a !! uid = Some CHOOSING →
  application_takes action = false → action ≠ "add" →
  Sql.select_habits uid (db (bot_world a)) ≠ [] →
  dispatch t (Press uid action) a =
  {| bot_world := say (bot_world a)
       [Answer uid;
        EditMessageText uid "Choose habit:"
          (Some ((λ h : Z * string, [(h.2, action +:+ "_" +:+ str h.1)])
                   <$> Sql.select_habits uid (db (bot_world a))))];
     bot_conv := <[uid := if decide (action = "remove") then REMOVING else EDITING]>
                   (bot_conv a) |}.
Proof.
  intros Hconv Hno Hadd Hsome.
  rewrite (dispatch_press _ _ _ _ _ _ Hconv Hno eq_refl). cbn [settle update_of].
  rewrite customize_action_choose by done. cbn [fst snd].
  by destruct (decide (action = "remove")).
Qed.

Lemma elem_of_select_habits uid s hid name :
  (hid, name) ∈ Sql.select_habits uid s ↔
  habits s !! hid = Some {| habit_user := uid; habit_name := name |}.
Proof.
  unfold Sql.select_habits. rewrite list_elem_of_fmap. split.
  - intros ([k [u n]] & [= -> ->] & [Hu Hin]%list_elem_of_filter).
    cbn in Hu. subst. by apply elem_of_scan in Hin.
  - intros Hrow. exists (hid, {| habit_user := uid; habit_name := name |}).
    split; [done|]. apply list_elem_of_filter. split; [done|]. by apply elem_of_scan.
Qed.

Lemma select_habits_nonempty uid s hid name :
  habits s !! hid = Some {| habit_user := uid; habit_name := name |} →
  Sql.select_habits uid s ≠ [].
Proof.
  intros Hrow%elem_of_select_habits Hnil. rewrite Hnil in Hrow. by apply elem_of_nil in Hrow.
Qed.

(** The remove flow.  A user outside any conversation who owns habit [hid]
    sends [/customize], presses "Remove" and then the button of that habit:
    the bot offers the habit under the payload [remove_<hid>], and the press
    deletes exactly the row [hid] of [habits], confirms, and closes the
    conversation. *)
Theorem remove_flow_deletes_chosen_habit (t1 t2 t3 : datetime) text a uid hid name :
  bot_conv a !! uid = None →
  habits (db (bot_world a)) !! hid = Some {| habit_user := uid; habit_name := name |} →
  let a1 := dispatch t1 (Command uid "customize" text) a in
  let a2 := dispatch t2 (Press uid "remove") a1 in
  let a3 := dispatch t3 (Press uid ("remove_" +:+ str hid)) a2 in
  bot_conv a2 !! uid = Some REMOVING
  ∧ (∃ kb, last (sent (bot_world a2)) = Some (EditMessageText uid "Choose habit:" (Some kb))
           ∧ [(name, "remove_" +:+ str hid)] ∈ kb)
  ∧ habits (db (bot_world a3)) = delete hid (habits (db (bot_world a)))
  ∧ bot_conv a3 !! uid = None
  ∧ last (sent (bot_world a3)) = Some (EditMessageText uid "Habit removed ❌" None).
Proof.
  intros Hconv Hrow a1 a2 a3.
  pose proof (select_habits_nonempty _ _ _ _ Hrow) as Hsome.
  pose proof (dispatch_customize t1 uid text a Hconv) as Ha1. fold a1 in Ha1.
  assert (bot_conv a1 !! uid = Some CHOOSING) as Hc1
    by (rewrite Ha1; apply lookup_insert_eq).
  assert (db (bot_world a1) = db (bot_world a)) as Hdb1 by (by rewrite Ha1).
  pose proof (dispatch_choose t2 uid "remove" a1 Hc1 eq_refl) as Ha2.
  fold a2 in Ha2. rewrite Hdb1 in Ha2. specialize (Ha2 ltac:(done) Hsome).
  assert (bot_conv a2 !! uid = Some REMOVING) as Hc2
    by (rewrite Ha2; apply lookup_insert_eq).
  assert (db (bot_world a2) = db (bot_world a)) as Hdb2 by (by rewrite Ha2).
  assert (a3 = {| bot_world := say (with_db (bot_world a2)
                                   (Sql.delete_habit hid (db (bot_world a2))))
                     [Answer uid; EditMessageText uid "Habit removed ❌" None];
                  bot_conv := delete uid (bot_conv a2) |}) as Ha3.
  { unfold a3. rewrite (dispatch_press _ _ _ _ _ _ Hc2 (untaken_remove hid) eq_refl).
    cbn [settle update_of]. by rewrite (remove_habit_run _ _ _ _ (payload_remove hid)). }
  split; [done|]. split.
  { eexists. split.
    - rewrite Ha2. apply last_two.
    - apply list_elem_of_fmap. exists (hid, name). split; [done|].
      by apply elem_of_select_habits. }
  split; [by rewrite Ha3, Hdb2|]. split.
  - rewrite Ha3. apply lookup_delete_eq.
  - rewrite Ha3. apply last_two.
Qed.

(** User 5 removes the seeded habit 2. *)
Lemma remove_flow_deletes_chosen_habit_witness :
  let t := {| dt_year := 2024; dt_month := 5; dt_day := 1; dt_hour := 8; dt_minute := 30 |} in
  let a := dispatch t (Command 5 "start" "/start") boot_bot in
  let a1 := dispatch t (Command 5 "customize" "/customize") a in
  let a2 := dispatch t (Press 5 "remove") a1 in
  let a3 := dispatch t (Press 5 "remove_2") a2 in
  (bot_conv a !! 5 = None
   ∧ habits (db (bot_world a)) !! 2 = Some {| habit_user := 5; habit_name := "💧 Water" |})
  ∧ habits (db (bot_world a3)) = delete 2 (habits (db (bot_world a)))
  ∧ Sql.select_habits 5 (db (bot_world a3)) = [(1, "🏃 Sport"); (3, "📚 Study")].
Proof.
  intros t a a1 a2 a3.
  assert (bot_conv a !! 5 = None) as Hconv by reflexivity.
  assert (habits (db (bot_world a)) !! 2 = Some {| habit_user := 5; habit_name := "💧 Water" |})
    as Hrow by reflexivity.
  split; [by split|]. split; [|reflexivity].
  exact (proj1 (proj2 (proj2
    (remove_flow_deletes_chosen_habit t t t "/customize" a 5 2 "💧 Water" Hconv Hrow)))).
Defined.

(** The edit flow.  A user outside any conversation who owns habit [hid]
    sends [/customize], presses "Edit", presses the button of that habit and
    sends a text of ASCII characters: the habit keeps its id and owner and
    gets the text without the white space at its ends as its name, no other
    row of [habits] changes, and the conversation is closed. *)
Theorem edit_flow_renames_chosen_habit (t1 t2 t3 t4 : datetime) text new a uid hid name :
  bot_conv a !! uid = None →
  habits (db (bot_world a)) !! hid = Some {| habit_user := uid; habit_name := name |} →
  new ≠ "" → isascii new = true →
  let a1 := dispatch t1 (Command uid "customize" text) a in
  let a2 := dispatch t2 (Press uid "edit") a1 in
  let a3 := dispatch t3 (Press uid ("edit_" +:+ str hid)) a2 in
  let a4 := dispatch t4 (Text uid new) a3 in
  bot_conv a2 !! uid = Some EDITING
  ∧ (∃ kb, last (sent (bot_world a2)) = Some (EditMessageText uid "Choose habit:" (Some kb))
           ∧ [(name, "edit_" +:+ str hid)] ∈ kb)
  ∧ bot_conv a3 !! uid = Some EDITING_VALUE
  ∧ db (bot_world a3) = db (bot_world a)
  ∧ habits (db (bot_world a4)) =
      <[hid := {| habit_user := uid; habit_name := strip new |}]> (habits (db (bot_world a)))
  ∧ bot_conv a4 !! uid = None
  ∧ last (sent (bot_world a4)) = Some (ReplyText uid "Habit updated ✨" None).
Proof.
  intros Hconv Hrow Hnew _ a1 a2 a3 a4.
  pose proof (select_habits_nonempty _ _ _ _ Hrow) as Hsome.
  pose proof (dispatch_customize t1 uid text a Hconv) as Ha1. fold a1 in Ha1.
  assert (bot_conv a1 !! uid = Some CHOOSING) as Hc1
    by (rewrite Ha1; apply lookup_insert_eq).
  assert (db (bot_world a1) = db (bot_world a)) as Hdb1 by (by rewrite Ha1).
  pose proof (dispatch_choose t2 uid "edit" a1 Hc1 eq_refl) as Ha2.
  fold a2 in Ha2. rewrite Hdb1 in Ha2. specialize (Ha2 ltac:(done) Hsome).
  assert (bot_conv a2 !! uid = Some EDITING) as Hc2
    by (rewrite Ha2; apply lookup_insert_eq).
  assert (db (bot_world a2) = db (bot_world a)) as Hdb2 by (by rewrite Ha2).
  assert (a3 = {| bot_world :=
                    {| db := db (bot_world a2);
                       user_data := <[uid := <["edit_habit_id" := hid]>
                                        (default ∅ (user_data (bot_world a2) !! uid))]>
                                      (user_data (bot_world a2));
                       sent := (sent (bot_world a2) ++
                                [Answer uid; EditMessageText uid "Send new habit name:" None])%list |};
                  bot_conv := <[uid := EDITING_VALUE]> (bot_conv a2) |}) as Ha3.
  { unfold a3. rewrite (dispatch_press _ _ _ _ _ _ Hc2 (untaken_edit hid) eq_refl).
    cbn [settle update_of]. by rewrite (edit_select_run _ _ _ _ (payload_edit hid)). }
  assert (bot_conv a3 !! uid = Some EDITING_VALUE) as Hc3
    by (rewrite Ha3; apply lookup_insert_eq).
  assert (a4 = {| bot_world := say (with_db (bot_world a3)
                     (Sql.update_habit_name (strip new) (Some hid) (db (bot_world a3))))
                     [ReplyText uid "Habit updated ✨" None];
                  bot_conv := delete uid (bot_conv a3) |}) as Ha4.
  { unfold a4. erewrite (dispatch_text _ _ _ _ _ _ Hc3).
    2:{ cbn [converse]. by rewrite decide_False. }
    cbn [settle update_of]. rewrite edit_save_run. cbn [fst snd].
    do 3 f_equal. rewrite Ha3. cbn [bot_world user_data].
    by rewrite lookup_insert_eq; cbn; rewrite lookup_insert_eq. }
  split; [done|]. split.
  { eexists. split.
    - rewrite Ha2. apply last_two.
    - apply list_elem_of_fmap. exists (hid, name). split; [done|].
      by apply elem_of_select_habits. }
  split; [done|]. split; [by rewrite Ha3|]. split; [|split].
  - rewrite Ha4, Ha3. cbn. rewrite Hdb2. apply map_eq. intros k.
    destruct (decide (k = hid)) as [->|Hk].
    + by rewrite lookup_alter_eq, lookup_insert_eq, Hrow.
    + by rewrite lookup_alter_ne, lookup_insert_ne.
  - rewrite Ha4. apply lookup_delete_eq.
  - rewrite Ha4. apply last_snoc.
Qed.

(** User 5 renames the seeded habit 2; the new name is stripped. *)
Lemma edit_flow_renames_chosen_habit_witness :
  let t := {| dt_year := 2024; dt_month := 5; dt_day := 1; dt_hour := 8; dt_minute := 30 |} in
  let a := dispatch t (Command 5 "start" "/start") boot_bot in
  let a1 := dispatch t (Command 5 "customize" "/customize") a in
  let a2 := dispatch t (Press 5 "edit") a1 in
  let a3 := dispatch t (Press 5 "edit_2") a2 in
  let a4 := dispatch t (Text 5 " Tea ") a3 in
  (bot_conv a !! 5 = None
   ∧ habits (db (bot_world a)) !! 2 = Some {| habit_user := 5; habit_name := "💧 Water" |}
   ∧ " Tea " ≠ "" ∧ isascii " Tea " = true)
  ∧ habits (db (bot_world a4)) =
      <[2 := {| habit_user := 5; habit_name := "Tea" |}]> (habits (db (bot_world a)))
  ∧ Sql.select_habits 5 (db (bot_world a4)) = [(1, "🏃 Sport"); (2, "Tea"); (3, "📚 Study")].
Proof.
  intros t a a1 a2 a3 a4.
  assert (bot_conv a !! 5 = None) as Hconv by reflexivity.
  assert (habits (db (bot_world a)) !! 2 = Some {| habit_user := 5; habit_name := "💧 Water" |})
    as Hrow by reflexivity.
  assert (" Tea " ≠ "") as Hnew by discriminate.
  assert (isascii " Tea " = true) as Hascii by reflexivity.
  split; [by repeat split|]. split; [|reflexivity].
  exact (proj1 (proj2 (proj2 (proj2 (proj2
    (edit_flow_renames_chosen_habit t t t t "/customize" " Tea " a 5 2 "💧 Water"
       Hconv Hrow Hnew Hascii)))))).
Defined.

(** The add flow.  A user outside any conversation sends [/customize],
    presses "Add" and sends a text of ASCII characters: [habits] gets one new
    row, owned by the user and named by the text without the white space at
    its ends, under an id above every id in the table; the user's list of
    habits is the old one with the new habit at its end, and the
    conversation is closed. *)
Theorem add_flow_appends_habit (t1 t2 t3 : datetime) text new a uid :
  bot_conv a !! uid = None →
  new ≠ "" → isascii new = true →
  let s := db (bot_world a) in
  let a1 := dispatch t1 (Command uid "customize" text) a in
  let a2 := dispatch t2 (Press uid "add") a1 in
  let a3 := dispatch t3 (Text uid new) a2 in
  let s' := db (bot_world a3) in
  bot_conv a2 !! uid = Some ADDING
  ∧ habits s' = <[Sql.next_habit_id s := {| habit_user := uid; habit_name := strip new |}]>
                  (habits s)
  ∧ (∀ k h, habits s !! k = Some h → k < Sql.next_habit_id s)
  ∧ Sql.select_habits uid s' =
      (Sql.select_habits uid s ++ [(Sql.next_habit_id s, strip new)])%list
  ∧ bot_conv a3 !! uid = None
  ∧ last (sent (bot_world a3)) = Some (ReplyText uid "Habit added ✅" None).
Proof.
  intros Hconv Hnew _ s a1 a2 a3 s'.
  pose proof (dispatch_customize t1 uid text a Hconv) as Ha1. fold a1 in Ha1.
  assert (bot_conv a1 !! uid = Some CHOOSING) as Hc1
    by (rewrite Ha1; apply lookup_insert_eq).
  assert (a2 = {| bot_world := say (bot_world a1)
                     [Answer uid; EditMessageText uid "Send new habit name:" None];
                  bot_conv := <[uid := ADDING]> (bot_conv a1) |}) as Ha2.
  { unfold a2. rewrite (dispatch_press t2 uid "add" a1 CHOOSING _ Hc1 eq_refl eq_refl).
    cbn [settle update_of]. by rewrite customize_action_add. }
  assert (bot_conv a2 !! uid = Some ADDING) as Hc2
    by (rewrite Ha2; apply lookup_insert_eq).
  assert (db (bot_world a2) = s) as Hdb2 by (by rewrite Ha2, Ha1).
  assert (a3 = {| bot_world := say (with_db (bot_world a2)
                     (Sql.insert_habit uid (strip new) (db (bot_world a2))))
                     [ReplyText uid "Habit added ✅" None];
                  bot_conv := delete uid (bot_conv a2) |}) as Ha3.
  { unfold a3. erewrite (dispatch_text _ _ _ _ _ _ Hc2).
    2:{ cbn [converse]. by rewrite decide_False. }
    cbn [settle update_of]. by rewrite add_habit_run. }
  assert (s' = Sql.insert_habit uid (strip new) s) as Hs'
    by (unfold s'; by rewrite Ha3, Hdb2).
  split; [done|]. split; [by rewrite Hs'|]. split; [|split; [|split]].
  - intros k h Hk. pose proof (max_rowid_ge _ _ _ Hk).
    pose proof (next_habit_id_above s). lia.
  - rewrite Hs'. rewrite select_habits_insert. by rewrite decide_True.
  - rewrite Ha3. apply lookup_delete_eq.
  - rewrite Ha3. apply last_snoc.
Qed.

(** User 5, seeded with habits 1 to 3, adds a fourth; the text comes with
    blanks in front and a line break behind. *)
Lemma add_flow_appends_habit_witness :
  let t := {| dt_year := 2024; dt_month := 5; dt_day := 1; dt_hour := 8; dt_minute := 30 |} in
  let new := String " " (String " " ("Read more" +:+ String "010" EmptyString)) in
  let a := dispatch t (Command 5 "start" "/start") boot_bot in
  let a1 := dispatch t (Command 5 "customize" "/customize") a in
  let a2 := dispatch t (Press 5 "add") a1 in
  let a3 := dispatch t (Text 5 new) a2 in
  (bot_conv a !! 5 = None ∧ new ≠ "" ∧ isascii new = true)
  ∧ Sql.select_habits 5 (db (bot_world a3)) =
      (Sql.select_habits 5 (db (bot_world a))
         ++ [(Sql.next_habit_id (db (bot_world a)), strip new)])%list
  ∧ Sql.select_habits 5 (db (bot_world a3)) =
      [(1, "🏃 Sport"); (2, "💧 Water"); (3, "📚 Study"); (4, "Read more")].
Proof.
  intros t new a a1 a2 a3.
  assert (bot_conv a !! 5 = None) as Hconv by reflexivity.
  assert (new ≠ "") as Hnew by discriminate.
  assert (isascii new = true) as Hascii by reflexivity.
  split; [by repeat split|]. split; [|reflexivity].
  exact (proj1 (proj2 (proj2 (proj2
    (add_flow_appends_habit t t t "/customize" new a 5 Hconv Hnew Hascii))))).
Defined.
End Conversation.

(** ** What moves a conversation, and what does not *)

Section Turns.
Implicit Types (w : world) (a : bot) (s : store) (t : datetime) (d : delivery)
  (uid hid : Z) (data text name : string) (c : conversation) (r : routed).

Lemma settle_other uid' r a uid :
  uid ≠ uid' → bot_conv (settle uid' r a) !! uid = bot_conv a !! uid.
Proof.
  intros Hne. destruct r as [h|h|]; cbn [settle bot_conv]; try done.
  destruct (h (bot_world a)) as [[[]|e] w']; cbn [fst];
    by rewrite ?lookup_insert_ne, ?lookup_delete_ne.
Qed.

Lemma route_press_taken t conv uid data :
  application_takes data = true → ∃ h, route t conv (Press uid data) = Plain h.
Proof.
  unfold application_takes, route. intros Htaken.
  destruct (re_match [Lit "h"; Lit "_"] data); [by eexists|].
  destruct (re_match [Lit "m"; Lit "o"; Lit "o"; Lit "d"; Lit "_"] data); [by eexists|].
  destruct (re_match [Lit "c"; Lit "a"; Lit "l"; Lit "_"] data); [by eexists|done].
Qed.

Lemma route_command t conv uid name text :
  (∃ h, route t conv (Command uid name text) = Plain h)
  ∨ route t conv (Command uid name text) =
      match converse conv (Command uid name text) with Some h => Talk h | None => Unhandled end.
Proof.
  unfold route.
  repeat (case_decide; [left; by eexists|]). by right.
Qed.

Lemma converse_in_turn conv d :
  is_Some (converse conv d) →
  match conv, d with
  | None, Command _ name _ => name = "customize"
  | Some (CHOOSING | REMOVING | EDITING), Press _ _ => True
  | Some (ADDING | EDITING_VALUE), Text _ text => text ≠ ""
  | _, _ => False
  end.
Proof.
  intros [h Hh]. unfold converse in Hh.
  destruct conv as [[]|], d as [u name text|u text|u data]; try done;
    by case_decide.
Qed.

(** The state a user is in changes only when that user sends what the
    conversation waits for: outside a conversation the command [/customize];
    in [CHOOSING], [REMOVING] and [EDITING] the press of a button that none
    of [^h_], [^mood_], [^cal_] takes; in [ADDING] and [EDITING_VALUE] a
    text.  Nothing another user sends, no other command (not even a second
    [/customize]) and no tick of the poller leaves, restarts or moves it. *)
Theorem conversation_moves_only_in_turn (events : list (datetime * event)) a uid :
  bot_conv (serve events a) !! uid ≠ bot_conv a !! uid →
  ∃ before t d after,
    events = (before ++ (t, Deliver d) :: after)%list
    ∧ sender d = uid
    ∧ in_turn (bot_conv (serve before a) !! uid) d.
Proof.
  revert a. induction events as [|[t e] events IH] using rev_ind; intros a Hmoved; [done|].
  unfold serve in Hmoved. rewrite foldl_snoc in Hmoved. fold (serve events a) in Hmoved.
  cbn [fst snd] in Hmoved.
  destruct (decide (bot_conv (serve events a) !! uid = bot_conv a !! uid)) as [Hsame|Hdiff].
  2:{ destruct (IH a Hdiff) as (before & t' & d & rest & -> & Hd & Hturn).
      exists before, t', d, (rest ++ [(t, e)])%list.
      by rewrite <-app_assoc. }
  rewrite <-Hsame in Hmoved. clear Hsame IH.
  set (b := serve events a) in *.
  destruct e as [d|]; [|done]. cbn [handle] in Hmoved.
  exists events, t, d, []. split; [done|].
  destruct (decide (uid = sender d)) as [->|Hne].
  2:{ unfold dispatch in Hmoved. by rewrite settle_other in Hmoved. }
  split; [done|]. unfold dispatch in Hmoved.
  assert (∀ h, route t (bot_conv b !! sender d) d ≠ Plain h) as Hplain.
  { intros h Hh. by rewrite Hh in Hmoved. }
  assert (is_Some (converse (bot_conv b !! sender d) d)
          ∧ ∀ u data, d = Press u data → application_takes data = false) as [Hconv Hpress].
  { destruct d as [u name text|u text|u data].
    - destruct (route_command t (bot_conv b !! u) u name text) as [[h Hh]|Hroute];
        [by destruct (Hplain h)|].
      cbn [sender] in *. rewrite Hroute in Hmoved.
      split; [|done]. by destruct (converse _ _).
    - cbn [sender route] in *. split; [|done]. by destruct (converse _ _).
    - destruct (application_takes data) eqn:Htaken.
      + destruct (route_press_taken t (bot_conv b !! u) u data Htaken) as [h Hh].
        by destruct (Hplain h).
      + cbn [sender] in *. rewrite route_press in Hmoved by done.
        split; [|by intros ?? [= _ <-]]. by destruct (converse _ _). }
  apply converse_in_turn in Hconv. fold b.
  destruct (bot_conv b !! sender d) as [[]|], d as [u name text|u text|u data];
    cbn [in_turn]; try done; by eapply Hpress.
Qed.

(** User 5 opens the customize menu. *)
Lemma conversation_moves_only_in_turn_witness :
  let t := {| dt_year := 2024; dt_month := 5; dt_day := 1; dt_hour := 8; dt_minute := 30 |} in
  let events := [(t, Deliver (Command 6 "start" "/start"));
                 (t, Deliver (Command 5 "customize" "/customize"));
                 (t, Tick)] in
  bot_conv (serve events boot_bot) !! 5 ≠ bot_conv boot_bot !! 5
  ∧ ∃ before t d after,
      events = (before ++ (t, Deliver d) :: after)%list
      ∧ sender d = 5
      ∧ in_turn (bot_conv (serve before boot_bot) !! 5) d.
Proof.
  intros t events.
  assert (bot_conv (serve events boot_bot) !! 5 ≠ bot_conv boot_bot !! 5) as Hmoved
    by (vm_compute; discriminate).
  split; [exact Hmoved|].
  exact (conversation_moves_only_in_turn events boot_bot 5 Hmoved).
Defined.

(** What the bot ignores.  A delivery that no handler of the application
    takes (a command other than its eight, a press that none of [^h_],
    [^mood_], [^cal_] matches, any text) and that the conversation of its
    sender does not wait for changes nothing and is not answered: a text or
    an unknown button outside a conversation, a text while a button is
    awaited, a button while a text is awaited, and [/customize] sent again
    inside a conversation. *)
Theorem out_of_turn_is_dropped t d a :
  (∀ uid name text, d = Command uid name text → name ∉ application_commands) →
  (∀ uid data, d = Press uid data → application_takes data = false) →
  ¬ in_turn (bot_conv a !! sender d) d →
  dispatch t d a = a.
Proof.
  intros Hcommand Hpress Hout. unfold dispatch.
  assert (converse (bot_conv a !! sender d) d = None) as Hnone.
  { destruct (converse _ d) as [h|] eqn:Hh; [|done]. destruct Hout.
    assert (is_Some (converse (bot_conv a !! sender d) d)) as Hsome by by eexists.
    apply converse_in_turn in Hsome.
    destruct (bot_conv a !! sender d) as [[]|], d as [u name text|u text|u data];
      cbn [in_turn]; try done; by eapply Hpress. }
  destruct d as [u name text|u text|u data].
  - specialize (Hcommand u name text eq_refl). unfold application_commands in Hcommand.
    unfold route. cbn [sender] in *.
    repeat (case_decide; [subst name; destruct Hcommand; set_solver|]).
    by rewrite Hnone.
  - cbn [sender route] in *. by rewrite Hnone.
  - cbn [sender] in *. rewrite route_press by eauto. by rewrite Hnone.
Qed.

(** User 5 is asked for a habit name and sends [/customize] again. *)
Lemma out_of_turn_is_dropped_witness :
  let t := {| dt_year := 2024; dt_month := 5; dt_day := 1; dt_hour := 8; dt_minute := 30 |} in
  let a := serve [(t, Deliver (Command 5 "customize" "/customize"));
                  (t, Deliver (Press 5 "add"))] boot_bot in
  let d := Command 5 "customize" "/customize" in
  ((∀ uid name text, d = Command uid name text → name ∉ application_commands)
   ∧ (∀ uid data, d = Press uid data → application_takes data = false)
   ∧ ¬ in_turn (bot_conv a !! sender d) d)
  ∧ bot_conv a !! 5 = Some ADDING
  ∧ dispatch t d a = a.
Proof.
  intros t a d.
  assert (∀ uid name text, d = Command uid name text → name ∉ application_commands)
    as Hcommand.
  { intros uid name text [= _ <- _]. apply (bool_decide_unpack _). vm_compute. exact I. }
  assert (∀ uid data, d = Press uid data → application_takes data = false) as Hpress
    by (intros uid data Hd; discriminate Hd).
  assert (¬ in_turn (bot_conv a !! sender d) d) as Hout by (intros H; exact H).
  split; [by repeat split|]. split; [reflexivity|].
  exact (out_of_turn_is_dropped t d a Hcommand Hpress Hout).
Defined.

(** A press whose payload is of ASCII characters and cannot be decoded
    ([int(q.data.split("_")[1])] raises [IndexError] or [ValueError]) while
    the user is choosing the habit to remove or to edit is answered and
    otherwise without effect: store and user data are as before, nothing is
    sent but the answer to the callback, and the user is still in the same
    state. *)
Theorem undecodable_press_changes_nothing t uid data a c e :
  bot_conv a !! uid = Some c → c = REMOVING ∨ c = EDITING →
  application_takes data = false →
  isascii data = true →
  payload_id data = Raise e →
  dispatch t (Press uid data) a =
  {| bot_world := say (bot_world a) [Answer uid]; bot_conv := bot_conv a |}.
Proof.
  intros Hconv [-> | ->] Hno _ Hid.
  - rewrite (dispatch_press _ _ _ _ _ _ Hconv Hno eq_refl). cbn [settle update_of].
    by rewrite (remove_habit_fails _ _ _ _ Hid).
  - rewrite (dispatch_press _ _ _ _ _ _ Hconv Hno eq_refl). cbn [settle update_of].
    by rewrite (edit_select_fails _ _ _ _ Hid).
Qed.

(** User 5 is to choose the habit to remove and presses the "Add" button of
    an older menu, and then a button whose payload ends in a letter. *)
Lemma undecodable_press_changes_nothing_witness :
  let t := {| dt_year := 2024; dt_month := 5; dt_day := 1; dt_hour := 8; dt_minute := 30 |} in
  let a := serve [(t, Deliver (Command 5 "start" "/start"));
                  (t, Deliver (Command 5 "customize" "/customize"));
                  (t, Deliver (Press 5 "remove"))] boot_bot in
  (bot_conv a !! 5 = Some REMOVING ∧ (REMOVING = REMOVING ∨ REMOVING = EDITING)
   ∧ application_takes "add" = false ∧ isascii "add" = true
   ∧ payload_id "add" = Raise IndexError
   ∧ application_takes "remove_2x" = false ∧ isascii "remove_2x" = true
   ∧ payload_id "remove_2x" = Raise ValueError)
  ∧ dispatch t (Press 5 "add") a =
    {| bot_world := say (bot_world a) [Answer 5]; bot_conv := bot_conv a |}
  ∧ dispatch t (Press 5 "remove_2x") a =
    {| bot_world := say (bot_world a) [Answer 5]; bot_conv := bot_conv a |}.
Proof.
  intros t a.
  assert (bot_conv a !! 5 = Some REMOVING) as Hconv by reflexivity.
  assert (REMOVING = REMOVING ∨ REMOVING = EDITING) as Hc by (left; reflexivity).
  assert (application_takes "add" = false) as Hno by reflexivity.
  assert (isascii "add" = true) as Hascii by reflexivity.
  assert (payload_id "add" = Raise IndexError) as Hid by reflexivity.
  assert (application_takes "remove_2x" = false) as Hno' by reflexivity.
  assert (isascii "remove_2x" = true) as Hascii' by reflexivity.
  assert (payload_id "remove_2x" = Raise ValueError) as Hid' by reflexivity.
  split; [by repeat split|]. split.
  - exact (undecodable_press_changes_nothing t 5 "add" a REMOVING IndexError
             Hconv Hc Hno Hascii Hid).
  - exact (undecodable_press_changes_nothing t 5 "remove_2x" a REMOVING ValueError
             Hconv Hc Hno' Hascii' Hid').
Defined.

(** A user without habits who chooses "Remove" or "Edit" in the customize
    menu is told so; nothing is stored and the conversation is over. *)
Theorem choosing_without_habits_ends t uid action a :
  bot_conv a !! uid = Some CHOOSING →
  action = "remove" ∨ action = "edit" →
  Sql.select_habits uid (db (bot_world a)) = [] →
  dispatch t (Press uid action) a =
  {| bot_world := say (bot_world a) [Answer uid; EditMessageText uid "No habits yet" None];
     bot_conv := delete uid (bot_conv a) |}.
Proof.
  intros Hconv Haction Hnone.
  assert (application_takes action = false ∧ action ≠ "add") as [Hno Hadd]
    by (by destruct Haction as [-> | ->]).
  rewrite (dispatch_press _ _ _ _ _ _ Hconv Hno eq_refl). cbn [settle update_of].
  by rewrite customize_action_none.
Qed.

(** User 5 has never sent [/start]. *)
Lemma choosing_without_habits_ends_witness :
  let t := {| dt_year := 2024; dt_month := 5; dt_day := 1; dt_hour := 8; dt_minute := 30 |} in
  let a := dispatch t (Command 5 "customize" "/customize") boot_bot in
  (bot_conv a !! 5 = Some CHOOSING ∧ ("edit" = "remove" ∨ "edit" = "edit")
   ∧ Sql.select_habits 5 (db (bot_world a)) = [])
  ∧ dispatch t (Press 5 "edit") a =
    {| bot_world := say (bot_world a) [Answer 5; EditMessageText 5 "No habits yet" None];
       bot_conv := delete 5 (bot_conv a) |}.
Proof.
  intros t a.
  assert (bot_conv a !! 5 = Some CHOOSING) as Hconv by reflexivity.
  assert ("edit" = "remove" ∨ "edit" = "edit") as Haction by (right; reflexivity).
  assert (Sql.select_habits 5 (db (bot_world a)) = []) as Hnone by reflexivity.
  split; [by repeat split|].
  exact (choosing_without_habits_ends t 5 "edit" a Hconv Haction Hnone).
Defined.
End Turns.

(** ** The today-view *)

Section TodayView.
Implicit Types (w : world) (a : bot) (s : store) (t : datetime)
  (uid hid : Z) (data text name day : string).

Lemma habit_button_mark uid day s (h : Z * string) :
  HabitBot.habit_button uid day s h =
  [((if decide (completion uid h.1 day s = 0) then "⬜" else "✅") +:+ " " +:+ h.2,
    "h_" +:+ str h.1)].
Proof.
  unfold HabitBot.habit_button, completion.
  destruct (Sql.select_log_value uid h.1 day s) as [v|]; cbn [from_option]; [|done].
  unfold id. by destruct (decide (v = 0)).
Qed.

Lemma start_run u day w :
  let uid := effective_user u in
  let s' := seeded uid (db w) in
  let kb := HabitBot.habit_button uid day s' <$> Sql.select_habits uid s' in
  HabitBot.start u day w =
  (Ok (), say (with_db w s')
            [match u with
             | CallbackQuery _ _ => EditMessageText uid "Your habits today:" (Some kb)
             | Message _ _ => ReplyText uid "Your habits today:" (Some kb)
             end]).
Proof.
  intros uid s' kb. unfold kb, s', uid, seeded, say, with_db. run_handler.
  destruct (Sql.select_habits _ (db w)) eqn:E; destruct u; cbn; try rewrite E; reflexivity.
Qed.

Lemma toggle_habit_run uid data hid day w :
  payload_id data = Ok hid →
  let s' := seeded uid (toggled uid hid day (db w)) in
  HabitBot.toggle_habit (CallbackQuery uid data) day w =
  (Ok (), say (with_db w s')
            [Answer uid;
             EditMessageText uid "Your habits today:"
               (Some (HabitBot.habit_button uid day s' <$> Sql.select_habits uid s'))]).
Proof.
  intros Hid s'. unfold s', toggled, HabitBot.toggle_habit.
  cbv beta iota zeta delta
    [mbind handler_bind mret handler_ret callback_query emit lift query execute].
  cbn [fst snd db user_data sent]. rewrite Hid.
  destruct (Sql.select_log_value uid hid day (db w)); cbn [fst snd db];
    rewrite start_run; unfold say, with_db; cbn; by rewrite <-app_assoc.
Qed.

Lemma select_habits_seeded uid s : Sql.select_habits uid (seeded uid s) ≠ [].
Proof.
  destruct (Sql.select_habits uid s) as [|h l] eqn:E.
  - destruct (seeded_fresh uid s E) as (-> & _). done.
  - unfold seeded. by rewrite E, E.
Qed.

Lemma sorted_keys {V : Type} (l : list (Z * V)) :
  StronglySorted Sql.key_le l → NoDup l.*1 → StronglySorted (λ x y, x.1 < y.1) l.
Proof.
  induction 1 as [|x l Hl IH Hx]; intros Hnd; [constructor|].
  cbn in Hnd. apply NoDup_cons in Hnd as [Hnotin Hnd].
  constructor; [by apply IH|].
  apply Forall_forall. intros y Hy.
  rewrite Forall_forall in Hx. specialize (Hx y Hy). unfold Sql.key_le in Hx.
  assert (x.1 ≠ y.1); [|lia].
  intros Heq. apply Hnotin. rewrite Heq. apply list_elem_of_fmap. by exists y.
Qed.

Lemma scan_keys_sorted {V : Type} (m : gmap Z V) :
  StronglySorted (λ x y : Z * V, x.1 < y.1) (Sql.scan m).
Proof.
  apply sorted_keys; [apply scan_sorted|].
  rewrite scan_perm. apply NoDup_fst_map_to_list.
Qed.

Lemma select_habits_sorted uid s :
  StronglySorted (λ x y : Z * string, x.1 < y.1) (Sql.select_habits uid s).
Proof.
  unfold Sql.select_habits.
  pose proof (scan_keys_sorted (habits s)) as Hsorted.
  induction Hsorted as [|x l Hl IH Hx]; [constructor|].
  rewrite filter_cons. case_decide; [|done].
  rewrite fmap_cons. constructor; [done|].
  apply Forall_fmap, Forall_forall. intros y [_ Hy]%list_elem_of_filter.
  rewrite Forall_forall in Hx. exact (Hx y Hy).
Qed.

(** The today-view that [/start] sends.  It is one message with one button
    per habit the user owns in the table as the command leaves it (after the
    seeding, if there was any): the buttons come in the order of the habit
    ids, each carries the payload [h_<id>] and the habit's name behind a mark,
    checked when today's completion value of the habit is not 0.  No habit of
    another user is shown, and the view is never empty. *)
Theorem today_view_lists_own_habits t uid text a :
  let a' := dispatch t (Command uid "start" text) a in
  let s' := db (bot_world a') in
  let button (h : Z * string) :=
    [((if decide (completion uid h.1 (strftime_Ymd t) s' = 0) then "⬜" else "✅")
        +:+ " " +:+ h.2,
      "h_" +:+ str h.1)] in
  ∃ hs : list (Z * string),
    sent (bot_world a') =
      (sent (bot_world a) ++ [ReplyText uid "Your habits today:" (Some (button <$> hs))])%list
    ∧ hs ≠ []
    ∧ StronglySorted (λ x y, x.1 < y.1) hs
    ∧ ∀ hid name,
        (hid, name) ∈ hs ↔
        habits s' !! hid = Some {| habit_user := uid; habit_name := name |}.
Proof.
  intros a' s' button.
  assert (a' = {| bot_world := (HabitBot.start (Message uid text) (strftime_Ymd t)
                                  (bot_world a)).2;
                  bot_conv := bot_conv a |}) as Ha' by reflexivity.
  rewrite start_run in Ha'. cbn [snd effective_user] in Ha'.
  assert (s' = seeded uid (db (bot_world a))) as Hs' by (unfold s'; by rewrite Ha').
  exists (Sql.select_habits uid s'). split; [|split; [|split]].
  - rewrite Ha'. cbn [bot_world say sent with_db]. rewrite <-Hs'. do 4 f_equal.
    apply list_fmap_ext. intros i h _. apply habit_button_mark.
  - rewrite Hs'. apply select_habits_seeded.
  - apply select_habits_sorted.
  - intros hid name. apply elem_of_select_habits.
Qed.

(** A press on a button of the today-view, by the owner of the habit.  The
    completion value [v] of (user, habit, today) becomes [1 - v], the habits
    table and the state of any conversation are as before, and the bot
    answers the press and redraws the view in place, with this habit
    unchecked if [v] was 1 and checked otherwise. *)
Theorem press_redraws_view_in_place t uid hid name a :
  habits (db (bot_world a)) !! hid = Some {| habit_user := uid; habit_name := name |} →
  let day := strftime_Ymd t in
  let v := completion uid hid day (db (bot_world a)) in
  let a' := dispatch t (Press uid ("h_" +:+ str hid)) a in
  completion uid hid day (db (bot_world a')) = 1 - v
  ∧ habits (db (bot_world a')) = habits (db (bot_world a))
  ∧ bot_conv a' = bot_conv a
  ∧ ∃ kb,
      sent (bot_world a') =
        (sent (bot_world a)
           ++ [Answer uid; EditMessageText uid "Your habits today:" (Some kb)])%list
      ∧ [((if decide (v = 1) then "⬜" else "✅") +:+ " " +:+ name, "h_" +:+ str hid)] ∈ kb.
Proof.
  intros Hrow day v a'.
  assert (a' = {| bot_world := (HabitBot.toggle_habit (CallbackQuery uid ("h_" +:+ str hid)) day
                                  (bot_world a)).2;
                  bot_conv := bot_conv a |}) as Ha' by reflexivity.
  rewrite (toggle_habit_run _ _ _ _ _ (payload_h hid)) in Ha'. cbn [snd] in Ha'.
  set (s1 := toggled uid hid day (db (bot_world a))) in Ha'.
  assert (habits s1 = habits (db (bot_world a))) as Hhabits.
  { unfold s1, toggled. by destruct (Sql.select_log_value uid hid day _). }
  assert (seeded uid s1 = s1) as Hseeded.
  { unfold seeded. destruct (Sql.select_habits uid s1) eqn:E; [|done].
    rewrite <-Hhabits in Hrow. by destruct (select_habits_nonempty _ _ _ _ Hrow). }
  rewrite Hseeded in Ha'.
  assert (completion uid hid day s1 = 1 - v) as Hv by apply completion_toggled.
  rewrite Ha'. cbn [bot_world bot_conv say with_db db sent].
  split; [done|]. split; [done|]. split; [done|].
  eexists. split; [reflexivity|].
  apply list_elem_of_fmap. exists (hid, name). split.
  - rewrite habit_button_mark. cbn [fst snd]. rewrite Hv.
    destruct (decide (v = 1)), (decide (1 - v = 0)); try done; lia.
  - apply elem_of_select_habits. by rewrite Hhabits.
Qed.

(** User 5 presses the button of the seeded habit 1, twice. *)
Lemma press_redraws_view_in_place_witness :
  let t := {| dt_year := 2024; dt_month := 5; dt_day := 1; dt_hour := 8; dt_minute := 30 |} in
  let a := dispatch t (Command 5 "start" "/start") boot_bot in
  let a1 := dispatch t (Press 5 "h_1") a in
  let a2 := dispatch t (Press 5 "h_1") a1 in
  habits (db (bot_world a1)) !! 1 = Some {| habit_user := 5; habit_name := "🏃 Sport" |}
  ∧ completion 5 1 "2024-05-01" (db (bot_world a1)) = 1
  ∧ completion 5 1 "2024-05-01" (db (bot_world a2)) = 1 - 1
  ∧ last (sent (bot_world a2)) =
      Some (EditMessageText 5 "Your habits today:"
              (Some [[("⬜ 🏃 Sport", "h_1")]; [("⬜ 💧 Water", "h_2")];
                     [("⬜ 📚 Study", "h_3")]])).
Proof.
  intros t a a1 a2.
  assert (habits (db (bot_world a1)) !! 1 = Some {| habit_user := 5; habit_name := "🏃 Sport" |})
    as Hrow by reflexivity.
  split; [exact Hrow|]. split; [reflexivity|]. split; [|reflexivity].
  exact (proj1 (press_redraws_view_in_place t 5 1 "🏃 Sport" a1 Hrow)).
Defined.
End TodayView.

(** ** Reminders, from the command to the tick *)

Section Reminders.
Implicit Types (w : world) (a : bot) (s : store) (t : datetime)
  (uid : Z) (text arg : string) (h m : nat).

Lemma hhmm_starts_with_time arg : re_match HabitBot.hhmm arg = starts_with_time arg.
Proof.
  unfold re_match, HabitBot.hhmm, starts_with_time. cbn [repeat app match_here atom_matches].
  destruct arg as [|a [|b [|c [|d [|e rest]]]]];
    repeat match goal with
           | |- context [is_digit ?x] => destruct (is_digit x)
           | |- context [Ascii.eqb ?x ?y] => destruct (Ascii.eqb x y)
           end; done.
Qed.

(** What [/remind] accepts.  An argument other than [off] that starts with
    two of the digits 0 to 9, a colon and two of these digits is stored as
    the user's reminder, whatever follows them; an argument of ASCII
    characters that does not start so is answered with the format message
    and nothing is written.  Only the first argument counts. *)
Theorem remind_stores_what_starts_like_a_time u arg (rest : list string) w :
  arg ≠ "off" →
  starts_with_time arg = true ∨ isascii arg = true →
  let uid := effective_user u in
  after (HabitBot.remind u (arg :: rest)) w =
  if starts_with_time arg
  then say (with_db w (Sql.replace_reminder uid arg (db w)))
           [ReplyText uid "Reminder set ⏰" None]
  else say w [ReplyText uid "Format HH:MM" None].
Proof.
  intros Hoff _ uid. destruct (starts_with_time arg) eqn:Hm;
    rewrite <-hhmm_starts_with_time in Hm.
  - by rewrite remind_set.
  - by rewrite remind_rejected.
Qed.

(** [/remind 7:05] is refused, [/remind 07:05h] is stored as it is. *)
Lemma remind_stores_what_starts_like_a_time_witness :
  ("7:05" ≠ "off" ∧ (starts_with_time "7:05" = true ∨ isascii "7:05" = true)
   ∧ "07:05h" ≠ "off" ∧ (starts_with_time "07:05h" = true ∨ isascii "07:05h" = true))
  ∧ after (HabitBot.remind (Message 5 "/remind 7:05") ["7:05"]) boot =
    say boot [ReplyText 5 "Format HH:MM" None]
  ∧ after (HabitBot.remind (Message 5 "/remind 07:05h") ["07:05h"]) boot =
    say (with_db boot (Sql.replace_reminder 5 "07:05h" (db boot)))
        [ReplyText 5 "Reminder set ⏰" None].
Proof.
  assert ("7:05" ≠ "off") as Hoff by discriminate.
  assert (starts_with_time "7:05" = true ∨ isascii "7:05" = true) as Hascii
    by (right; reflexivity).
  assert ("07:05h" ≠ "off") as Hoff' by discriminate.
  assert (starts_with_time "07:05h" = true ∨ isascii "07:05h" = true) as Htime
    by (left; reflexivity).
  split; [by repeat split|]. split.
  - exact (remind_stores_what_starts_like_a_time (Message 5 "/remind 7:05") "7:05" [] boot
             Hoff Hascii).
  - exact (remind_stores_what_starts_like_a_time (Message 5 "/remind 07:05h") "07:05h" [] boot
             Hoff' Htime).
Defined.

Lemma strftime_HM_accepted h m :
  (h < 24)%nat → (m < 60)%nat → re_match HabitBot.hhmm (strftime_HM h m) = true.
Proof.
  intros Hh Hm.
  apply (all_times (λ h m, re_match HabitBot.hhmm (strftime_HM h m))); [|done..].
  by vm_compute.
Qed.

Lemma command_args_remind h m :
  (h < 24)%nat → (m < 60)%nat →
  command_args ("/remind " +:+ strftime_HM h m) = [strftime_HM h m].
Proof.
  intros Hh Hm.
  pose proof (all_times (λ h m, bool_decide
                (command_args ("/remind " +:+ strftime_HM h m) = [strftime_HM h m]))
              ltac:(by vm_compute) h m Hh Hm) as Hall.
  by apply bool_decide_eq_true_1 in Hall.
Qed.

Lemma split_HM h m :
  (h < 24)%nat → (m < 60)%nat → split ":" (strftime_HM h m) = [pad2 h; pad2 m].
Proof.
  intros Hh Hm.
  pose proof (all_times (λ h m, bool_decide (split ":" (strftime_HM h m) = [pad2 h; pad2 m]))
              ltac:(by vm_compute) h m Hh Hm) as Hall.
  by apply bool_decide_eq_true_1 in Hall.
Qed.

Lemma int_pad2 n : (n < 60)%nat → int (pad2 n) = Ok (Z.of_nat n).
Proof.
  intros Hn.
  assert (forallb (λ n, match int (pad2 n) with
                        | Ok z => z =? Z.of_nat n
                        | Raise _ => false
                        end) (seq 0 60) = true) as Hall by (by vm_compute).
  rewrite forallb_forall in Hall. specialize (Hall n).
  destruct (int (pad2 n)) as [z|e].
  - f_equal. apply Z.eqb_eq, Hall, in_seq. lia.
  - discriminate Hall. apply in_seq. lia.
Qed.

Lemma pad2_inj n n' : (n < 60)%nat → (n' < 60)%nat → pad2 n = pad2 n' → n = n'.
Proof.
  intros Hn Hn' Heq. pose proof (int_pad2 n Hn) as H1.
  rewrite Heq, int_pad2 in H1 by done. injection H1. lia.
Qed.

Lemma strftime_HM_inj h m h' m' :
  (h < 24)%nat → (m < 60)%nat → (h' < 24)%nat → (m' < 60)%nat →
  strftime_HM h m = strftime_HM h' m' → h = h' ∧ m = m'.
Proof.
  intros Hh Hm Hh' Hm' Heq. apply (f_equal (split ":")) in Heq.
  rewrite !split_HM in Heq by done. injection Heq as Hhour Hminute.
  split; apply pad2_inj; (done || lia).
Qed.

(** From the command to the notification.  A user sets the reminder to a
    time of day as the clock prints it ([%H:%M]); the time is stored as sent,
    and a tick of the poller notifies the user once if the clock then shows
    that hour and minute, and not at all at any other time of day. *)
Theorem reminder_fires_in_its_minute (t0 t : datetime) uid h m a :
  (h < 24)%nat → (m < 60)%nat → (dt_hour t < 24)%nat → (dt_minute t < 60)%nat →
  let a1 := dispatch t0 (Command uid "remind" ("/remind " +:+ strftime_HM h m)) a in
  let a2 := handle t Tick a1 in
  reminders (db (bot_world a1)) !! uid = Some (strftime_HM h m)
  ∧ ∃ rs : list request,
      sent (bot_world a2) = (sent (bot_world a1) ++ rs)%list
      ∧ notified uid rs = if decide (dt_hour t = h ∧ dt_minute t = m) then 1%nat else 0%nat.
Proof.
  intros Hh Hm Hth Htm a1 a2.
  assert (bot_world a1 =
          after (HabitBot.remind (Message uid ("/remind " +:+ strftime_HM h m))
                   [strftime_HM h m]) (bot_world a)) as Ha1.
  { unfold a1, dispatch, route. cbn [sender update_of settle bot_world].
    rewrite !decide_False by done. rewrite decide_True by done.
    cbn [settle bot_world]. by rewrite command_args_remind. }
  pose proof (strftime_HM_accepted h m Hh Hm) as Hok.
  rewrite remind_set in Ha1 by auto using hhmm_not_off.
  assert (reminders (db (bot_world a1)) !! uid = Some (strftime_HM h m)) as Hrow.
  { rewrite Ha1. cbn. apply lookup_insert_eq. }
  split; [done|].
  unfold a2. cbn [handle bot_world clock_of now]. rewrite send_reminders_sent. cbn [sent].
  eexists. split; [done|]. unfold Sql.select_reminders.
  rewrite notified_due, count_scan, Hrow.
  destruct (decide (dt_hour t = h ∧ dt_minute t = m)) as [[<- <-]|Hne].
  - by rewrite decide_True.
  - rewrite decide_False; [done|]. intros [= Heq].
    apply strftime_HM_inj in Heq as [? ?]; [|done..]. by apply Hne.
Qed.

(** User 5 asks to be reminded at 21:45. *)
Lemma reminder_fires_in_its_minute_witness :
  let t0 := {| dt_year := 2024; dt_month := 5; dt_day := 1; dt_hour := 8; dt_minute := 30 |} in
  let t := {| dt_year := 2024; dt_month := 5; dt_day := 1; dt_hour := 21; dt_minute := 45 |} in
  let a1 := dispatch t0 (Command 5 "remind" "/remind 21:45") boot_bot in
  ((21 < 24)%nat ∧ (45 < 60)%nat ∧ (dt_hour t < 24)%nat ∧ (dt_minute t < 60)%nat)
  ∧ reminders (db (bot_world a1)) !! 5 = Some "21:45"
  ∧ ∃ rs : list request,
      sent (bot_world (handle t Tick a1)) = (sent (bot_world a1) ++ rs)%list
      ∧ notified 5 rs = 1%nat.
Proof.
  intros t0 t a1.
  assert (21 < 24)%nat as Hh by lia.
  assert (45 < 60)%nat as Hm by lia.
  assert (dt_hour t < 24)%nat as Hth by (cbn; lia).
  assert (dt_minute t < 60)%nat as Htm by (cbn; lia).
  split; [by repeat split|].
  exact (reminder_fires_in_its_minute t0 t 5 21 45 boot_bot Hh Hm Hth Htm).
Defined.
End Reminders.

(** ** Mood and chart *)

Section Views.
Implicit Types (w : world) (a b : bot) (s : store) (t : datetime)
  (uid v : Z) (text data label iso : string).

Lemma save_mood_run uid data v day w :
  payload_id data = Ok v →
  HabitBot.save_mood (CallbackQuery uid data) day w =
  (Ok (), say (with_db w (Sql.replace_mood uid day v (db w)))
            [Answer uid;
             EditMessageText uid ("Mood saved: " +:+ str v +:+ "/10") None]).
Proof.
  intros Hv. unfold say, with_db. run_handler. rewrite Hv. cbn. by rewrite <-app_assoc.
Qed.

Lemma dispatch_mood_press t uid v b :
  dispatch t (Press uid ("mood_" +:+ str v)) b =
  {| bot_world :=
       say (with_db (bot_world b)
              (Sql.replace_mood uid (strftime_Ymd t) v (db (bot_world b))))
           [Answer uid; EditMessageText uid ("Mood saved: " +:+ str v +:+ "/10") None];
     bot_conv := bot_conv b |}.
Proof.
  assert (dispatch t (Press uid ("mood_" +:+ str v)) b =
          {| bot_world := (HabitBot.save_mood (CallbackQuery uid ("mood_" +:+ str v))
                             (strftime_Ymd t) (bot_world b)).2;
             bot_conv := bot_conv b |}) as -> by reflexivity.
  by rewrite (save_mood_run _ _ _ _ _ (payload_mood v)).
Qed.

(** The mood keyboard and what its buttons do.  [/mood] sends one row of
    eleven buttons labelled 0 to 10.  Whenever the user presses one of them,
    in whatever state the bot is by then, the press is taken by [save_mood]:
    a row with the user, the date of the press and the number on the button
    is added at the end of the mood table, the message is replaced by the
    confirmation with that number, and nothing else changes. *)
Theorem mood_buttons_store_their_number t uid text a :
  let a1 := dispatch t (Command uid "mood" text) a in
  ∃ row : list (string * string),
    bot_world a1 = say (bot_world a) [ReplyText uid "Your mood:" (Some [row])]
    ∧ bot_conv a1 = bot_conv a
    ∧ row.*1 = str <$> [0; 1; 2; 3; 4; 5; 6; 7; 8; 9; 10]
    ∧ ∀ label data,
        (label, data) ∈ row →
        ∃ v, 0 ≤ v ≤ 10 ∧ label = str v
             ∧ ∀ t' b,
                 let b' := dispatch t' (Press uid data) b in
                 mood (db (bot_world b')) =
                   (mood (db (bot_world b))
                      ++ [{| mood_user := uid; mood_date := strftime_Ymd t';
                             mood_value := v |}])%list
                 ∧ sent (bot_world b') =
                     (sent (bot_world b)
                        ++ [Answer uid;
                            EditMessageText uid ("Mood saved: " +:+ label +:+ "/10") None])%list
                 ∧ habits (db (bot_world b')) = habits (db (bot_world b))
                 ∧ habit_logs (db (bot_world b')) = habit_logs (db (bot_world b))
                 ∧ reminders (db (bot_world b')) = reminders (db (bot_world b))
                 ∧ bot_conv b' = bot_conv b.
Proof.
  intros a1.
  exists ((λ i : nat, (str (Z.of_nat i), "mood_" +:+ str (Z.of_nat i))) <$> seq 0 11).
  split; [reflexivity|]. split; [reflexivity|]. split; [reflexivity|].
  intros label data (i & [= -> ->] & Hi)%list_elem_of_fmap.
  apply elem_of_seq in Hi. exists (Z.of_nat i). split; [lia|]. split; [done|].
  intros t' b b'. unfold b'. by rewrite dispatch_mood_press.
Qed.

(** The chart follows the presses.  After a press of a mood button,
    [/mood_progress] sends the chart [data/mood_<uid>.png], and what it plots
    are the (date, value) pairs of the user's rows in the order they were
    stored, the pair of this press last: a second press on the same day is a
    second point, not a correction of the first.  The command writes
    nothing. *)
Theorem mood_chart_follows_presses (t1 t2 : datetime) uid v text a :
  let a1 := dispatch t1 (Press uid ("mood_" +:+ str v)) a in
  let a2 := dispatch t2 (Command uid "mood_progress" text) a1 in
  let earlier := (λ r, (mood_date r, mood_value r))
                   <$> filter (λ r, mood_user r = uid) (mood (db (bot_world a))) in
  sent (bot_world a2) =
    (sent (bot_world a1)
       ++ [ReplyPhoto uid ("data/mood_" +:+ str uid +:+ ".png")
             (earlier ++ [(strftime_Ymd t1, v)])])%list
  ∧ db (bot_world a2) = db (bot_world a1)
  ∧ bot_conv a2 = bot_conv a.
Proof.
  intros a1 a2 earlier.
  assert (a2 = {| bot_world := (HabitBot.mood_progress (Message uid text) (bot_world a1)).2;
                  bot_conv := bot_conv a1 |}) as Ha2 by reflexivity.
  assert (Sql.select_mood uid (db (bot_world a1)) =
          (earlier ++ [(strftime_Ymd t1, v)])%list) as Hrows.
  { unfold a1. rewrite dispatch_mood_press. unfold Sql.select_mood. cbn.
    rewrite filter_app, fmap_app, filter_cons, decide_True by done. done. }
  assert (bot_conv a1 = bot_conv a) as Hconv by (unfold a1; by rewrite dispatch_mood_press).
  rewrite Ha2. unfold HabitBot.mood_progress.
  cbv beta iota zeta delta [mbind handler_bind mret handler_ret query message emit].
  cbn [effective_user fst snd]. rewrite Hrows.
  by destruct earlier.
Qed.

(** A user without a mood row who asks for the chart gets the text "No mood
    data yet" and no photo; nothing is written. *)
Theorem mood_progress_without_rows t uid text a :
  (∀ r, r ∈ mood (db (bot_world a)) → mood_user r ≠ uid) →
  dispatch t (Command uid "mood_progress" text) a =
  {| bot_world := say (bot_world a) [ReplyText uid "No mood data yet 😶" None];
     bot_conv := bot_conv a |}.
Proof.
  intros Hnone.
  assert (Sql.select_mood uid (db (bot_world a)) = []) as Hrows.
  { unfold Sql.select_mood.
    induction (mood (db (bot_world a))) as [|r rows IH]; [done|].
    rewrite filter_cons, decide_False by (apply Hnone; left).
    apply IH. intros r' Hr'. apply Hnone. by right. }
  assert (dispatch t (Command uid "mood_progress" text) a =
          {| bot_world := (HabitBot.mood_progress (Message uid text) (bot_world a)).2;
             bot_conv := bot_conv a |}) as -> by reflexivity.
  unfold HabitBot.mood_progress.
  cbv beta iota zeta delta [mbind handler_bind mret handler_ret query message emit].
  cbn [effective_user fst snd]. by rewrite Hrows.
Qed.

(** User 6 has stored a mood, user 5 has not. *)
Lemma mood_progress_without_rows_witness :
  let t := {| dt_year := 2024; dt_month := 5; dt_day := 1; dt_hour := 8; dt_minute := 30 |} in
  let a := dispatch t (Press 6 "mood_7") boot_bot in
  (∀ r, r ∈ mood (db (bot_world a)) → mood_user r ≠ 5)
  ∧ dispatch t (Command 5 "mood_progress" "/mood_progress") a =
    {| bot_world := say (bot_world a) [ReplyText 5 "No mood data yet 😶" None];
       bot_conv := bot_conv a |}.
Proof.
  intros t a.
  assert (∀ r, r ∈ mood (db (bot_world a)) → mood_user r ≠ 5) as Hnone.
  { intros r Hr. apply elem_of_cons in Hr as [->|Hr]; [discriminate|].
    by apply elem_of_nil in Hr. }
  split; [exact Hnone|].
  exact (mood_progress_without_rows t 5 "/mood_progress" a Hnone).
Defined.
End Views.

(** ** The user data *)

Section UserData.
Implicit Types (w : world) (a b : bot) (s : store) (t : datetime) (d : delivery)
  (uid v : Z) (text data name : string).

Lemma toggle_habit_fails uid data day e w :
  payload_id data = Raise e →
  HabitBot.toggle_habit (CallbackQuery uid data) day w = (Raise e, say w [Answer uid]).
Proof. intros Hid. unfold say. run_handler. by rewrite Hid. Qed.

Lemma save_mood_fails uid data day e w :
  payload_id data = Raise e →
  HabitBot.save_mood (CallbackQuery uid data) day w = (Raise e, say w [Answer uid]).
Proof. intros Hid. unfold say. run_handler. by rewrite Hid. Qed.

Lemma mood_progress_user_data u w :
  user_data (after (HabitBot.mood_progress u) w) = user_data w.
Proof.
  unfold after, HabitBot.mood_progress.
  cbv beta iota zeta delta [mbind handler_bind mret handler_ret query message emit lift
                            HabitBot.send].
  cbn [fst snd]. by destruct (Sql.select_mood _ _), u.
Qed.

Lemma remind_user_data u args w :
  user_data (after (HabitBot.remind u args) w) = user_data w.
Proof.
  destruct args as [|arg rest]; [by rewrite remind_usage|].
  destruct (decide (arg = "off")) as [->|Hoff]; [by rewrite remind_off|].
  destruct (re_match HabitBot.hhmm arg) eqn:Hm.
  - by rewrite remind_set.
  - by rewrite remind_rejected.
Qed.

Lemma Plain_inj (h1 h2 : handler ()) : Plain h1 = Plain h2 → h1 = h2.
Proof. by intros [= ->]. Qed.

(** No handler registered on the application itself touches the user data. *)
Lemma plain_user_data t conv d h w :
  route t conv d = Plain h → user_data (after h w) = user_data w.
Proof.
  unfold route. destruct d as [uid name text|uid text|uid data]; cbn [update_of].
  - case_decide; [intros <-%Plain_inj; unfold after; by rewrite start_run|].
    case_decide; [by intros <-%Plain_inj|].
    case_decide; [by intros <-%Plain_inj|].
    case_decide; [by intros <-%Plain_inj|].
    case_decide; [intros <-%Plain_inj; by rewrite calendar_sent|].
    case_decide; [by intros <-%Plain_inj|].
    case_decide; [intros <-%Plain_inj; apply mood_progress_user_data|].
    case_decide; [intros <-%Plain_inj; apply remind_user_data|].
    by destruct (converse conv _).
  - by destruct (converse conv _).
  - destruct (re_match _ data).
    { intros <-%Plain_inj. unfold after. destruct (payload_id data) as [hid|e] eqn:Hid.
      - by rewrite (toggle_habit_run _ _ _ _ _ Hid).
      - by rewrite (toggle_habit_fails _ _ _ _ _ Hid). }
    destruct (re_match _ data).
    { intros <-%Plain_inj. unfold after. destruct (payload_id data) as [hid|e] eqn:Hid.
      - by rewrite (save_mood_run _ _ _ _ _ Hid).
      - by rewrite (save_mood_fails _ _ _ _ _ Hid). }
    destruct (re_match _ data); [by intros <-%Plain_inj|].
    by destruct (converse conv _).
Qed.

(** A handler of the conversation either leaves the user data alone and does
    not ask for the new name, or is [edit_select] storing an id. *)
Lemma talk_user_data conv d h w :
  converse conv d = Some h →
  (user_data (h w).2 = user_data w ∧ (h w).1 ≠ Ok EDITING_VALUE)
  ∨ ∃ hid, user_data (h w).2 =
             <[sender d := <["edit_habit_id" := hid]>
                             (default ∅ (user_data w !! sender d))]> (user_data w).
Proof.
  unfold converse.
  destruct conv as [[]|], d as [uid name text|uid text|uid data];
    repeat case_decide; try done; intros [= <-]; cbn [update_of sender].
  - left. destruct (decide (data = "add")) as [->|Hadd].
    { by rewrite customize_action_add. }
    destruct (Sql.select_habits uid (db w)) as [|h0 l] eqn:E.
    { by rewrite customize_action_none. }
    rewrite customize_action_choose by (done || by rewrite E).
    split; [done|]. cbn [fst]. by case_decide.
  - left. by rewrite add_habit_run.
  - left. destruct (payload_id data) as [hid|e] eqn:Hid.
    + by rewrite (remove_habit_run _ _ _ _ Hid).
    + by rewrite (remove_habit_fails _ _ _ _ Hid).
  - destruct (payload_id data) as [hid|e] eqn:Hid.
    + right. exists hid. by rewrite (edit_select_run _ _ _ _ Hid).
    + left. by rewrite (edit_select_fails _ _ _ _ Hid).
  - left. by rewrite edit_save_run.
  - left. by rewrite customize_run.
Qed.

Lemma handle_keeps_edit_habit_id t e a :
  (∀ uid, bot_conv a !! uid = Some EDITING_VALUE → is_Some (edit_habit_id uid (bot_world a))) →
  ∀ uid, bot_conv (handle t e a) !! uid = Some EDITING_VALUE →
         is_Some (edit_habit_id uid (bot_world (handle t e a))).
Proof.
  intros Hinv uid. destruct e as [d|]; cbn [handle].
  2:{ cbn [bot_conv bot_world]. rewrite send_reminders_sent. apply Hinv. }
  unfold dispatch.
  destruct (route t (bot_conv a !! sender d) d) as [h|h|] eqn:Hroute; cbn [settle].
  - cbn [bot_conv bot_world]. unfold edit_habit_id.
    rewrite (plain_user_data _ _ _ _ _ Hroute). apply Hinv.
  - assert (converse (bot_conv a !! sender d) d = Some h) as Hh.
    { unfold route in Hroute. destruct d as [u name text|u text|u data]; cbn [sender] in *.
      - repeat (case_decide; [done|]). by destruct (converse _ _) as [h'|]; simplify_eq.
      - by destruct (converse _ _) as [h'|]; simplify_eq.
      - repeat (destruct (re_match _ data); [done|]).
        by destruct (converse _ _) as [h'|]; simplify_eq. }
    cbn [bot_conv bot_world]. unfold edit_habit_id.
    destruct (talk_user_data _ _ _ (bot_world a) Hh) as [[Hdata Hstate]|[hid Hdata]];
      rewrite Hdata.
    + intros Hconv. apply Hinv.
      destruct (h (bot_world a)).1 as [[]|err]; cbn [fst] in *; try done;
        destruct (decide (uid = sender d)) as [->|Hne];
        by rewrite ?lookup_insert_eq, ?lookup_delete_eq, ?lookup_insert_ne,
             ?lookup_delete_ne in Hconv.
    + intros Hconv. destruct (decide (uid = sender d)) as [->|Hne].
      * rewrite lookup_insert_eq. cbn. rewrite lookup_insert_eq. by eexists.
      * rewrite lookup_insert_ne by done. apply Hinv.
        destruct (h (bot_world a)).1 as [[]|err];
          by rewrite ?lookup_insert_ne, ?lookup_delete_ne in Hconv.
  - apply Hinv.
Qed.

(** [edit_save] never updates with a missing id.  On a bot started from
    scratch, whatever it is sent, a user whom the conversation asks for the
    new name of a habit has an [edit_habit_id] in the user data: the
    [ctx.user_data.get] of [edit_save] does not return [None], and its
    [UPDATE] is bound to an id. *)
Theorem edit_save_has_its_habit_id (events : list (datetime * event)) uid :
  bot_conv (serve events boot_bot) !! uid = Some EDITING_VALUE →
  ∃ hid, edit_habit_id uid (bot_world (serve events boot_bot)) = Some hid.
Proof.
  revert uid. induction events as [|[t e] events IH] using rev_ind; intros uid; [done|].
  unfold serve. rewrite foldl_snoc. fold (serve events boot_bot). cbn [fst snd].
  by apply handle_keeps_edit_habit_id.
Qed.

(** User 5 picks habit 2 for a new name. *)
Lemma edit_save_has_its_habit_id_witness :
  let t := {| dt_year := 2024; dt_month := 5; dt_day := 1; dt_hour := 8; dt_minute := 30 |} in
  let events := [(t, Deliver (Command 5 "start" "/start"));
                 (t, Deliver (Command 5 "customize" "/customize"));
                 (t, Deliver (Press 5 "edit"));
                 (t, Deliver (Press 5 "edit_2"));
                 (t, Tick)] in
  bot_conv (serve events boot_bot) !! 5 = Some EDITING_VALUE
  ∧ edit_habit_id 5 (bot_world (serve events boot_bot)) = Some 2
  ∧ ∃ hid, edit_habit_id 5 (bot_world (serve events boot_bot)) = Some hid.
Proof.
  intros t events.
  assert (bot_conv (serve events boot_bot) !! 5 = Some EDITING_VALUE) as Hconv by reflexivity.
  split; [exact Hconv|]. split; [reflexivity|].
  exact (edit_save_has_its_habit_id events 5 Hconv).
Defined.

(** The commands that only show something ([/menu], [/week], [/month],
    [/calendar], [/mood], [/mood_progress]) write nothing: store, user data
    and the state of every conversation are as before, and the sender gets
    one reply. *)
Theorem informational_commands_write_nothing t uid name text a :
  name ∈ informational_commands →
  let a' := dispatch t (Command uid name text) a in
  db (bot_world a') = db (bot_world a)
  ∧ user_data (bot_world a') = user_data (bot_world a)
  ∧ bot_conv a' = bot_conv a
  ∧ ∃ r, sent (bot_world a') = (sent (bot_world a) ++ [r])%list.
Proof.
  intros Hname a'. unfold informational_commands in Hname. unfold a'.
  repeat (apply elem_of_cons in Hname as [->|Hname]);
    [..|by apply elem_of_nil in Hname].
  - repeat split; by eexists.
  - repeat split; by eexists.
  - repeat split; by eexists.
  - change (dispatch t (Command uid "calendar" text) a)
      with {| bot_world := after (HabitBot.calendar (Message uid text) t) (bot_world a);
              bot_conv := bot_conv a |}.
    cbn [bot_world bot_conv]. rewrite calendar_sent. repeat split; by eexists.
  - repeat split; by eexists.
  - change (dispatch t (Command uid "mood_progress" text) a)
      with {| bot_world := after (HabitBot.mood_progress (Message uid text)) (bot_world a);
              bot_conv := bot_conv a |}.
    cbn [bot_world bot_conv]. unfold after, HabitBot.mood_progress.
    cbv beta iota zeta delta [mbind handler_bind mret handler_ret query message emit lift
                              HabitBot.send].
    cbn [fst snd]. destruct (Sql.select_mood _ _); cbn; repeat split; by eexists.
Qed.

(** User 5 asks for the menu. *)
Lemma informational_commands_write_nothing_witness :
  let t := {| dt_year := 2024; dt_month := 5; dt_day := 1; dt_hour := 8; dt_minute := 30 |} in
  let a := dispatch t (Command 5 "start" "/start") boot_bot in
  "menu" ∈ informational_commands
  ∧ db (bot_world (dispatch t (Command 5 "menu" "/menu") a)) = db (bot_world a).
Proof.
  intros t a.
  assert ("menu" ∈ informational_commands) as Hname by left.
  split; [exact Hname|].
  exact (proj1 (informational_commands_write_nothing t 5 "menu" "/menu" a Hname)).
Defined.
End UserData.

(** ** The calendar *)

Section Calendar.
Implicit Types (d t : datetime) (y m i : nat).

Ltac div_lia := Z.div_mod_to_equations; lia.

Lemma is_leap_spec y :
  is_leap y = true ↔
  (Z.of_nat y mod 4 = 0 ∧ (Z.of_nat y mod 100 ≠ 0 ∨ Z.of_nat y mod 400 = 0)).
Proof.
  unfold is_leap.
  rewrite andb_true_iff, orb_true_iff, negb_true_iff, !Nat.eqb_eq, Nat.eqb_neq.
  rewrite <-!(Nat2Z.inj_iff _ 0%nat), !Nat2Z.inj_mod. simpl Z.of_nat. tauto.
Qed.

Lemma days_in_year y :
  (1 ≤ y)%nat →
  days_before_year (S y) = days_before_year y + 337 + Z.of_nat (days_in_month y 2).
Proof.
  intros Hy. unfold days_before_year, days_in_month.
  pose proof (is_leap_spec y) as Hleap.
  replace (Z.of_nat (S y) - 1) with (Z.of_nat y) by lia.
  destruct (is_leap y).
  - destruct (proj1 Hleap eq_refl) as [H4 H100]. cbn [Z.of_nat]. div_lia.
  - assert (¬ (Z.of_nat y mod 4 = 0 ∧ (Z.of_nat y mod 100 ≠ 0 ∨ Z.of_nat y mod 400 = 0)))
      as Hno by (intros H; by apply Hleap in H).
    cbn [Z.of_nat]. div_lia.
Qed.

Lemma days_before_month_S y m :
  days_before_month y (S (S m)) = days_before_month y (S m) + Z.of_nat (days_in_month y (S m)).
Proof.
  unfold days_before_month. cbn [pred]. rewrite seq_S, fmap_app, list_sum_app.
  cbn. lia.
Qed.

Lemma days_before_december y :
  days_before_month y 12 + 31 = 337 + Z.of_nat (days_in_month y 2).
Proof. unfold days_before_month. cbn. destruct (is_leap y); lia. Qed.

Lemma days_in_month_pos y m : (1 ≤ days_in_month y m)%nat.
Proof.
  unfold days_in_month.
  destruct m as [|[|[|[|[|[|[|[|[|[|[|[|m]]]]]]]]]]]]; try lia; destruct (is_leap y); lia.
Qed.

Lemma yesterday_ordinal d :
  valid_date d → 2 ≤ toordinal d →
  valid_date (yesterday d)
  ∧ toordinal (yesterday d) = toordinal d - 1
  ∧ dt_hour (yesterday d) = dt_hour d ∧ dt_minute (yesterday d) = dt_minute d.
Proof.
  destruct d as [y m day h mi]. unfold valid_date, toordinal, yesterday.
  cbn [dt_year dt_month dt_day dt_hour dt_minute].
  intros (Hy & Hm & Hday) Hord.
  destruct day as [|[|day]]; [lia| |].
  - destruct m as [|[|m]]; [lia| |]; cbn [dt_year dt_month dt_day dt_hour dt_minute].
    + destruct y as [|y]; [lia|]. cbn [pred].
      assert (1 ≤ y)%nat as Hy1.
      { destruct y; [|lia]. vm_compute in Hord. by destruct Hord. }
      split; [cbn; lia|]. split; [|done].
      rewrite (days_in_year y Hy1).
      pose proof (days_before_december y).
      change (days_before_month (S y) 1) with 0. lia.
    + pose proof (days_in_month_pos y (S m)).
      split; [repeat split; lia|]. split; [|done]. rewrite days_before_month_S. lia.
  - cbn [dt_year dt_month dt_day dt_hour dt_minute].
    split; [repeat split; lia|]. split; [lia|done].
Qed.

Lemma minus_days_ordinal t i :
  valid_date t → Z.of_nat i < toordinal t →
  valid_date (minus_days t i)
  ∧ toordinal (minus_days t i) = toordinal t - Z.of_nat i
  ∧ dt_hour (minus_days t i) = dt_hour t ∧ dt_minute (minus_days t i) = dt_minute t.
Proof.
  intros Hvalid. unfold minus_days. induction i as [|i IH]; intros Hi.
  { cbn [Nat.iter nat_rect]. split; [done|]. split; [lia|done]. }
  destruct (IH ltac:(lia)) as (Hv & Hord & Hh & Hm).
  change (Nat.iter (S i) yesterday t) with (yesterday (Nat.iter i yesterday t)).
  destruct (yesterday_ordinal _ Hv ltac:(lia)) as (Hv' & Hord' & Hh' & Hm').
  split; [done|]. split; [lia|]. split; congruence.
Qed.
Lemma toordinal_lower t : valid_date t → 365 * (Z.of_nat (dt_year t) - 1) < toordinal t.
Proof.
  intros (Hy & Hm & Hd). unfold toordinal, days_before_year, days_before_month.
  cbn zeta. div_lia.
Qed.

Lemma strftime_d_b_length d : valid_date d → String.length (strftime_d_b d) = 6%nat.
Proof.
  intros (Hy & Hm & Hd). destruct d as [y m day h mi].
  cbn [dt_year dt_month dt_day] in *. unfold strftime_d_b. cbn [dt_month dt_day].
  assert (day ≤ 31)%nat as Hday.
  { unfold days_in_month in Hd.
    destruct m as [|[|[|[|[|[|[|[|[|[|[|[|m]]]]]]]]]]]]; try lia; destruct (is_leap y); lia. }
  assert (forallb (λ day, forallb (λ m,
            String.length (pad2 (S day) +:+ " " +:+ month_abbr (S m)) =? 6)%nat (seq 0 12))
            (seq 0 31) = true) as Hall by (by vm_compute).
  rewrite forallb_forall in Hall. specialize (Hall (pred day)).
  rewrite forallb_forall in Hall. specialize (Hall ltac:(apply in_seq; lia) (pred m)).
  replace (S (pred day)) with day in Hall by lia.
  replace (S (pred m)) with m in Hall by lia.
  apply Nat.eqb_eq, Hall, in_seq. lia.
Qed.

(** The calendar and what its buttons do.  On a clock that shows a date of
    the Gregorian calendar with a four-digit year, [/calendar] sends seven
    buttons, one below the other, for seven days: the day in place [i] (from
    0) is a date of the calendar, and it is the one [i] days before today
    (its ordinal is [i] less than today's, across ends of months, leap days
    and ends of years).  The button of a day is labelled with the six
    characters of its day and month and carries the payload [cal_] followed
    by its ISO date; a press on it is taken by [calendar_pick], which
    answers, replaces the message by "Selected date:" and that ISO date, and
    reads and writes nothing. *)
Theorem calendar_buttons_echo_their_date t uid text a :
  valid_date t → 1000 < Z.of_nat (dt_year t) →
  let a1 := dispatch t (Command uid "calendar" text) a in
  ∃ days : list datetime,
    bot_world a1 =
      say (bot_world a)
          [ReplyText uid "Select date:"
             (Some ((λ d, [(strftime_d_b d, "cal_" +:+ strftime_Ymd d)]) <$> days))]
    ∧ bot_conv a1 = bot_conv a
    ∧ length days = 7%nat
    ∧ ∀ (i : nat) day,
        days !! i = Some day →
        valid_date day
        ∧ toordinal day = toordinal t - Z.of_nat i
        ∧ String.length (strftime_d_b day) = 6%nat
        ∧ ∀ t' b,
            dispatch t' (Press uid ("cal_" +:+ strftime_Ymd day)) b =
            {| bot_world :=
                 say (bot_world b)
                     [Answer uid;
                      EditMessageText uid ("Selected date: " +:+ strftime_Ymd day) None];
               bot_conv := bot_conv b |}.
Proof.
  intros Hvalid Hyear a1. exists (minus_days t <$> seq 0 7).
  split.
  { assert (bot_world a1 = after (HabitBot.calendar (Message uid text) t) (bot_world a))
      as -> by reflexivity.
    by rewrite calendar_sent. }
  split; [reflexivity|]. split; [reflexivity|].
  intros i day Hday. rewrite list_lookup_fmap in Hday.
  destruct (seq 0 7 !! i) as [j|] eqn:Hj; [|done].
  apply lookup_seq in Hj as [-> Hi]. injection Hday as <-. cbn [Nat.add].
  pose proof (toordinal_lower t Hvalid) as Hlow.
  destruct (minus_days_ordinal t i Hvalid ltac:(lia)) as (Hv & Hord & _).
  split; [done|]. split; [done|]. split; [by apply strftime_d_b_length|].
  intros t' b. set (day := minus_days t i).
  unfold dispatch, route. cbn [sender update_of].
  change (re_match [Lit "h"; Lit "_"] ("cal_" +:+ strftime_Ymd day)) with false.
  change (re_match [Lit "m"; Lit "o"; Lit "o"; Lit "d"; Lit "_"]
            ("cal_" +:+ strftime_Ymd day)) with false.
  change (re_match [Lit "c"; Lit "a"; Lit "l"; Lit "_"]
            ("cal_" +:+ strftime_Ymd day)) with true.
  cbn [settle]. unfold say, after, HabitBot.calendar_pick.
  cbv beta iota zeta delta [mbind handler_bind mret handler_ret callback_query emit].
  cbn [fst snd db user_data sent].
  change (slice_from 4 ("cal_" +:+ strftime_Ymd day)) with (strftime_Ymd day).
  by rewrite <-app_assoc.
Qed.

(** On 2 March 2024 the calendar goes back over the leap day to 25
    February. *)
Lemma calendar_buttons_echo_their_date_witness :
  let t := {| dt_year := 2024; dt_month := 3; dt_day := 2; dt_hour := 8; dt_minute := 30 |} in
  let a1 := dispatch t (Command 5 "calendar" "/calendar") boot_bot in
  (valid_date t ∧ 1000 < Z.of_nat (dt_year t))
  ∧ sent (bot_world a1) =
      [ReplyText 5 "Select date:"
         (Some [[("02 Mar", "cal_2024-03-02")]; [("01 Mar", "cal_2024-03-01")];
                [("29 Feb", "cal_2024-02-29")]; [("28 Feb", "cal_2024-02-28")];
                [("27 Feb", "cal_2024-02-27")]; [("26 Feb", "cal_2024-02-26")];
                [("25 Feb", "cal_2024-02-25")]])]
  ∧ ∃ days : list datetime,
      bot_world a1 =
        say (bot_world boot_bot)
            [ReplyText 5 "Select date:"
               (Some ((λ d, [(strftime_d_b d, "cal_" +:+ strftime_Ymd d)]) <$> days))]
      ∧ length days = 7%nat
      ∧ ∀ (i : nat) day, days !! i = Some day → toordinal day = toordinal t - Z.of_nat i.
Proof.
  intros t a1.
  assert (valid_date t) as Hvalid by (unfold valid_date; cbn; lia).
  assert (1000 < Z.of_nat (dt_year t)) as Hyear by (cbn; lia).
  split; [by split|]. split; [reflexivity|].
  destruct (calendar_buttons_echo_their_date t 5 "/calendar" boot_bot Hvalid Hyear)
    as (days & Hsent & _ & Hlen & Hdays).
  exists days. split; [exact Hsent|]. split; [exact Hlen|].
  intros i day Hday. exact (proj1 (proj2 (Hdays i day Hday))).
Defined.
End Calendar.
